(** * monasca-agent: collection-and-aggregation runtime

    A shallow embedding of the service-check scheduler
    ([monasca_agent/collector/checks/services_checks.py]), the statsd UDP
    server ([monasca_agent/statsd/udp.py]), the collector
    ([monasca_agent/collector/checks/collector.py]) and the reporter
    ([monasca_agent/statsd/reporter.py]), with the properties of the
    specification stated and proved over it.

    Python objects are mutated in place and exceptions unwind the stack
    while the mutations already performed stay: methods are therefore
    functions in a state-and-exception monad [M S A = S -> outcome A * S]. *)

From Stdlib Require Import ZArith QArith String Ascii List Bool Lia.
From stdpp Require Import base option gmap strings list pretty.
Import ListNotations.

Set Default Proof Using "Type".

(** ** Python values, exceptions and the method monad *)

Set Warnings "-register-all".

Module Py.

(** The exceptions the modelled code raises or catches.  All of them are
    subclasses of [Exception]; [KeyboardInterrupt] and [SystemExit] are
    not and are kept apart by [is_Exception]. *)
Inductive exn : Type :=
| IndexError
| ValueError
| KeyError
| TypeError
| SyntaxError
| AssertionError
| AttributeError
| NotImplementedError
| select_error (errno : Z)
| Exception (msg : string)
| KeyboardInterrupt
| SystemExit.

Definition is_Exception (e : exn) : bool :=
  match e with
  | KeyboardInterrupt | SystemExit => false
  | _ => true
  end.

Inductive outcome (A : Type) : Type :=
| Return (a : A)
| Raise (e : exn).
Arguments Return {A} a.
Arguments Raise {A} e.

Definition M (S A : Type) : Type := S -> outcome A * S.

Definition ret {S A} (a : A) : M S A := fun s => (Return a, s).

Definition bind {S A B} (m : M S A) (k : A -> M S B) : M S B :=
  fun s =>
    match m s with
    | (Return a, s') => k a s'
    | (Raise e, s') => (Raise e, s')
    end.

Definition raise {S A} (e : exn) : M S A := fun s => (Raise e, s).

Definition get {S} : M S S := fun s => (Return s, s).

Definition modify {S} (f : S -> S) : M S unit := fun s => (Return tt, f s).

(** [try: body except Exception: handler]. *)
Definition try_except {S A} (body : M S A) (handler : exn -> M S A) : M S A :=
  fun s =>
    match body s with
    | (Return a, s') => (Return a, s')
    | (Raise e, s') =>
        if is_Exception e then handler e s' else (Raise e, s')
    end.

Definition when {S} (b : bool) (m : M S unit) : M S unit :=
  if b then m else ret tt.

(** A float: a binary64 number, by the rational it denotes when it is
    finite.  [FNum 0] is the zero [0.0] and [FNegZero] the zero [-0.0];
    the two compare equal. *)
Inductive pyfloat : Type :=
| FNum (q : Q)
| FNegZero
| FInf (negative : bool)
| FNan.

(** The rational a finite float denotes. *)
Definition finite_value (x : pyfloat) : Q :=
  match x with
  | FNum q => q
  | _ => 0
  end.

(** [x <= y] on floats; every comparison with [nan] is false. *)
Definition float_le (x y : pyfloat) : bool :=
  match x, y with
  | FNan, _ | _, FNan => false
  | FInf true, _ => true
  | _, FInf false => true
  | FInf false, _ => false
  | _, FInf true => false
  | _, _ => Qle_bool (finite_value x) (finite_value y)
  end.

(** A value of the fragment of Python the modelled code handles.  The
    items of a dictionary are kept in the order they were written. *)
Inductive pyval : Type :=
| PyNone
| PyBool (b : bool)
| PyInt (n : Z)
| PyFloat (x : pyfloat)
| PyStr (s : string)
| PyTuple (xs : list pyval)
| PyList (xs : list pyval)
| PyDict (kvs : list (pyval * pyval)).

(** [bool(v)]. *)
Definition truthy (v : pyval) : bool :=
  match v with
  | PyNone => false
  | PyBool b => b
  | PyInt n => negb (n =? 0)%Z
  | PyFloat (FNum q) => negb (Qeq_bool q 0)
  | PyFloat FNegZero => false
  | PyFloat _ => true
  | PyStr s => negb (String.eqb s EmptyString)
  | PyTuple xs | PyList xs => negb (Nat.eqb (List.length xs) 0)
  | PyDict kvs => negb (Nat.eqb (List.length kvs) 0)
  end.

(** [v == s] for a byte string [s]. *)
Definition eq_str (v : pyval) (s : string) : bool :=
  match v with
  | PyStr t => String.eqb t s
  | _ => false
  end.

Definition chars (s : string) : list pyval :=
  map (fun c => PyStr (String c EmptyString)) (list_ascii_of_string s).

(** The elements yielded by [iter(v)], or [TypeError]. *)
Definition iterate (v : pyval) : outcome (list pyval) :=
  match v with
  | PyTuple xs | PyList xs => Return xs
  | PyStr s => Return (chars s)
  | PyDict kvs => Return (map fst kvs)
  | PyNone | PyBool _ | PyInt _ | PyFloat _ => Raise TypeError
  end.

(** [a, b = v]. *)
Definition unpack2 (v : pyval) : outcome (pyval * pyval) :=
  match iterate v with
  | Return [a; b] => Return (a, b)
  | Return _ => Raise ValueError
  | Raise e => Raise e
  end.

(** Records of the [logging] module: the method called and its message. *)
Inductive level : Type :=
| debug | info | warning | error | exception | critical.

Definition log_record : Type := level * string.

End Py.
Import Py.

#[global] Instance outcome_ret : MRet outcome := fun _ a => Return a.
#[global] Instance outcome_bind : MBind outcome :=
  fun _ _ k m => match m with Return a => k a | Raise e => Raise e end.
#[global] Instance outcome_fmap : FMap outcome :=
  fun _ _ f m => match m with Return a => Return (f a) | Raise e => Raise e end.
#[global] Instance M_ret {S} : MRet (M S) := fun _ a => ret a.
#[global] Instance M_bind {S} : MBind (M S) := fun _ _ k m => bind m k.

(** ** The service-check scheduler ([services_checks.py]) *)

Module ServicesCheck.

Definition DEFAULT_TIMEOUT : Z := 180.
Definition DEFAULT_SIZE_POOL : Z := 6.
Definition MAX_LOOP_ITERATIONS : Z := 1000.
Definition MAX_ALLOWED_THREADS : Z := 200.
Definition FAILURE : string := "FAILURE".

(** [Status = up_down('UP', 'DOWN')]. *)
Definition Status_UP : string := "UP".
Definition Status_DOWN : string := "DOWN".

(** Dictionaries of the scheduler are keyed by what
    [instance.get('name', None)] returns: a string or [None]. *)
Abbreviation name_t := (option string).

(** An instance configuration, with the keys the scheduler reads. *)
Record Instance : Type := {
  i_name : name_t;
  i_window : option Z;
  i_threshold : option Z
}.

(** The fourth component of a result tuple: the instance dictionary, or
    the string of the failure sentinel. *)
Inductive queue_instance_t : Type :=
| QDict (i : Instance)
| QStr (s : string).

(** A tuple [(status, msg, name, queue_instance)] of the result queue. *)
Record result : Type := {
  r_status : pyval;
  r_msg : pyval;
  r_name : name_t;
  r_instance : queue_instance_t
}.

Definition failure_result : result :=
  {| r_status := PyStr FAILURE; r_msg := PyStr FAILURE;
     r_name := Some FAILURE; r_instance := QStr FAILURE |}.

(** Modelled from the spec: the worker pool of [libs/thread_pool.py], by
    its contract: [Pool(n)] has [n] persistent workers, [apply_async]
    enqueues a job for them, and after [terminate()] and [join()] the
    live worker count is 0. *)
Record Pool : Type := {
  pool_nworkers : Z;
  pool_jobs : list Instance
}.

Definition Pool_new (n : Z) : Pool :=
  {| pool_nworkers := n; pool_jobs := [] |}.

Definition Pool_terminate_join (p : Pool) : Pool :=
  {| pool_nworkers := 0; pool_jobs := pool_jobs p |}.

Definition Pool_apply_async (i : Instance) (p : Pool) : Pool :=
  {| pool_nworkers := pool_nworkers p; pool_jobs := pool_jobs p ++ [i] |}.

Definition get_nworkers (p : Pool) : Z := pool_nworkers p.

(** What the constructor receives and keeps. *)
Record config : Type := {
  check_name : string;
  instance_count : Z;
  threads_count : option Z;
  agent_timeout : option Z
}.

Section Scheduler.

(** A status event and the method that builds it; subclasses define
    [_create_status_event], the scheduler only tests its result against
    [None]. *)
Variable Event : Type.
Variable _create_status_event : pyval -> pyval -> Instance -> option Event.

(** The attributes of a [ServicesCheck] object.  [pool_size], [timeout],
    [pool], [resultsq] and [jobs_status] exist from the first
    [start_pool] on; [restarts] counts the completed [restart_pool] calls
    and is read by no method. *)
Record state : Type := {
  cfg : config;
  statuses : gmap name_t (list pyval);
  notified : gmap name_t string;
  nb_failures : Z;
  pool_started : bool;
  pool_size : Z;
  timeout : Z;
  pool : Pool;
  resultsq : list result;
  jobs_status : gmap name_t Q;
  events : list Event;
  log : list log_record;
  restarts : nat
}.

(** [__init__]. *)
Definition init (c : config) : state :=
  {| cfg := c; statuses := ∅; notified := ∅; nb_failures := 0;
     pool_started := false; pool_size := 0; timeout := 0;
     pool := Pool_new 0; resultsq := []; jobs_status := ∅;
     events := []; log := []; restarts := 0 |}.

Definition set_statuses (v : gmap name_t (list pyval)) (s : state) : state :=
  {| cfg := cfg s; statuses := v; notified := notified s;
     nb_failures := nb_failures s; pool_started := pool_started s;
     pool_size := pool_size s; timeout := timeout s; pool := pool s;
     resultsq := resultsq s; jobs_status := jobs_status s;
     events := events s; log := log s; restarts := restarts s |}.

Definition set_notified (v : gmap name_t string) (s : state) : state :=
  {| cfg := cfg s; statuses := statuses s; notified := v;
     nb_failures := nb_failures s; pool_started := pool_started s;
     pool_size := pool_size s; timeout := timeout s; pool := pool s;
     resultsq := resultsq s; jobs_status := jobs_status s;
     events := events s; log := log s; restarts := restarts s |}.

Definition set_nb_failures (v : Z) (s : state) : state :=
  {| cfg := cfg s; statuses := statuses s; notified := notified s;
     nb_failures := v; pool_started := pool_started s;
     pool_size := pool_size s; timeout := timeout s; pool := pool s;
     resultsq := resultsq s; jobs_status := jobs_status s;
     events := events s; log := log s; restarts := restarts s |}.

Definition set_pool_started (v : bool) (s : state) : state :=
  {| cfg := cfg s; statuses := statuses s; notified := notified s;
     nb_failures := nb_failures s; pool_started := v;
     pool_size := pool_size s; timeout := timeout s; pool := pool s;
     resultsq := resultsq s; jobs_status := jobs_status s;
     events := events s; log := log s; restarts := restarts s |}.

Definition set_pool (v : Pool) (s : state) : state :=
  {| cfg := cfg s; statuses := statuses s; notified := notified s;
     nb_failures := nb_failures s; pool_started := pool_started s;
     pool_size := pool_size s; timeout := timeout s; pool := v;
     resultsq := resultsq s; jobs_status := jobs_status s;
     events := events s; log := log s; restarts := restarts s |}.

Definition set_resultsq (v : list result) (s : state) : state :=
  {| cfg := cfg s; statuses := statuses s; notified := notified s;
     nb_failures := nb_failures s; pool_started := pool_started s;
     pool_size := pool_size s; timeout := timeout s; pool := pool s;
     resultsq := v; jobs_status := jobs_status s;
     events := events s; log := log s; restarts := restarts s |}.

Definition set_jobs_status (v : gmap name_t Q) (s : state) : state :=
  {| cfg := cfg s; statuses := statuses s; notified := notified s;
     nb_failures := nb_failures s; pool_started := pool_started s;
     pool_size := pool_size s; timeout := timeout s; pool := pool s;
     resultsq := resultsq s; jobs_status := v;
     events := events s; log := log s; restarts := restarts s |}.

Definition set_events (v : list Event) (s : state) : state :=
  {| cfg := cfg s; statuses := statuses s; notified := notified s;
     nb_failures := nb_failures s; pool_started := pool_started s;
     pool_size := pool_size s; timeout := timeout s; pool := pool s;
     resultsq := resultsq s; jobs_status := jobs_status s;
     events := v; log := log s; restarts := restarts s |}.

Definition set_log (v : list log_record) (s : state) : state :=
  {| cfg := cfg s; statuses := statuses s; notified := notified s;
     nb_failures := nb_failures s; pool_started := pool_started s;
     pool_size := pool_size s; timeout := timeout s; pool := pool s;
     resultsq := resultsq s; jobs_status := jobs_status s;
     events := events s; log := v; restarts := restarts s |}.

Definition set_restarts (v : nat) (s : state) : state :=
  {| cfg := cfg s; statuses := statuses s; notified := notified s;
     nb_failures := nb_failures s; pool_started := pool_started s;
     pool_size := pool_size s; timeout := timeout s; pool := pool s;
     resultsq := resultsq s; jobs_status := jobs_status s;
     events := events s; log := log s; restarts := v |}.

(** [self.log.<lvl>(msg)]. *)
Definition logm (lvl : level) (msg : string) : M state unit :=
  modify (fun s => set_log (log s ++ [(lvl, msg)]) s).

(** [str(name)]. *)
Definition str_name (n : name_t) : string :=
  match n with
  | Some s => s
  | None => "None"
  end.

(** The pool size [start_pool] computes: the minimum of the number of
    instances and [DEFAULT_SIZE_POOL], unless [threads_count] is set. *)
Definition configured_pool_size (c : config) : Z :=
  let default_size := Z.min (instance_count c) DEFAULT_SIZE_POOL in
  default default_size (threads_count c).

Definition configured_timeout (c : config) : Z :=
  default DEFAULT_TIMEOUT (agent_timeout c).

Definition start_pool : M state unit :=
  logm info "Starting Thread Pool";;
  modify (fun s =>
    {| cfg := cfg s; statuses := statuses s; notified := notified s;
       nb_failures := nb_failures s;
       pool_started := true;
       pool_size := configured_pool_size (cfg s);
       timeout := configured_timeout (cfg s);
       pool := Pool_new (configured_pool_size (cfg s));
       resultsq := [];
       jobs_status := ∅;
       events := events s; log := log s; restarts := restarts s |}).

Definition stop_pool : M state unit :=
  logm info "Stopping Thread Pool";;
  s ← get;
  if pool_started s then
    modify (fun s => set_pool (Pool_terminate_join (pool s)) s);;
    modify (set_jobs_status ∅);;
    s ← get;
    if (get_nworkers (pool s) =? 0)%Z then ret tt else raise AssertionError
  else ret tt.

Definition restart_pool : M state unit :=
  stop_pool;;
  start_pool;;
  modify (fun s => set_restarts (S (restarts s)) s).

Definition stop : M state unit :=
  stop_pool;;
  modify (set_pool_started false).

(** [l.count(s)]. *)
Definition count_str (s : string) (l : list pyval) : nat :=
  length (filter (fun v => eq_str v s = true) l).

(** [for x in l: body(x)]. *)
Fixpoint for_each {S A} (l : list A) (body : A -> M S unit) : M S unit :=
  match l with
  | [] => ret tt
  | x :: l' => body x;; for_each l' body
  end.

(** [del self.jobs_status[name]]. *)
Definition del_jobs_status (name : name_t) : M state unit :=
  s ← get;
  match jobs_status s !! name with
  | Some _ => modify (set_jobs_status (delete name (jobs_status s)))
  | None => raise KeyError
  end.

(** [self.resultsq.put(r)]. *)
Definition resultsq_put (r : result) : M state unit :=
  modify (fun s => set_resultsq (resultsq s ++ [r]) s).

(** The body of the loop of [_process_results], from the test of the
    status on; [continue] is the end of the first branch. *)
Definition process_result (r : result) : M state unit :=
  let status := r_status r in
  let msg := r_msg r in
  let name := r_name r in
  if eq_str status FAILURE then
    modify (fun s => set_nb_failures (nb_failures s + 1) s);;
    s ← get;
    when (nb_failures s >=? pool_size s - 1)%Z
      (modify (set_nb_failures 0);; restart_pool)
  else
    s ← get;
    when (negb (bool_decide (is_Some (statuses s !! name))))
      (modify (fun s => set_statuses (<[name := []]> (statuses s)) s));;
    modify (fun s =>
      set_statuses
        (<[name := default [] (statuses s !! name) ++ [status]]> (statuses s))
        s);;
    match r_instance r with
    | QStr _ => raise AttributeError
    | QDict queue_instance =>
        let window := default 1%Z (i_window queue_instance) in
        window ←
          (if (window >? 256)%Z then
             logm warning
               "Maximum window size (256) exceeded, defaulting it to 256";;
             ret 256%Z
           else ret window);
        let threshold := default 1%Z (i_threshold queue_instance) in
        s ← get;
        when (Z.of_nat (length (default [] (statuses s !! name))) >? window)%Z
          (modify (fun s =>
             set_statuses
               (<[name := tail (default [] (statuses s !! name))]> (statuses s))
               s));;
        s ← get;
        let nb_failures :=
          Z.of_nat (count_str Status_DOWN (default [] (statuses s !! name))) in
        event ←
          (if (nb_failures >=? threshold)%Z then
             if negb (String.eqb (default Status_UP (notified s !! name))
                                 Status_DOWN) then
               modify (fun s =>
                 set_notified (<[name := Status_DOWN]> (notified s)) s);;
               ret (_create_status_event status msg queue_instance)
             else ret None
           else
             if negb (String.eqb (default Status_UP (notified s !! name))
                                 Status_UP) then
               modify (fun s =>
                 set_notified (<[name := Status_UP]> (notified s)) s);;
               ret (_create_status_event status msg queue_instance)
             else ret None);
        match event with
        | Some e => modify (fun s => set_events (events s ++ [e]) s)
        | None => ret tt
        end;;
        del_jobs_status name
    end.

(** The loop of [_process_results]: at most [n] iterations, each taking
    one result off the queue; an empty queue ends it ([Queue.Empty]). *)
Fixpoint drain (n : nat) : M state unit :=
  match n with
  | O => ret tt
  | S n' =>
      s ← get;
      match resultsq s with
      | [] => ret tt
      | r :: q =>
          modify (set_resultsq q);;
          process_result r;;
          drain n'
      end
  end.

Definition _process_results : M state unit :=
  drain (Z.to_nat MAX_LOOP_ITERATIONS).

(** [now - start_time > timeout]. *)
Definition exceeds (now start_time : Q) (timeout : Z) : bool :=
  negb (Qle_bool (now - start_time) (inject_Z timeout)).

(** [_clean], with the reading [now] of the clock; [items()] is a copy of
    the dictionary taken before the loop. *)
Definition _clean (now : Q) : M state unit :=
  s ← get;
  for_each (map_to_list (jobs_status s)) (fun item =>
    s ← get;
    when (exceeds now (snd item) (timeout s))
      (logm critical "Restarting Pool. One check is stuck.";;
       restart_pool)).

(** What one call of [check] reads from its environment: the number of
    live threads and the clock, in [_clean] and at the submission. *)
Record readings : Type := {
  active_count : Z;
  clean_time : Q;
  submit_time : Q
}.

Definition too_many_threads (n : Z) (s : state) : string :=
  "Thread number (" +:+ pretty n +:+ ") exceeds maximum (" +:+
  pretty MAX_ALLOWED_THREADS +:+ "). Skipping this check." +:+
  (if (pool_size s >=? MAX_ALLOWED_THREADS)%Z then
     " threads_count is set too high in the " +:+ check_name (cfg s) +:+
     " plugin config."
   else "  Another plugin may have threads_count set too high.").

Definition check (env : readings) (instance : Instance) : M state unit :=
  s ← get;
  when (negb (pool_started s)) start_pool;;
  if (active_count env >? MAX_ALLOWED_THREADS)%Z then
    s ← get;
    raise (Exception (too_many_threads (active_count env) s))
  else
    _process_results;;
    _clean (clean_time env);;
    let name := i_name instance in
    match name with
    | None => logm error "Each service check must have a name"
    | Some _ =>
        s ← get;
        if bool_decide (is_Some (jobs_status s !! name)) then
          logm info ("Instance: " +:+ str_name name +:+
                     " skipped because it's already running.")
        else
          modify (fun s =>
            set_jobs_status (<[name := submit_time env]> (jobs_status s)) s);;
          modify (fun s => set_pool (Pool_apply_async instance (pool s)) s)
    end.

(** [_process], run by a worker of the pool, for a given [_check]. *)
Definition _process (_check : Instance -> outcome pyval)
    (instance : Instance) : M state unit :=
  let name := i_name instance in
  try_except
    (match _check instance with
     | Raise e => raise e
     | Return return_value =>
         if negb (truthy return_value) then del_jobs_status name
         else
           match unpack2 return_value with
           | Raise e => raise e
           | Return (status, msg) =>
               resultsq_put
                 {| r_status := status; r_msg := msg; r_name := name;
                    r_instance := QDict instance |}
           end
     end)
    (fun _ =>
       logm exception ("Failure in ServiceCheck " +:+ str_name name);;
       resultsq_put failure_result).

(** [_check] of the base class. *)
Definition base_check (instance : Instance) : outcome pyval :=
  Raise NotImplementedError.

(** *** What the methods compute, in closed form

    The definitions below describe states and are compared with the
    methods above by the theorems of [SchedulerFacts]. *)

(** The window [process_result] uses for an instance. *)
Definition effective_window (i : Instance) : Z :=
  let window := default 1%Z (i_window i) in
  if (window >? 256)%Z then 256%Z else window.

(** The history of a target after one more status, for a window. *)
Definition push_status (h : list pyval) (status : pyval) (window : Z)
    : list pyval :=
  if (Z.of_nat (length (h ++ [status])) >? window)%Z
  then tail (h ++ [status])
  else h ++ [status].

(** The logical state of a history: [Status_DOWN] when the count of DOWN
    reaches the threshold. *)
Definition logical_state (h : list pyval) (threshold : Z) : string :=
  if (Z.of_nat (count_str Status_DOWN h) >=? threshold)%Z
  then Status_DOWN else Status_UP.

(** The state after a pool restart. *)
Definition restarted (s : state) : state :=
  {| cfg := cfg s; statuses := statuses s; notified := notified s;
     nb_failures := nb_failures s;
     pool_started := true;
     pool_size := configured_pool_size (cfg s);
     timeout := configured_timeout (cfg s);
     pool := Pool_new (configured_pool_size (cfg s));
     resultsq := [];
     jobs_status := ∅;
     events := events s;
     log := log s ++ [(info, "Stopping Thread Pool");
                      (info, "Starting Thread Pool")];
     restarts := S (restarts s) |}.

(** The state after a result other than the failure sentinel, for a
    target whose job is in flight. *)
Definition after_result (r : result) (qi : Instance) (s : state) : state :=
  let name := r_name r in
  let h := push_status (default [] (statuses s !! name)) (r_status r)
             (effective_window qi) in
  let new := logical_state h (default 1%Z (i_threshold qi)) in
  let flips := negb (String.eqb (default Status_UP (notified s !! name)) new) in
  {| cfg := cfg s;
     statuses := <[name := h]> (statuses s);
     notified := if flips then <[name := new]> (notified s) else notified s;
     nb_failures := nb_failures s;
     pool_started := pool_started s;
     pool_size := pool_size s;
     timeout := timeout s;
     pool := pool s;
     resultsq := resultsq s;
     jobs_status := delete name (jobs_status s);
     events :=
       events s ++
       (if flips
        then option_list (_create_status_event (r_status r) (r_msg r) qi)
        else []);
     log :=
       log s ++
       (if (default 1%Z (i_window qi) >? 256)%Z
        then [(warning,
               "Maximum window size (256) exceeded, defaulting it to 256")]
        else []);
     restarts := restarts s |}.

(** The state after a job for [instance] is handed to the pool. *)
Definition submitted (env : readings) (instance : Instance) (s : state)
    : state :=
  set_pool (Pool_apply_async instance (pool s))
    (set_jobs_status (<[i_name instance := submit_time env]> (jobs_status s)) s).

(** The state after [check] finds the target already in flight. *)
Definition skipped (instance : Instance) (s : state) : state :=
  set_log
    (log s ++
     [(info, "Instance: " +:+ str_name (i_name instance) +:+
             " skipped because it's already running.")])
    s.

(** A job in flight, as an item of [jobs_status], is older than the
    timeout at the time [now]. *)
Definition stuck (now : Q) (s : state) (item : name_t * Q) : bool :=
  exceeds now (snd item) (timeout s).

(** Some job in flight is stuck at the time [now]. *)
Definition some_stuck (now : Q) (s : state) : bool :=
  existsb (stuck now s) (map_to_list (jobs_status s)).

(** One collection cycle for a target: the worker of its job in flight
    runs [_process] with a [_check] that returns [(status, msg)], then the
    collector calls [check] again. *)
Definition cycle (env : readings) (instance : Instance)
    (status msg : pyval) : M state unit :=
  _process (fun _ => Return (PyTuple [status; msg])) instance;;
  check env instance.

(** The readings of a cycle leave the other targets alone: the thread
    count is within the ceiling and no other job in flight is stuck. *)
Definition calm (env : readings) (name : name_t) (s : state) : bool :=
  (active_count env <=? MAX_ALLOWED_THREADS)%Z &&
  forallb
    (fun item =>
       bool_decide (fst item = name) || negb (stuck (clean_time env) s item))
    (map_to_list (jobs_status s)).

(** Cycles in sequence, each with its readings and the [(status, msg)]
    its worker returns. *)
Definition cycles (instance : Instance)
    (obs : list (readings * pyval * pyval)) : M state unit :=
  for_each obs (fun o => cycle (fst (fst o)) instance (snd (fst o)) (snd o)).

(** The state after a worker reports the failure sentinel. *)
Definition failed (instance : Instance) (s : state) : state :=
  set_resultsq (resultsq s ++ [failure_result])
    (set_log
       (log s ++
        [(exception, "Failure in ServiceCheck " +:+ str_name (i_name instance))])
       s).

(** The state after a worker delivers [(status, msg)]. *)
Definition delivered (instance : Instance) (status msg : pyval) (s : state)
    : state :=
  set_resultsq
    (resultsq s ++
     [{| r_status := status; r_msg := msg; r_name := i_name instance;
         r_instance := QDict instance |}])
    s.

(** The state [check] works on: the pool is started on the first call. *)
Definition ready (s : state) : state :=
  if pool_started s then s else snd (start_pool s).

(** The last step of [check], on the state the scan leaves. *)
Definition concluded (env : readings) (instance : Instance) (s : state)
    : state :=
  match i_name instance with
  | None => set_log (log s ++ [(error, "Each service check must have a name")]) s
  | Some _ =>
      if bool_decide (is_Some (jobs_status s !! i_name instance))
      then skipped instance s
      else submitted env instance s
  end.


(** One iteration of the loop of [_clean]. *)
Definition scan_step (now : Q) (s : state) (item : name_t * Q)
    : state :=
  if exceeds now (snd item) (timeout s)
  then restarted
         (set_log (log s ++ [(critical, "Restarting Pool. One check is stuck.")]) s)
  else s.

(** The state after [_clean] at the time [now]. *)
Definition scanned (now : Q) (s : state) : state :=
  foldl (scan_step now) s (map_to_list (jobs_status s)).

(** What a run of cycles keeps for a target: the pool is started, the
    queue is drained, the job of the target is in flight, readings calm
    for [s0] are calm for [s], and the history, the notified state and the
    events are the given ones. *)
Definition tracked (name : string) (s : state) (h : option (list pyval))
    (nt : option string) (evs : list Event) (s0 : state) : Prop :=
  pool_started s = true /\
  resultsq s = [] /\
  is_Some (jobs_status s !! Some name) /\
  (forall env, calm env (Some name) s0 = true -> calm env (Some name) s = true) /\
  statuses s !! Some name = h /\
  notified s !! Some name = nt /\
  events s = evs.

(** A result that carries the failure sentinel as its status. *)
Definition is_failure (r : result) : Prop :=
  eq_str (r_status r) FAILURE = true.

End Scheduler.

Arguments cfg {Event} _.
Arguments statuses {Event} _.
Arguments notified {Event} _.
Arguments nb_failures {Event} _.
Arguments pool_started {Event} _.
Arguments pool_size {Event} _.
Arguments timeout {Event} _.
Arguments pool {Event} _.
Arguments resultsq {Event} _.
Arguments jobs_status {Event} _.
Arguments events {Event} _.
Arguments log {Event} _.
Arguments restarts {Event} _.
Arguments init {Event} _.
Arguments set_statuses {Event} _ _.
Arguments set_notified {Event} _ _.
Arguments set_nb_failures {Event} _ _.
Arguments set_pool_started {Event} _ _.
Arguments set_pool {Event} _ _.
Arguments set_resultsq {Event} _ _.
Arguments set_jobs_status {Event} _ _.
Arguments set_events {Event} _ _.
Arguments set_log {Event} _ _.
Arguments set_restarts {Event} _ _.
Arguments logm {Event} _ _ _.
Arguments start_pool {Event} _.
Arguments stop_pool {Event} _.
Arguments restart_pool {Event} _.
Arguments stop {Event} _.
Arguments del_jobs_status {Event} _ _.
Arguments resultsq_put {Event} _ _.
Arguments process_result {Event} _ _ _.
Arguments drain {Event} _ _ _.
Arguments _process_results {Event} _ _.
Arguments _clean {Event} _ _.
Arguments too_many_threads {Event} _ _.
Arguments check {Event} _ _ _ _.
Arguments _process {Event} _ _ _.
Arguments restarted {Event} _.
Arguments after_result {Event} _ _ _ _.
Arguments submitted {Event} _ _ _.
Arguments skipped {Event} _ _.
Arguments stuck {Event} _ _ _.
Arguments some_stuck {Event} _ _.
Arguments cycle {Event} _ _ _ _ _ _.
Arguments calm {Event} _ _ _.
Arguments cycles {Event} _ _ _ _.
Arguments tracked {Event} _ _ _ _ _ _.
Arguments failed {Event} _ _.
Arguments delivered {Event} _ _ _ _.
Arguments ready {Event} _.
Arguments concluded {Event} _ _ _.
Arguments scan_step {Event} _ _ _.
Arguments scanned {Event} _ _.

End ServicesCheck.

(** ** Concrete schedulers, used to run the model *)

Module SchedulerExamples.
Import ServicesCheck.

(** Events that record the arguments of [_create_status_event]. *)
Definition event : Type := pyval * pyval * Instance.

Definition create_event (status msg : pyval) (i : Instance) : option event :=
  Some (status, msg, i).

Definition http_check : config :=
  {| check_name := "http_check"; instance_count := 3;
     threads_count := None; agent_timeout := None |}.

Definition web : Instance :=
  {| i_name := Some "web"; i_window := Some 3%Z; i_threshold := Some 2%Z |}.

Definition at_time (t : Z) : readings :=
  {| active_count := 10; clean_time := inject_Z t; submit_time := inject_Z t |}.

(** A scheduler after its first [check(web)]: the pool is started and the
    job of [web] is in flight since time 0. *)
Definition web_in_flight : state event :=
  snd (check create_event (at_time 0) web (init http_check)).


(** The worker of [web] has put its result, UP, on the queue. *)
Definition web_delivered : state event :=
  snd (_process (fun _ => Return (PyTuple [PyStr Status_UP; PyStr "ok"])) web
         web_in_flight).

(** Two failure sentinels wait on the queue of a pool of size 3. *)
Definition two_failures : state event :=
  set_resultsq [failure_result; failure_result] web_in_flight.

(** An instance whose configured window is larger than 256. *)
Definition wide : Instance :=
  {| i_name := Some "web"; i_window := Some 300%Z; i_threshold := None |}.

Definition wide_result : result :=
  {| r_status := PyStr Status_UP; r_msg := PyStr "ok"; r_name := Some "web";
     r_instance := QDict wide |}.

(** A [_check] that returns [None]. *)
Definition check_returns_none (i : Instance) : outcome pyval := Return PyNone.

End SchedulerExamples.

(** ** Strings of Python, as far as the statsd server uses them *)

Module PyString.

Definition newline : ascii := "010"%char.

(** [c.isspace()]: space, and tab to carriage return. *)
Definition is_space (c : ascii) : bool :=
  let n := nat_of_ascii c in
  Nat.eqb n 32 || (Nat.leb 9 n && Nat.leb n 13).

(** [s.split(sep)] for a separator of one character. *)
Fixpoint split (sep : ascii) (s : string) : list string :=
  match s with
  | EmptyString => [EmptyString]
  | String c s' =>
      if Ascii.eqb c sep then EmptyString :: split sep s'
      else
        match split sep s' with
        | w :: ws => String c w :: ws
        | [] => [String c EmptyString]
        end
  end.

(** [s.split(sep, 1)]. *)
Fixpoint split1 (sep : ascii) (s : string) : list string :=
  match s with
  | EmptyString => [EmptyString]
  | String c s' =>
      if Ascii.eqb c sep then [EmptyString; s']
      else
        match split1 sep s' with
        | w :: ws => String c w :: ws
        | [] => [String c EmptyString]
        end
  end.

Fixpoint lstrip (s : string) : string :=
  match s with
  | EmptyString => EmptyString
  | String c s' => if is_space c then lstrip s' else s
  end.

Definition reverse (s : string) : string :=
  string_of_list_ascii (rev (list_ascii_of_string s)).

(** [s.strip()]. *)
Definition strip (s : string) : string :=
  reverse (lstrip (reverse (lstrip s))).

(** [s.startswith(p)]. *)
Definition startswith (p s : string) : bool := String.prefix p s.

(** An index of a slice, brought into [0 .. len]. *)
Definition clamp (len i : Z) : Z :=
  if (i <? 0)%Z then Z.max 0 (i + len) else Z.min i len.

(** [s[start:stop]]; [None] stands for an omitted bound. *)
Definition slice (s : string) (start stop : option Z) : string :=
  let len := Z.of_nat (String.length s) in
  let a := match start with None => 0%Z | Some i => clamp len i end in
  let b := match stop with None => len | Some j => clamp len j end in
  substring (Z.to_nat a) (Z.to_nat (b - a)) s.

(** [s[0]]. *)
Definition first (s : string) : outcome ascii :=
  match s with
  | EmptyString => Raise IndexError
  | String c _ => Return c
  end.

(** [s.replace('\\n', '\n')]: a backslash followed by [n] becomes a
    newline. *)
Fixpoint unescape_newlines (s : string) : string :=
  match s with
  | EmptyString => EmptyString
  | String c s' =>
      match s' with
      | String c' s'' =>
          if Ascii.eqb c "\"%char && Ascii.eqb c' "n"%char
          then String newline (unescape_newlines s'')
          else String c (unescape_newlines s')
      | EmptyString => s
      end
  end.

(** [unicode(s)] with the default codec: bytes above 127 raise
    [UnicodeDecodeError], a [ValueError]. *)
Definition unicode (s : string) : outcome string :=
  if forallb (fun c => Nat.ltb (nat_of_ascii c) 128) (list_ascii_of_string s)
  then Return s else Raise ValueError.

Definition digit (c : ascii) : option Z :=
  let n := nat_of_ascii c in
  if Nat.leb 48 n && Nat.leb n 57 then Some (Z.of_nat (n - 48)) else None.

Fixpoint digits (s : string) (acc : Z) : option Z :=
  match s with
  | EmptyString => Some acc
  | String c s' =>
      match digit c with
      | Some d => digits s' (10 * acc + d)%Z
      | None => None
      end
  end.

(** A non-empty run of decimal digits. *)
Definition unsigned (s : string) : option Z :=
  match s with
  | EmptyString => None
  | _ => digits s 0
  end.

(** An optional sign, then a non-empty run of digits. *)
Definition signed (s : string) : option Z :=
  match s with
  | String "-"%char s' => Z.opp <$> unsigned s'
  | String "+"%char s' => unsigned s'
  | _ => unsigned s
  end.

(** [int(s)]. *)
Definition int (s : string) : outcome Z :=
  match signed (strip s) with
  | Some n => Return n
  | None => Raise ValueError
  end.

Definition lower (c : ascii) : ascii :=
  let n := nat_of_ascii c in
  if Nat.leb 65 n && Nat.leb n 90 then ascii_of_nat (n + 32) else c.

Fixpoint lowercase (s : string) : string :=
  match s with
  | EmptyString => EmptyString
  | String c s' => String (lower c) (lowercase s')
  end.

(** [m * 10 ^ e], exactly. *)
Definition scale (m e : Z) : Q :=
  if (0 <=? e)%Z then inject_Z (m * 10 ^ e)
  else Qmake m (Z.to_pos (10 ^ (- e))).

(** An unsigned decimal: digits with at most one point and at least one
    digit, then an optional exponent. *)
Definition decimal (s : string) : option Q :=
  match split1 "e"%char (lowercase s) with
  | mantissa :: rest =>
      let exponent :=
        match rest with
        | [] => Some 0%Z
        | e :: _ => signed e
        end in
      let parts :=
        match split1 "."%char mantissa with
        | [i] => Some (i, EmptyString)
        | [i; f] => Some (i, f)
        | _ => None
        end in
      match exponent, parts with
      | Some e, Some (i, f) =>
          if String.eqb (i +:+ f) EmptyString then None
          else
            match digits (i +:+ f) 0 with
            | Some m => Some (scale m (e - Z.of_nat (String.length f)))
            | None => None
            end
      | _, _ => None
      end
  | [] => None
  end.

(** [n / d] rounded to the nearest integer, a tie to the even one, for
    [0 <= n] and [0 < d]. *)
Definition round_half_even (n d : Z) : Z :=
  let q := (n / d)%Z in
  match (2 * (n mod d) ?= d)%Z with
  | Lt => q
  | Gt => (q + 1)%Z
  | Eq => if Z.even q then q else (q + 1)%Z
  end.

(** The binary64 number nearest to the rational [n / d], for [0 < n] and
    [0 < d], as the correctly rounded conversion of Python 2.7 gives it:
    a significand of at most 53 bits at the exponent [k], which is not
    below -1074 (the subnormal numbers); a tie goes to the even
    significand, a value that rounds to [2 ^ 1024] or more is [inf], and
    a value that rounds to nothing is [0.0]. *)
Definition nearest_binary64 (n d : Z) : pyfloat :=
  let e := (Z.log2 n - Z.log2 d)%Z in
  let reaches :=
    if (0 <=? e)%Z then (d * 2 ^ e <=? n)%Z else (d <=? n * 2 ^ (- e))%Z in
  let l := if reaches then e else (e - 1)%Z in
  let k := Z.max (l - 52) (-1074) in
  let m :=
    if (0 <=? k)%Z then round_half_even n (d * 2 ^ k)
    else round_half_even (n * 2 ^ (- k)) d in
  if (m =? 0)%Z then FNum 0
  else if (971 <? k)%Z || ((k =? 971)%Z && (m =? 2 ^ 53)%Z) then FInf false
  else
    FNum (Qred (if (0 <=? k)%Z then inject_Z (m * 2 ^ k)
                else Qmake m (Z.to_pos (2 ^ (- k))))).

(** The float nearest to a rational that is not negative. *)
Definition round_float (q : Q) : pyfloat :=
  if (Qnum q <=? 0)%Z then FNum 0
  else nearest_binary64 (Qnum q) (Z.pos (Qden q)).

Definition unsigned_float (s : string) : option pyfloat :=
  let l := lowercase s in
  if String.eqb l "inf" || String.eqb l "infinity" then Some (FInf false)
  else if String.eqb l "nan" then Some FNan
  else round_float <$> decimal s.

Definition negate (x : pyfloat) : pyfloat :=
  match x with
  | FNum q => if Qeq_bool q 0 then FNegZero else FNum (- q)
  | FNegZero => FNum 0
  | FInf negative => FInf (negb negative)
  | FNan => FNan
  end.

(** [float(s)]. *)
Definition float (s : string) : outcome pyfloat :=
  let t := strip s in
  let r :=
    match t with
    | String "-"%char t' => negate <$> unsigned_float t'
    | String "+"%char t' => unsigned_float t'
    | _ => unsigned_float t
    end in
  match r with
  | Some x => Return x
  | None => Raise ValueError
  end.

Fixpoint insert_sorted (x : string) (l : list string) : list string :=
  match l with
  | [] => [x]
  | y :: l' => if String.leb x y then x :: l else y :: insert_sorted x l'
  end.

(** [sorted(l)] for a list of strings. *)
Definition sorted (l : list string) : list string :=
  fold_right insert_sorted [] l.

End PyString.

(** ** A partial [ast.literal_eval]

    The statsd server evaluates the dimensions of a metric packet with
    [ast.literal_eval], a function of the Python library.  The server is
    modelled for any such function; this evaluator only serves to run the
    model on concrete packets.  It gives the answer of Python 2.7 on the
    atoms [None], [True], [False], integers in decimal or, with a leading
    zero, octal notation under an optional minus sign, and strings
    between single or double quotes with neither prefix nor backslash; on
    the dictionary displays whose keys and values are such atoms; on a
    bare name ([ValueError]); on a text that starts with a space and on
    pairs such as [env:prod] ([SyntaxError]).  Every other text is
    answered with [SyntaxError], which is not the answer of Python where
    Python accepts the text (a float, a list or a tuple, a nested
    display, a hexadecimal or long integer, adjacent strings): no
    statement about the server depends on the evaluator. *)

Module Ast.

Inductive token : Type :=
| TLBrace | TRBrace | TColon | TComma | TMinus
| TStr (s : string)
| TInt (n : Z)
| TName (s : string)
| TBad.

Inductive mode : Type :=
| Start
| InStr (quote : ascii) (acc : list ascii)
| InWord (acc : list ascii).

Inductive action : Type :=
| Skip
| Emit (t : token)
| Enter (m : mode).

Definition double_quote : ascii := "034"%char.

Definition is_word (c : ascii) : bool :=
  let n := nat_of_ascii c in
  (Nat.leb 48 n && Nat.leb n 57) || (Nat.leb 65 n && Nat.leb n 90) ||
  (Nat.leb 97 n && Nat.leb n 122) || Nat.eqb n 95.

Definition start (c : ascii) : action :=
  if Ascii.eqb c " "%char then Skip
  else if Ascii.eqb c "{"%char then Emit TLBrace
  else if Ascii.eqb c "}"%char then Emit TRBrace
  else if Ascii.eqb c ":"%char then Emit TColon
  else if Ascii.eqb c ","%char then Emit TComma
  else if Ascii.eqb c "-"%char then Emit TMinus
  else if Ascii.eqb c "'"%char || Ascii.eqb c double_quote then Enter (InStr c [])
  else if is_word c then Enter (InWord [c])
  else Emit TBad.

Fixpoint octal (s : string) (acc : Z) : option Z :=
  match s with
  | EmptyString => Some acc
  | String c s' =>
      match PyString.digit c with
      | Some d => if (d <? 8)%Z then octal s' (8 * acc + d)%Z else None
      | None => None
      end
  end.

(** An integer of Python 2: a run of digits is decimal, unless it starts
    with a zero: then it is octal. *)
Definition integer (w : string) : option Z :=
  match w with
  | String "0"%char w' => octal w' 0
  | _ => PyString.unsigned w
  end.

Definition word (acc : list ascii) : token :=
  let w := string_of_list_ascii (rev acc) in
  match integer w with
  | Some n => TInt n
  | None =>
      match w with
      | String c _ =>
          match PyString.digit c with Some _ => TBad | None => TName w end
      | EmptyString => TBad
      end
  end.

Fixpoint lex (m : mode) (cs : list ascii) : list token :=
  match cs with
  | [] =>
      match m with
      | Start => []
      | InStr _ _ => [TBad]
      | InWord acc => [word acc]
      end
  | c :: cs' =>
      match m with
      | InStr quote acc =>
          if Ascii.eqb c quote
          then TStr (string_of_list_ascii (rev acc)) :: lex Start cs'
          else if Ascii.eqb c "\"%char then [TBad]
          else lex (InStr quote (c :: acc)) cs'
      | InWord acc =>
          if is_word c then lex (InWord (c :: acc)) cs'
          else
            word acc ::
            match start c with
            | Skip => lex Start cs'
            | Emit t => t :: lex Start cs'
            | Enter m' => lex m' cs'
            end
      | Start =>
          match start c with
          | Skip => lex Start cs'
          | Emit t => t :: lex Start cs'
          | Enter m' => lex m' cs'
          end
      end
  end.

Definition is_bad (t : token) : bool :=
  match t with TBad => true | _ => false end.

(** An atom at the head of the tokens: its value, or [ValueError] for a
    name that is no literal, and the tokens left; [None] when the tokens
    do not start with an atom. *)
Definition atom (ts : list token) : option (outcome pyval * list token) :=
  match ts with
  | TStr s :: ts' => Some (Return (PyStr s), ts')
  | TInt n :: ts' => Some (Return (PyInt n), ts')
  | TMinus :: TInt n :: ts' => Some (Return (PyInt (- n)), ts')
  | TName n :: ts' =>
      Some (if String.eqb n "None" then Return PyNone
            else if String.eqb n "True" then Return (PyBool true)
            else if String.eqb n "False" then Return (PyBool false)
            else Raise ValueError, ts')
  | _ => None
  end.

(** Keys that compare equal in Python: equal strings, and equal numbers,
    where [True] is 1 and [False] is 0. *)
Definition key_eqb (a b : pyval) : bool :=
  match a, b with
  | PyStr s, PyStr t => String.eqb s t
  | PyNone, PyNone => true
  | PyInt m, PyInt n => (m =? n)%Z
  | PyBool x, PyBool y => Bool.eqb x y
  | PyInt m, PyBool y | PyBool y, PyInt m => (m =? (if y then 1 else 0))%Z
  | _, _ => false
  end.

(** [d[k] = v]: the value of an equal key is replaced in place. *)
Fixpoint dict_set (k v : pyval) (d : list (pyval * pyval))
    : list (pyval * pyval) :=
  match d with
  | [] => [(k, v)]
  | (k', v') :: d' =>
      if key_eqb k k' then (k', v) :: d' else (k', v') :: dict_set k v d'
  end.

(** The items of a dictionary display after its opening brace. *)
Fixpoint items (fuel : nat) (ts : list token) (acc : outcome (list (pyval * pyval)))
    : option (outcome (list (pyval * pyval)) * list token) :=
  match fuel with
  | O => None
  | S fuel' =>
      match ts with
      | TRBrace :: ts' => Some (acc, ts')
      | _ =>
          match atom ts with
          | Some (k, TColon :: ts1) =>
              match atom ts1 with
              | Some (v, ts2) =>
                  let acc' :=
                    d ← acc; k' ← k; v' ← v; mret (dict_set k' v' d) in
                  match ts2 with
                  | TComma :: ts3 => items fuel' ts3 acc'
                  | TRBrace :: ts3 => Some (acc', ts3)
                  | _ => None
                  end
              | None => None
              end
          | _ => None
          end
      end
  end.

Definition expression (ts : list token)
    : option (outcome pyval * list token) :=
  match ts with
  | TLBrace :: ts' =>
      match items (S (length ts')) ts' (Return []) with
      | Some (d, rest) => Some (PyDict <$> d, rest)
      | None => None
      end
  | _ => atom ts
  end.

Definition literal_eval (s : string) : outcome pyval :=
  let ts := lex Start (list_ascii_of_string s) in
  if existsb is_bad ts || String.prefix " " s then Raise SyntaxError
  else
    match expression ts with
    | Some (v, []) => v
    | _ => Raise SyntaxError
    end.

End Ast.


(** ** The statsd UDP server ([udp.py]) *)

Module Udp.

Definition UDP_SOCKET_TIMEOUT : Z := 5.

(** The classes of [monasca_agent.common.metrics] that [metric_class]
    names. *)
Inductive metric_class_t : Type :=
| Gauge | Counter | Histogram | Set_ | Rate.

(** [metric_class[mtype]]. *)
Definition metric_class (mtype : string) : outcome metric_class_t :=
  if String.eqb mtype "g" then Return Gauge
  else if String.eqb mtype "c" then Return Counter
  else if String.eqb mtype "h" then Return Histogram
  else if String.eqb mtype "ms" then Return Histogram
  else if String.eqb mtype "s" then Return Set_
  else if String.eqb mtype "r" then Return Rate
  else Raise KeyError.

(** The arguments of one call of [submit_metric]. *)
Record submission : Type := {
  m_name : string;
  m_value : pyval;
  m_class : metric_class_t;
  m_dimensions : pyval;
  m_sample_rate : pyval
}.

(** Modelled from the spec: the aggregator of
    [monasca_agent/common/aggregator.py], by the interface the server
    consumes: the counters [count] and [event_count], and the
    submissions and events it has accumulated, in the order of the calls
    of [submit_metric] and [event]. *)
Record Aggregator : Type := {
  count : Z;
  event_count : Z;
  submitted : list submission;
  events : list (gmap string pyval)
}.

Definition Aggregator_new : Aggregator :=
  {| count := 0; event_count := 0; submitted := []; events := [] |}.

(** The attributes of a [Server] the select loop works on, with the
    records of the module logger and the datagrams sent on through
    [forward_udp_sock] ([None] when there is no such socket). *)
Record server : Type := {
  aggregator : Aggregator;
  running : bool;
  should_forward : bool;
  forward_udp_sock : option (list string);
  log : list log_record
}.

Definition set_aggregator (a : Aggregator) (s : server) : server :=
  {| aggregator := a; running := running s;
     should_forward := should_forward s;
     forward_udp_sock := forward_udp_sock s; log := log s |}.

Definition set_running (b : bool) (s : server) : server :=
  {| aggregator := aggregator s; running := b;
     should_forward := should_forward s;
     forward_udp_sock := forward_udp_sock s; log := log s |}.

Definition set_forward_udp_sock (f : option (list string)) (s : server)
    : server :=
  {| aggregator := aggregator s; running := running s;
     should_forward := should_forward s;
     forward_udp_sock := f; log := log s |}.

Definition set_log (l : list log_record) (s : server) : server :=
  {| aggregator := aggregator s; running := running s;
     should_forward := should_forward s;
     forward_udp_sock := forward_udp_sock s; log := l |}.

(** A server that no one has started, for an aggregator. *)
Definition Server (a : Aggregator) (forward : bool) : server :=
  {| aggregator := a; running := false; should_forward := forward;
     forward_udp_sock := if forward then Some [] else None; log := [] |}.

(** Lifts a result without effect into a method. *)
Definition lift {S A} (o : outcome A) : M S A := fun s => (o, s).

(** [_parse_event_packet]. *)
Definition event_meta (event : gmap string pyval) (m : string)
    : outcome (gmap string pyval) :=
  c ← PyString.first m;
  if Ascii.eqb c "t"%char then
    mret (<["alert_type" := PyStr (PyString.slice m (Some 2%Z) None)]> event)
  else if Ascii.eqb c "k"%char then
    mret (<["aggregation_key" := PyStr (PyString.slice m (Some 2%Z) None)]> event)
  else if Ascii.eqb c "s"%char then
    mret (<["source_type_name" := PyStr (PyString.slice m (Some 2%Z) None)]> event)
  else if Ascii.eqb c "d"%char then
    d ← PyString.int (PyString.slice m (Some 2%Z) None);
    mret (<["date_happened" := PyInt d]> event)
  else if Ascii.eqb c "p"%char then
    mret (<["priority" := PyStr (PyString.slice m (Some 2%Z) None)]> event)
  else if Ascii.eqb c "h"%char then
    mret (<["hostname" := PyStr (PyString.slice m (Some 2%Z) None)]> event)
  else if Ascii.eqb c "#"%char then
    mret (<["dimensions" :=
             PyList (PyStr <$> PyString.sorted
                       (PyString.split ","%char
                          (PyString.slice m (Some 1%Z) None)))]> event)
  else mret event.

Fixpoint event_metas (event : gmap string pyval) (ms : list string)
    : outcome (gmap string pyval) :=
  match ms with
  | [] => mret event
  | m :: ms' => event' ← event_meta event m; event_metas event' ms'
  end.

Definition unparseable_event (packet : string) : exn :=
  Exception ("Unparseable event packet: " +:+ packet).

Definition _parse_event_packet (packet : string)
    : outcome (gmap string pyval) :=
  let body : outcome (gmap string pyval) :=
    match PyString.split1 ":"%char packet with
    | [name; rest] =>
        metadata ← PyString.unicode rest;
        match PyString.split ","%char name with
        | [title_length; text_length] =>
            title_length ←
              PyString.int (PyString.slice title_length (Some 3%Z) None);
            text_length ←
              PyString.int (PyString.slice text_length None (Some (-1)%Z));
            let event : gmap string pyval :=
              <["text" :=
                  PyStr (PyString.unescape_newlines
                           (PyString.slice metadata
                              (Some (title_length + 1)%Z)
                              (Some (title_length + text_length + 1)%Z)))]>
                (<["title" :=
                     PyStr (PyString.slice metadata None (Some title_length))]>
                   ∅) in
            let meta :=
              PyString.slice metadata
                (Some (title_length + text_length + 1)%Z) None in
            event_metas event (tail (PyString.split "|"%char meta))
        | _ => Raise ValueError
        end
    | _ => Raise (unparseable_event packet)
    end in
  match body with
  | Raise IndexError => Raise (unparseable_event packet)
  | r => r
  end.

Section Server.

(** [ast.literal_eval], of the Python library. *)
Variable literal_eval : string -> outcome pyval.

(** One of the optional fields of a metric packet, in the loop that
    updates [sample_rate] and [dimensions]. *)
Definition metric_option (acc : pyval * pyval) (m : string)
    : outcome (pyval * pyval) :=
  let '(sample_rate, dimensions) := acc in
  c ← PyString.first m;
  if Ascii.eqb c "@"%char then
    sample_rate ← PyString.float (PyString.slice m (Some 1%Z) None);
    if float_le (FNum 0) sample_rate && float_le sample_rate (FNum 1)
    then mret (PyFloat sample_rate, dimensions)
    else Raise AssertionError
  else if Ascii.eqb c "#"%char then
    dimensions ← literal_eval (PyString.slice m (Some 1%Z) None);
    mret (sample_rate, dimensions)
  else mret (sample_rate, dimensions).

Fixpoint metric_options (acc : pyval * pyval) (ms : list string)
    : outcome (pyval * pyval) :=
  match ms with
  | [] => mret acc
  | m :: ms' => acc' ← metric_option acc m; metric_options acc' ms'
  end.

(** The value of a metric that is not a set: an integer, else a float. *)
Definition metric_value (name raw_value : string) : outcome pyval :=
  match PyString.int raw_value with
  | Return n => Return (PyInt n)
  | Raise ValueError =>
      match PyString.float raw_value with
      | Return x => Return (PyFloat x)
      | Raise ValueError =>
          Raise (Exception ("Metric value must be a number: " +:+ name +:+
                            ", " +:+ raw_value))
      | Raise e => Raise e
      end
  | Raise e => Raise e
  end.

Definition unparseable_metric (packet : string) : exn :=
  Exception ("Unparseable metric packet: " +:+ packet).

(** [_parse_metric_packet]: the name, the value, the type, the
    dimensions and the sample rate. *)
Definition _parse_metric_packet (packet : string)
    : outcome (string * pyval * string * pyval * pyval) :=
  match PyString.split1 ":"%char packet with
  | [name; rest] =>
      match PyString.split "|"%char rest with
      | raw_value :: metric_type :: options =>
          value ←
            (if String.eqb metric_type "s" then Return (PyStr raw_value)
             else metric_value name raw_value);
          '(sample_rate, dimensions) ←
            metric_options (PyInt 1, PyDict []) options;
          mret (name, value, metric_type, dimensions, sample_rate)
      | _ => Raise (unparseable_metric packet)
      end
  | _ => Raise (unparseable_metric packet)
  end.

Definition modify_aggregator (f : Aggregator -> Aggregator) : M server unit :=
  modify (fun s => set_aggregator (f (aggregator s)) s).

(** [self.aggregator.event], called with the items of the event as
    keyword arguments. *)
Definition Aggregator_event (event : gmap string pyval) (a : Aggregator)
    : Aggregator :=
  {| count := count a; event_count := event_count a;
     submitted := submitted a; events := events a ++ [event] |}.

(** [self.aggregator.submit_metric(name, value, cls, dimensions=...,
    sample_rate=...)]. *)
Definition Aggregator_submit_metric (m : submission) (a : Aggregator)
    : Aggregator :=
  {| count := count a; event_count := event_count a;
     submitted := submitted a ++ [m]; events := events a |}.

Definition incr_count (a : Aggregator) : Aggregator :=
  {| count := count a + 1; event_count := event_count a;
     submitted := submitted a; events := events a |}.

Definition incr_event_count (a : Aggregator) : Aggregator :=
  {| count := count a; event_count := event_count a + 1;
     submitted := submitted a; events := events a |}.

(** The body of the loop of [submit_packets]. *)
Definition submit_packet (packet : string) : M server unit :=
  if String.eqb (PyString.strip packet) EmptyString then ret tt
  else if PyString.startswith "_e" packet then
    event ← lift (_parse_event_packet packet);
    modify_aggregator incr_event_count;;
    modify_aggregator (Aggregator_event event)
  else
    modify_aggregator incr_count;;
    '(name, value, mtype, dimensions, sample_rate) ←
      lift (_parse_metric_packet packet);
    cls ← lift (metric_class mtype);
    modify_aggregator
      (Aggregator_submit_metric
         {| m_name := name; m_value := value; m_class := cls;
            m_dimensions := dimensions; m_sample_rate := sample_rate |}).

Fixpoint submit_each (packets : list string) : M server unit :=
  match packets with
  | [] => ret tt
  | packet :: packets' => submit_packet packet;; submit_each packets'
  end.

Definition submit_packets (packets : string) : M server unit :=
  submit_each (PyString.split PyString.newline packets).

(** What one turn of the select loop meets: no datagram within the
    timeout, a datagram, an error of [select], an interrupt raised while
    waiting, or a call of [stop] by another thread. *)
Inductive arrival : Type :=
| Quiet
| Datagram (message : string)
| SelectFails (errno : Z)
| Interrupted (e : exn)
| Stopped.

(** [forward_udp_sock.send(message)]. *)
Definition forward (message : string) : M server unit :=
  s ← get;
  match forward_udp_sock s with
  | Some sent => modify (set_forward_udp_sock (Some (sent ++ [message])))
  | None => raise AttributeError
  end.

(** The body of the [try] of the select loop. *)
Definition receive (a : arrival) : M server unit :=
  match a with
  | Quiet | Stopped => ret tt
  | Datagram message =>
      submit_packets message;;
      s ← get;
      when (should_forward s) (forward message)
  | SelectFails errno => raise (select_error errno)
  | Interrupted e => raise e
  end.

(** One turn of the loop: [true] to go on, [false] for [break]. *)
Definition turn (a : arrival) : M server bool :=
  fun s =>
    match receive a s with
    | (Return _, s') =>
        (Return true,
         match a with Stopped => set_running false s' | _ => s' end)
    | (Raise (select_error errno), s') =>
        if negb (errno =? 4)%Z
        then (Raise (select_error errno), s') else (Return true, s')
    | (Raise KeyboardInterrupt, s') | (Raise SystemExit, s') =>
        (Return false, s')
    | (Raise _, s') =>
        (Return true,
         set_log (log s' ++ [(exception, "Error receiving datagram")]) s')
    end.

(** The select loop of [start], along the arrivals the environment
    offers. *)
Fixpoint serve (arrivals : list arrival) : M server unit :=
  match arrivals with
  | [] => ret tt
  | a :: arrivals' =>
      s ← get;
      if running s then
        go_on ← turn a;
        if (go_on : bool) then serve arrivals' else ret tt
      else ret tt
  end.

(** [start], once the socket is bound. *)
Definition start (arrivals : list arrival) : M server unit :=
  modify (set_running true);;
  serve arrivals.

(** [stop]. *)
Definition stop : M server unit := modify (set_running false).

(** An error the select loop logs and survives: an [Exception] that is
    not an error of [select]. *)
Definition plain_error (e : exn) : bool :=
  match e with
  | select_error _ | KeyboardInterrupt | SystemExit => false
  | _ => true
  end.

(** The server after a datagram whose handling raised a plain error. *)
Definition complained (s : server) : server :=
  set_log (log s ++ [(exception, "Error receiving datagram")]) s.

End Server.

End Udp.

(** ** Concrete datagrams, used to run the model *)

Module UdpExamples.
Import Udp.

(** A server with a fresh aggregator and no forwarding. *)
Definition fresh : server := Server Aggregator_new false.

(** The packets of a datagram, joined by newlines. *)
Definition datagram (packets : list string) : string :=
  String.concat (String PyString.newline EmptyString) packets.

(** The packet of the specification, with its dimensions as
    [name:value] pairs, and the same metric with its dimensions as a
    dictionary display. *)
Definition pairs_packet : string := "page.views:42|c|#env:prod".
Definition display_packet : string := "page.views:42|c|#{'env': 'prod'}".

Definition page_views : submission :=
  {| m_name := "page.views"; m_value := PyInt 42; m_class := Counter;
     m_dimensions := PyDict [(PyStr "env", PyStr "prod")];
     m_sample_rate := PyInt 1 |}.

(** Three packets, the second of which does not parse. *)
Definition broken : string := datagram ["a:1|c"; "bad"; "b:2|c"].

End UdpExamples.

(** ** Dictionaries of CPython 2.7 with string keys

    The order in which a dictionary of Python 2.7 yields its items is the
    order of the slots of its hash table.  The table is modelled for keys
    that are byte strings, on a platform with 64-bit words and without
    hash randomisation (the default of Python 2.7), and for dictionaries
    from which nothing is deleted: [string_hash] of [stringobject.c],
    [lookdict_string], [insertdict] and [dictresize] of [dictobject.c]. *)

Module Dict.

Definition wrap (x : Z) : Z := x mod 2 ^ 64.

Definition byte (c : ascii) : Z := Z.of_nat (nat_of_ascii c).

(** The hash of a byte string, as an unsigned word. *)
Definition string_hash (s : string) : Z :=
  match s with
  | EmptyString => 0
  | String c _ =>
      let x :=
        fold_left (fun x c => Z.lxor (wrap (1000003 * x)) (byte c))
          (list_ascii_of_string s) (Z.shiftl (byte c) 7) in
      let x := Z.lxor x (Z.of_nat (String.length s)) in
      if (x =? 2 ^ 64 - 1)%Z then (2 ^ 64 - 2)%Z else x
  end.

Section Table.
Context {V : Type}.

(** The slots of the table: free, or holding a hash, a key and a value. *)
Definition table : Type := list (option (Z * string * V)).

Definition PyDict_MINSIZE : nat := 8.
Definition PERTURB_SHIFT : Z := 5.

Definition empty : table := replicate PyDict_MINSIZE None.

(** The slot is free or holds the key. *)
Definition hit (t : table) (h : Z) (key : string) (j : nat) : bool :=
  match t !! j with
  | Some (Some (h', key', _)) => (h' =? h)%Z && String.eqb key' key
  | _ => true
  end.

(** The probes after the first one.  The fuel is never used up: after 13
    probes [perturb] is 0, and from then on the probes go through every
    slot of the table, which always has a free one. *)
Fixpoint probe (fuel : nat) (t : table) (h : Z) (key : string)
    (i perturb : Z) : nat :=
  match fuel with
  | O => 0
  | S fuel' =>
      let i' := wrap (Z.shiftl i 2 + i + perturb + 1) in
      let j := Z.to_nat (Z.land i' (Z.of_nat (length t) - 1)) in
      if hit t h key j then j
      else probe fuel' t h key i' (Z.shiftr perturb PERTURB_SHIFT)
  end.

(** [lookdict_string]: the slot of a key, free when the key is new. *)
Definition lookdict (t : table) (h : Z) (key : string) : nat :=
  let i := Z.land h (Z.of_nat (length t) - 1) in
  if hit t h key (Z.to_nat i) then Z.to_nat i
  else probe (64 + length t) t h key i h.

Definition used (t : table) : nat :=
  length (List.filter (fun e => bool_decide (is_Some e)) t).

(** [dictresize]: the entries are inserted, in the order of their slots,
    into a free table of the first size above four times (twice, for a
    large dictionary) their number. *)
Definition dictresize (t : table) : table :=
  let minused :=
    ((if (50000 <? Z.of_nat (used t))%Z then 2 else 4) * Z.of_nat (used t))%Z in
  let newsize :=
    Z.max (Z.of_nat PyDict_MINSIZE) (2 ^ (Z.log2 minused + 1)) in
  fold_left
    (fun t' e =>
       match e with
       | Some (h, key, v) => <[lookdict t' h key := Some (h, key, v)]> t'
       | None => t'
       end)
    t (replicate (Z.to_nat newsize) None).

(** [d[key] = v]. *)
Definition setitem (key : string) (v : V) (t : table) : table :=
  let h := string_hash key in
  let j := lookdict t h key in
  let t' := <[j := Some (h, key, v)]> t in
  match t !! j with
  | Some (Some _) => t'
  | _ =>
      if (2 * Z.of_nat (length t') <=? 3 * Z.of_nat (used t'))%Z
      then dictresize t' else t'
  end.

(** [d.iteritems()], and the items of [d.items()]. *)
Definition iteritems (t : table) : list (string * V) :=
  omap (fun e => match e with
                 | Some (_, key, v) => Some (key, v)
                 | None => None
                 end) t.

End Table.

Arguments table V : clear implicits.

End Dict.

(** ** The collector ([collector.py]) *)

Module Collector.

Definition MAX_THREADS_COUNT : Z := 50.
Definition MAX_COLLECTION_TIME : Z := 30.
Definition MAX_CPU_PCT : Z := 10.
Definition FLUSH_LOGGING_PERIOD : Z := 10.
Definition FLUSH_LOGGING_INITIAL : Z := 5.

(** Modelled from the spec: a measurement of
    [monasca_agent/common/metrics.py], with its name, timestamp, value,
    dimensions and optional value meta. *)
Record Measurement : Type := {
  name : string;
  timestamp : Q;
  value : pyval;
  dimensions : gmap string string;
  value_meta : option (gmap string string)
}.

(** A configured check, by what it does in one run of the collector:
    what [run()] and [get_metrics()] return or raise, and the time the
    sub-timer reads after it. *)
Record Check : Type := {
  check_name : string;
  check_run : outcome unit;
  check_get_metrics : outcome (list Measurement);
  check_duration : Q
}.

(** What one run reads from its environment: the timer after the checks,
    the number of live threads, the clock for each of the two measurements
    of the collector, and the bound of [util.get_sub_collection_warn]. *)
Record readings : Type := {
  collect_duration : Q;
  thread_count : Z;
  now : nat -> Q;
  sub_collection_warn : Q
}.

Section Collector.

(** The emitter the collector was built with, by its outcome for a
    payload, and its [__name__]. *)
Variable emitter : list Measurement -> outcome unit.
Variable emitter_name : string.

(** The text of a float under a [%.nf] format. *)
Variable show_float : nat -> Q -> string.

(** [_set_dimensions], which the collector inherits from
    [util.Dimensions] and calls without an instance; it reads the agent
    configuration, which a run does not change. *)
Variable _set_dimensions : gmap string string -> gmap string string.

(** The attributes of a [Collector], with the records of the module
    logger, the payloads the emitter was called with and the checks that
    were told to stop. *)
Record collector : Type := {
  run_count : Z;
  continue_running : bool;
  initialized_checks_d : list Check;
  emitted : list (list Measurement);
  stopped : list string;
  log : list log_record
}.

Definition set_run_count (v : Z) (c : collector) : collector :=
  {| run_count := v;
     continue_running := continue_running c;
     initialized_checks_d := initialized_checks_d c;
     emitted := emitted c; stopped := stopped c; log := log c |}.

Definition set_continue_running (v : bool) (c : collector) : collector :=
  {| run_count := run_count c;
     continue_running := v;
     initialized_checks_d := initialized_checks_d c;
     emitted := emitted c; stopped := stopped c; log := log c |}.

Definition set_emitted (v : list (list Measurement)) (c : collector)
    : collector :=
  {| run_count := run_count c;
     continue_running := continue_running c;
     initialized_checks_d := initialized_checks_d c;
     emitted := v; stopped := stopped c; log := log c |}.

Definition set_stopped (v : list string) (c : collector) : collector :=
  {| run_count := run_count c;
     continue_running := continue_running c;
     initialized_checks_d := initialized_checks_d c;
     emitted := emitted c; stopped := v; log := log c |}.

Definition set_log (v : list log_record) (c : collector) : collector :=
  {| run_count := run_count c;
     continue_running := continue_running c;
     initialized_checks_d := initialized_checks_d c;
     emitted := emitted c; stopped := stopped c; log := v |}.

Definition logm (lvl : level) (msg : string) : M collector unit :=
  modify (fun c => set_log (log c ++ [(lvl, msg)]) c).

(** Lifts a result without effect into a method. *)
Definition lift {A} (o : outcome A) : M collector A := fun c => (o, c).

(** [self.emitter(payload, log, url)]: the call is recorded, then the
    emitter returns or raises. *)
Definition call_emitter (payload : list Measurement) : M collector unit :=
  modify (fun c => set_emitted (emitted c ++ [payload]) c);;
  lift (emitter payload).

Definition _emit (payload : list Measurement) : M collector unit :=
  c ← get;
  if continue_running c then
    try_except (call_emitter payload)
      (fun _ => logm exception ("Error running emitter: " +:+ emitter_name))
  else ret tt.

Definition _set_status (collect_duration : Q) : M collector unit :=
  c ← get;
  if (run_count c <=? FLUSH_LOGGING_INITIAL)%Z ||
     (run_count c mod FLUSH_LOGGING_PERIOD =? 0)%Z then
    logm info ("Finished run #" +:+ pretty (run_count c) +:+
               ". Collection time: " +:+ show_float 2 collect_duration +:+
               "s.");;
    when (run_count c =? FLUSH_LOGGING_INITIAL)%Z
      (logm info ("First flushes done, next flushes will be logged every " +:+
                  pretty FLUSH_LOGGING_PERIOD +:+ " flushes."))
  else
    logm debug ("Finished run #" +:+ pretty (run_count c) +:+
                ". Collection time: " +:+ show_float 2 collect_duration +:+
                "s.").

(** [collector_stats]; [num_metrics] is [None] when [run_checks_d] left
    by its bare [return], and [%d] then raises [TypeError].  The result
    is the dictionary [metrics]. *)
Definition collector_stats (env : readings) (num_metrics : option Z)
    (collection_time : Q) : M collector (Dict.table pyval) :=
  let metrics := Dict.empty in
  let metrics :=
    Dict.setitem "monasca.thread_count" (PyInt (thread_count env)) metrics in
  when (thread_count env >? MAX_THREADS_COUNT)%Z
    (logm warning ("Collector thread count is high: " +:+
                   pretty (thread_count env)));;
  let metrics :=
    Dict.setitem "monasca.collection_time_sec"
      (PyFloat (FNum collection_time)) metrics in
  (if negb (Qle_bool collection_time (inject_Z MAX_COLLECTION_TIME)) then
     match num_metrics with
     | Some n =>
         logm info ("Collection time (s) is high: " +:+
                    show_float 1 collection_time +:+ ", metrics count: " +:+
                    pretty n)
     | None => raise TypeError
     end
   else ret tt);;
  ret metrics.

(** The body of the loop of [run_checks_d], after the test of
    [continue_running]. *)
Definition run_check (env : readings) (check : Check) (measurements : Z)
    : M collector Z :=
  logm debug ("Running check " +:+ check_name check);;
  measurements ←
    try_except
      (lift (check_run check);;
       current_check_metrics ← lift (check_get_metrics check);
       _emit current_check_metrics;;
       ret (measurements + Z.of_nat (length current_check_metrics))%Z)
      (fun _ =>
         logm exception ("Error running check " +:+ check_name check);;
         ret measurements);
  logm debug ("Finished run check " +:+ check_name check +:+
              ". Collection time: " +:+
              show_float 2 (check_duration check * 1000) +:+ "ms.");;
  when (negb (Qle_bool (check_duration check) (sub_collection_warn env)))
    (logm warning ("Collection time for check " +:+ check_name check +:+
                   " is high: " +:+ show_float 2 (check_duration check) +:+
                   "s."));;
  ret measurements.

Fixpoint run_checks (env : readings) (checks : list Check) (measurements : Z)
    : M collector (option Z) :=
  match checks with
  | [] => ret (Some measurements)
  | check :: checks' =>
      c ← get;
      if negb (continue_running c) then ret None
      else
        measurements ← run_check env check measurements;
        run_checks env checks' measurements
  end.

Definition run_checks_d (env : readings) : M collector (option Z) :=
  c ← get;
  run_checks env (initialized_checks_d c) 0.

(** The dimensions of the measurements of the collector. *)
Definition collector_dimensions : gmap string string :=
  <["service" := "monitoring"]> (<["component" := "monasca-agent"]> ∅).

(** The loop of [run] over the items that [iteritems] yields from the
    dictionary of [collector_stats]; the clock is read once for each. *)
Fixpoint collect_stats (env : readings) (i : nat)
    (items : list (string * pyval)) : list Measurement :=
  match items with
  | [] => []
  | (name, value) :: items' =>
      {| name := name; timestamp := now env i; value := value;
         dimensions := _set_dimensions collector_dimensions;
         value_meta := None |} :: collect_stats env (S i) items'
  end.

Definition run (env : readings) : M collector unit :=
  modify (fun c => set_run_count (run_count c + 1) c);;
  c ← get;
  logm debug ("Starting collection run #" +:+ pretty (run_count c));;
  num_metrics ← run_checks_d env;
  stats ← collector_stats env num_metrics (collect_duration env);
  _emit (collect_stats env 0 (Dict.iteritems stats));;
  _set_status (collect_duration env).

(** [stop]; every check is told to stop. *)
Definition stop : M collector unit :=
  modify (set_continue_running false);;
  modify (fun c =>
    set_stopped (stopped c ++ map check_name (initialized_checks_d c)) c).

(** *** What a run computes, in closed form *)

(** The dictionary [collector_stats] returns. *)
Definition stats (env : readings) : Dict.table pyval :=
  Dict.setitem "monasca.collection_time_sec"
    (PyFloat (FNum (collect_duration env)))
    (Dict.setitem "monasca.thread_count" (PyInt (thread_count env))
       Dict.empty).

(** The batch of the collector itself: a measurement for each item of
    that dictionary, in the order in which [iteritems] yields them. *)
Definition self_metrics (env : readings) : list Measurement :=
  collect_stats env 0 (Dict.iteritems (stats env)).

(** The measurements a check hands over in a run, if its [run] and its
    [get_metrics] both return. *)
Definition payload (check : Check) : option (list Measurement) :=
  match check_run check, check_get_metrics check with
  | Return _, Return ms => Some ms
  | _, _ => None
  end.

(** A check whose [run] or [get_metrics] raises something that is not an
    [Exception] ([KeyboardInterrupt], [SystemExit]). *)
Definition interrupts (check : Check) : bool :=
  match check_run check, check_get_metrics check with
  | Raise e, _ => negb (is_Exception e)
  | Return _, Raise e => negb (is_Exception e)
  | Return _, Return _ => false
  end.

(** The payloads of the checks that hand one over, in order. *)
Definition payloads (checks : list Check) : list (list Measurement) :=
  omap payload checks.

(** [_set_dimensions] keeps the dimensions of its caller. *)
Definition keeps_caller_dimensions : Prop :=
  forall (dims : gmap string string) k v,
    dims !! k = Some v -> _set_dimensions dims !! k = Some v.

(** The emitter raises nothing but [Exception]s. *)
Definition tame : Prop :=
  forall p e, emitter p = Raise e -> is_Exception e = true.

(** From [c] to [c'] only the emitted payloads, the log and the stopped
    checks may have changed, and the log has only grown. *)
Definition steady (c c' : collector) : Prop :=
  run_count c' = run_count c /\
  continue_running c' = continue_running c /\
  initialized_checks_d c' = initialized_checks_d c /\
  exists l, log c' = log c ++ l.

(** The record of a check that raised. *)
Definition check_error (check : Check) : log_record :=
  (exception, "Error running check " +:+ check_name check).

End Collector.

End Collector.

(** ** A concrete collector, used to run the model *)

Module CollectorExamples.
Import Collector.

Definition cpu_idle : Measurement :=
  {| name := "cpu.idle_perc"; timestamp := inject_Z 100;
     value := PyInt 97; dimensions := {["hostname" := "host1"]};
     value_meta := None |}.

(** A check whose [run] raises and a check that hands over one
    measurement. *)
Definition broken_check : Check :=
  {| check_name := "postgres"; check_run := Raise (Exception "no connection");
     check_get_metrics := Return []; check_duration := 0 |}.

Definition cpu_check : Check :=
  {| check_name := "cpu"; check_run := Return tt;
     check_get_metrics := Return [cpu_idle]; check_duration := 0 |}.

Definition collector0 : collector :=
  {| run_count := 0;
     continue_running := true;
     initialized_checks_d := [broken_check; cpu_check];
     emitted := []; stopped := []; log := [] |}.

Definition readings0 : readings :=
  {| collect_duration := 1; thread_count := 4;
     now := fun _ => inject_Z 101; sub_collection_warn := 6 |}.

(** An emitter that accepts every payload. *)
Definition accept (p : list Measurement) : outcome unit := Return tt.

(** Modelled from the spec: [_set_dimensions] of
    [monasca_agent/common/util.py], called without an instance: the
    mapping of the caller is the base and the global defaults fill in the
    keys it lacks. *)
Definition fill_defaults (dims : gmap string string) : gmap string string :=
  dims ∪ {["hostname" := "host1"]}.

(** Floats are not rendered. *)
Definition no_digits (n : nat) (q : Q) : string := "?".

End CollectorExamples.

(** ** The reporter ([reporter.py]) *)

Module Reporter.

Definition FLUSH_LOGGING_PERIOD : Z := 70.
Definition FLUSH_LOGGING_INITIAL : Z := 10.
Definition FLUSH_LOGGING_COUNT : Z := 5.
Definition EVENT_CHUNK_SIZE : Z := 50.

(** [util.plural]. *)
Definition plural (count : Z) : string :=
  if (count =? 1)%Z then EmptyString else "s".

Section Reporter.

(** The aggregator the reporter flushes, an object of another module: its
    metrics and events, and what [flush] and [flush_events] return or
    raise and leave. *)
Variable Metric : Type.
Variable Event : Type.
Variable Aggregator : Type.
Variable Aggregator_flush : Aggregator -> outcome (list Metric) * Aggregator.
Variable Aggregator_flush_events :
  Aggregator -> outcome (list Event) * Aggregator.

(** What is handed to [emitter.http_emitter]: any object, here a list of
    metrics or a text. *)
Inductive payload : Type :=
| Metrics (metrics : list Metric)
| Text (s : string).

(** [emitter.http_emitter], by its outcome for a payload. *)
Variable http_emitter : payload -> outcome unit.

(** [json.dumps] of a list of metrics. *)
Variable json_dumps : list Metric -> string.

(** The attributes of a [Reporter], with the records of the module
    logger and the payloads the emitter was called with. *)
Record reporter : Type := {
  aggregator : Aggregator;
  flush_count : Z;
  log_count : Z;
  api_host : string;
  emitted : list payload;
  log : list log_record
}.

Definition set_aggregator (v : Aggregator) (r : reporter) : reporter :=
  {| aggregator := v; flush_count := flush_count r; log_count := log_count r;
     api_host := api_host r; emitted := emitted r; log := log r |}.

Definition set_flush_count (v : Z) (r : reporter) : reporter :=
  {| aggregator := aggregator r; flush_count := v; log_count := log_count r;
     api_host := api_host r; emitted := emitted r; log := log r |}.

Definition set_log_count (v : Z) (r : reporter) : reporter :=
  {| aggregator := aggregator r; flush_count := flush_count r; log_count := v;
     api_host := api_host r; emitted := emitted r; log := log r |}.

Definition set_emitted (v : list payload) (r : reporter) : reporter :=
  {| aggregator := aggregator r; flush_count := flush_count r;
     log_count := log_count r; api_host := api_host r; emitted := v;
     log := log r |}.

Definition set_log (v : list log_record) (r : reporter) : reporter :=
  {| aggregator := aggregator r; flush_count := flush_count r;
     log_count := log_count r; api_host := api_host r; emitted := emitted r;
     log := v |}.

Definition logm (lvl : level) (msg : string) : M reporter unit :=
  modify (fun r => set_log (log r ++ [(lvl, msg)]) r).

(** Lifts a result without effect into a method. *)
Definition lift {A} (o : outcome A) : M reporter A := fun r => (o, r).

(** [serialize_metrics]: [json.dumps] of the dictionary with the one key
    [series]. *)
Definition serialize_metrics (metrics : list Metric) : string :=
  "{" +:+ String "034"%char ("series" +:+ String "034"%char
  (": " +:+ json_dumps metrics +:+ "}")).

(** [self.aggregator.flush()]. *)
Definition aggregator_flush : M reporter (list Metric) :=
  fun r =>
    let '(o, a) := Aggregator_flush (aggregator r) in (o, set_aggregator a r).

(** [self.aggregator.flush_events()]. *)
Definition aggregator_flush_events : M reporter (list Event) :=
  fun r =>
    let '(o, a) := Aggregator_flush_events (aggregator r) in
    (o, set_aggregator a r).

(** [emitter.http_emitter(metrics, log, self.api_host)]: the call is
    recorded, then the emitter returns or raises. *)
Definition call_emitter (p : payload) : M reporter unit :=
  modify (fun r => set_emitted (emitted r ++ [p]) r);;
  lift (http_emitter p).

Definition flush : M reporter unit :=
  try_except
    (modify (fun r => set_flush_count (flush_count r + 1) r);;
     modify (fun r => set_log_count (log_count r + 1) r);;
     metrics ← aggregator_flush;
     let count := Z.of_nat (length metrics) in
     r ← get;
     when (flush_count r mod FLUSH_LOGGING_PERIOD =? 0)%Z
       (modify (set_log_count 0));;
     when (negb (count =? 0)%Z)
       (try_except (call_emitter (Metrics metrics))
          (fun _ => logm exception "Error running emitter."));;
     events ← aggregator_flush_events;
     let event_count := Z.of_nat (length events) in
     when (negb (event_count =? 0)%Z)
       (logm warning
          "Event received but events are not available in the monasca api");;
     r ← get;
     let should_log :=
       (flush_count r <=? FLUSH_LOGGING_INITIAL)%Z ||
       (log_count r <=? FLUSH_LOGGING_COUNT)%Z in
     logm (if should_log then info else debug)
       ("Flush #" +:+ pretty (flush_count r) +:+ ": flushed " +:+
        pretty count +:+ " metric" +:+ plural count +:+ " and " +:+
        pretty event_count +:+ " event" +:+ plural event_count);;
     when (flush_count r =? FLUSH_LOGGING_INITIAL)%Z
       (logm info
          ("First flushes done, " +:+ pretty FLUSH_LOGGING_COUNT +:+
           " flushes will be logged every " +:+
           pretty FLUSH_LOGGING_PERIOD +:+ " flushes.")))
    (fun _ => logm exception "Error flushing metrics").

(** The loop of [run]: a flush after each wait, until the wait finds
    [finished] set; [stops] tells, for each wait, whether [stop] was
    called by then. *)
Fixpoint run (stops : list bool) : M reporter unit :=
  match stops with
  | [] => ret tt
  | stopped :: stops' =>
      flush;;
      if (stopped : bool) then ret tt else run stops'
  end.

End Reporter.

Arguments Metrics {Metric} _.
Arguments Text {Metric} _.
Arguments aggregator {Metric Aggregator} _.
Arguments flush_count {Metric Aggregator} _.
Arguments log_count {Metric Aggregator} _.
Arguments api_host {Metric Aggregator} _.
Arguments emitted {Metric Aggregator} _.
Arguments log {Metric Aggregator} _.
Arguments set_aggregator {Metric Aggregator} _ _.
Arguments set_flush_count {Metric Aggregator} _ _.
Arguments set_log_count {Metric Aggregator} _ _.
Arguments set_emitted {Metric Aggregator} _ _.
Arguments set_log {Metric Aggregator} _ _.
Arguments logm {Metric Aggregator} _ _ _.
Arguments lift {Metric Aggregator A} _ _.
Arguments serialize_metrics {Metric} _ _.
Arguments aggregator_flush {Metric Aggregator} _ _.
Arguments aggregator_flush_events {Metric Event Aggregator} _ _.
Arguments call_emitter {Metric Aggregator} _ _ _.
Arguments flush {Metric Event Aggregator} _ _ _ _.
Arguments run {Metric Event Aggregator} _ _ _ _ _.

End Reporter.

(** ** A concrete reporter, used to run the model *)

Module ReporterExamples.
Import Reporter.

(** Metrics as pairs of a name and a value; an aggregator as the metrics
    it has buffered, which [flush] hands over; no events. *)
Definition metric : Type := string * Z.

Definition buffer_flush (buffered : list metric)
    : outcome (list metric) * list metric :=
  (Return buffered, []).

Definition no_events (buffered : list metric)
    : outcome (list unit) * list metric :=
  (Return [], buffered).

(** An emitter that accepts every payload. *)
Definition accept (p : payload metric) : outcome unit := Return tt.

(** [json.dumps] is not rendered. *)
Definition no_json (metrics : list metric) : string := "[...]".

Definition reporter0 : reporter metric (list metric) :=
  {| aggregator := [("cpu.idle_perc", 97%Z)]; flush_count := 0;
     log_count := 0; api_host := "http://localhost:17123"; emitted := [];
     log := [] |}.

End ReporterExamples.

(** ** More concrete schedulers *)

Module SchedulerCases.
Import ServicesCheck SchedulerExamples.

(** The result of [web] waits on the queue, but the mark of its job is
    gone. *)
Definition web_unmarked : state event :=
  set_jobs_status ∅ web_delivered.


(** An instance without a name. *)
Definition nameless : Instance :=
  {| i_name := None; i_window := None; i_threshold := None |}.

(** A check whose [threads_count] asks for 2000 workers. *)
Definition big_check : config :=
  {| check_name := "http_check"; instance_count := 3;
     threads_count := Some 2000%Z; agent_timeout := None |}.

(** 1001 failure sentinels wait on the queue of the large pool. *)
Definition flooded : state event :=
  set_resultsq (replicate 1001 failure_result)
    (snd (start_pool (init big_check))).

End SchedulerCases.

(** ** Tests on the text of a packet *)

Module Packets.

(** [c in s], for a character. *)
Definition contains (c : ascii) (s : string) : bool :=
  existsb (Ascii.eqb c) (list_ascii_of_string s).

(** A byte string that [unicode] decodes: every byte is below 128. *)
Definition is_ascii (s : string) : bool :=
  forallb (fun c => Nat.ltb (nat_of_ascii c) 128) (list_ascii_of_string s).

(** Strings of decimal digits. *)
Definition numeral (s : string) : bool :=
  forallb (fun c => bool_decide (is_Some (PyString.digit c)))
    (list_ascii_of_string s).

(** Strings without white space. *)
Definition solid (s : string) : bool :=
  forallb (fun c => negb (PyString.is_space c)) (list_ascii_of_string s).

(** A function for [ast.literal_eval] whose errors the select loop
    survives: [ast.literal_eval] raises [SyntaxError] and [ValueError]. *)
Definition well_behaved (literal_eval : string -> outcome pyval) : Prop :=
  forall text e, literal_eval text = Raise e -> Udp.plain_error e = true.

End Packets.

(** ** More concrete collectors *)

Module CollectorCases.
Import Collector CollectorExamples.

(** A run that took 31 seconds. *)
Definition slow_readings : readings :=
  {| collect_duration := 31; thread_count := 4;
     now := fun _ => inject_Z 101; sub_collection_warn := 6 |}.

(** A check whose [run] is interrupted from the keyboard. *)
Definition interrupted_check : Check :=
  {| check_name := "disk"; check_run := Raise KeyboardInterrupt;
     check_get_metrics := Return []; check_duration := 0 |}.

(** A collector whose second check is interrupted. *)
Definition collector1 : collector :=
  {| run_count := 0;
     continue_running := true;
     initialized_checks_d := [cpu_check; interrupted_check; cpu_check];
     emitted := []; stopped := []; log := [] |}.

End CollectorCases.

(** ** The record of a flush *)

Module ReporterCases.
Import Reporter.

(** The text [flush] logs for flush [n] of [count] metrics and
    [event_count] events. *)
Definition flush_record (n count event_count : Z) : string :=
  "Flush #" +:+ pretty n +:+ ": flushed " +:+
  pretty count +:+ " metric" +:+ plural count +:+ " and " +:+
  pretty event_count +:+ " event" +:+ plural event_count.

(** The level of that record when [log_count] has followed
    [flush_count]. *)
Definition flush_level (n : Z) : level :=
  if (n <=? FLUSH_LOGGING_INITIAL)%Z ||
     (n mod FLUSH_LOGGING_PERIOD <=? FLUSH_LOGGING_COUNT)%Z
  then info else debug.

(** An emitter that refuses every payload. *)
Definition refuse (p : payload ReporterExamples.metric) : outcome unit :=
  Raise (Exception "connection refused").

End ReporterCases.
Module SchedulerFacts.
Import ServicesCheck.

Section Facts.
Context {Event : Type} (mk : pyval -> pyval -> Instance -> option Event).
Implicit Types (s : state Event) (r : result) (qi inst : Instance).

Ltac fields :=
  cbn beta iota zeta delta
    [bind ret get modify raise try_except is_Exception
     cfg statuses notified nb_failures pool_started pool_size timeout pool
     resultsq jobs_status events log restarts
     set_statuses set_notified set_nb_failures set_pool_started set_pool
     set_resultsq set_jobs_status set_events set_log set_restarts
     get_nworkers Pool_terminate_join pool_nworkers Z.eqb
     negb fst snd].

Ltac unfold_m :=
  unfold logm, del_jobs_status, resultsq_put, when, mbind, M_bind, mret, M_ret.

Ltac run := unfold_m; unfold bind, ret, get, modify, raise, try_except; fields.


Lemma bool_decide_is_Some {A} (o : option A) :
  bool_decide (is_Some o) = match o with Some _ => true | None => false end.
Proof.
  destruct o; [apply bool_decide_eq_true; eauto|].
  apply bool_decide_eq_false. intros [? ?]; discriminate.
Qed.

Lemma restart_pool_run s : restart_pool s = (Return tt, restarted s).
Proof.
  unfold restart_pool, stop_pool, start_pool, restarted.
  destruct s as [c sts nts nbf ps psz tmo pl rq js evs lg rs].
  run. destruct ps; run; rewrite <- ?app_assoc; reflexivity.
Qed.

Lemma process_result_failure r s :
  eq_str (r_status r) FAILURE = true ->
  process_result mk r s =
  (Return tt,
   if (nb_failures s + 1 >=? pool_size s - 1)%Z
   then restarted (set_nb_failures 0 s)
   else set_nb_failures (nb_failures s + 1) s).
Proof.
  intros Hf. unfold process_result. rewrite Hf. run.
  destruct (nb_failures s + 1 >=? pool_size s - 1)%Z; [|reflexivity].
  rewrite restart_pool_run. reflexivity.
Qed.

Lemma process_result_normal r qi s :
  eq_str (r_status r) FAILURE = false ->
  r_instance r = QDict qi ->
  is_Some (jobs_status s !! r_name r) ->
  process_result mk r s = (Return tt, after_result mk r qi s).
Proof.
  intros Hst Hqi [t Ht].
  unfold process_result, after_result, push_status, logical_state,
    effective_window.
  rewrite Hst, Hqi.
  destruct s as [c sts nts nbf ps psz tmo pl rq js evs lg rs]; cbn in Ht.
  run. rewrite bool_decide_is_Some.
  destruct (sts !! r_name r) as [h|] eqn:Hh; fields;
    rewrite ?insert_insert_eq, ?lookup_insert_eq;
    (destruct (default 1 (i_window qi) >? 256)%Z eqn:Hw; fields;
     rewrite ?insert_insert_eq, ?lookup_insert_eq, ?Hh; fields).
  all: match goal with
       | |- context [(Z.of_nat (length ?l) >? ?w)%Z] =>
           destruct (Z.of_nat (length l) >? w)%Z eqn:Hl
       end; fields; rewrite ?insert_insert_eq, ?lookup_insert_eq, ?Hh; fields.
  all: match goal with
       | |- context [(Z.of_nat (count_str ?a ?l) >=? ?w)%Z] =>
           destruct (Z.of_nat (count_str a l) >=? w)%Z eqn:Hc
       end; fields.
  all: match goal with
       | |- context [negb (String.eqb ?a ?b)] =>
           destruct (String.eqb a b) eqn:Hn
       end; fields.
  all: try (destruct (mk (r_status r) (r_msg r) qi) as [e|] eqn:He; fields).
  all: rewrite ?Ht; fields; cbn [option_list from_option id] in *;
       rewrite ?Hl, ?Hc; cbn [negb]; rewrite ?Hn; fields;
       rewrite ?insert_insert_eq, ?app_nil_r; reflexivity.
Qed.

Lemma drain_nil n s : resultsq s = [] -> drain mk n s = (Return tt, s).
Proof. intros H. destruct n; cbn; unfold mbind, M_bind, bind, get; [reflexivity|]. rewrite H. reflexivity. Qed.

Lemma drain_cons n r q s :
  resultsq s = r :: q ->
  drain mk (S n) s = (process_result mk r;; drain mk n) (set_resultsq q s).
Proof. intros H. cbn [drain]. unfold mbind, M_bind, bind, get, modify. rewrite H. reflexivity. Qed.

Lemma unpack2_exn v e : unpack2 v = Raise e -> is_Exception e = true.
Proof.
  unfold unpack2, iterate.
  destruct v; try (intros [= <-]; reflexivity);
  repeat case_match; intros [= <-]; reflexivity.
Qed.

Lemma process_raises _check inst s e :
  _check inst = Raise e -> is_Exception e = true ->
  _process _check inst s = (Return tt, failed inst s).
Proof.
  intros H He. unfold _process, failed. rewrite H. run. rewrite He. reflexivity.
Qed.

Lemma process_invalid _check inst s v e :
  _check inst = Return v -> truthy v = true -> unpack2 v = Raise e ->
  _process _check inst s = (Return tt, failed inst s).
Proof.
  intros H Ht Hu. unfold _process, failed. rewrite H, Ht, Hu. run.
  rewrite (unpack2_exn _ _ Hu). reflexivity.
Qed.

Lemma process_valid _check inst s v status msg :
  _check inst = Return v -> truthy v = true -> unpack2 v = Return (status, msg) ->
  _process _check inst s = (Return tt, delivered inst status msg s).
Proof.
  intros H Ht Hu. unfold _process, delivered. rewrite H, Ht, Hu. reflexivity.
Qed.

Lemma process_falsy _check inst s v :
  _check inst = Return v -> truthy v = false ->
  _process _check inst s =
  (Return tt,
   if bool_decide (is_Some (jobs_status s !! i_name inst))
   then set_jobs_status (delete (i_name inst) (jobs_status s)) s
   else failed inst s).
Proof.
  intros H Ht. unfold _process, failed. rewrite H, Ht. run.
  rewrite bool_decide_is_Some.
  destruct (jobs_status s !! i_name inst); reflexivity.
Qed.

Lemma check_ready env inst s : check mk env inst s = check mk env inst (ready s).
Proof.
  unfold ready. destruct (pool_started s) eqn:Hp; [reflexivity|].
  unfold check, start_pool. run. rewrite Hp. fields. reflexivity.
Qed.


Lemma for_each_foldl {A} (l : list A) (body : A -> M (state Event) unit)
    (f : state Event -> A -> state Event) s :
  (forall x s', body x s' = (Return tt, f s' x)) ->
  for_each l body s = (Return tt, foldl f s l).
Proof.
  intros H. revert s. induction l as [|x l IH]; intros s; [reflexivity|].
  cbn [for_each foldl]. unfold mbind, M_bind, bind. rewrite H. apply IH.
Qed.

Lemma clean_run now s : _clean now s = (Return tt, scanned now s).
Proof.
  unfold _clean, scanned.
  unfold mbind at 1, M_bind at 1, bind at 1, get at 1.
  apply for_each_foldl. intros [k t] s'. unfold scan_step. run.
  destruct (exceeds now t (timeout s')); [|reflexivity].
  rewrite restart_pool_run. reflexivity.
Qed.


Lemma scan_none_stuck now l s :
  (forall k t, (k, t) ∈ l -> exceeds now t (timeout s) = false) ->
  foldl (scan_step now) s l = s.
Proof.
  revert s. induction l as [|[k t] l IH]; intros s H; [reflexivity|].
  cbn [foldl]. unfold scan_step at 2. cbn [snd].
  rewrite (H k t) by (by left). apply IH. intros k' t' Hin. apply (H k' t'). by right.
Qed.



Lemma some_stuck_false now s k t :
  some_stuck now s = false -> jobs_status s !! k = Some t ->
  exceeds now t (timeout s) = false.
Proof.
  intros H Hk. apply not_true_iff_false. intros Hx.
  apply not_true_iff_false in H. apply H. apply existsb_exists.
  exists (k, t). split; [|exact Hx].
  apply list_elem_of_In, elem_of_map_to_list. exact Hk.
Qed.

Lemma clean_quiet now s : some_stuck now s = false -> scanned now s = s.
Proof.
  intros H. apply scan_none_stuck. intros k t Hin.
  apply elem_of_map_to_list in Hin. exact (some_stuck_false now s k t H Hin).
Qed.


Lemma calm_spec env name s :
  calm env name s = true ->
  (active_count env <= MAX_ALLOWED_THREADS)%Z /\
  forall k t, k <> name -> jobs_status s !! k = Some t ->
              exceeds (clean_time env) t (timeout s) = false.
Proof.
  unfold calm. intros H. apply andb_true_iff in H as [Ha Hf].
  split; [apply Z.leb_le; exact Ha|].
  intros k t Hne Hk. rewrite forallb_forall in Hf.
  specialize (Hf (k, t)). cbn [fst] in Hf.
  rewrite bool_decide_eq_false_2 in Hf by exact Hne.
  apply negb_true_iff. apply Hf.
  apply list_elem_of_In, elem_of_map_to_list. exact Hk.
Qed.

Lemma calm_intro env name s :
  (active_count env <= MAX_ALLOWED_THREADS)%Z ->
  (forall k t, k <> name -> jobs_status s !! k = Some t ->
               exceeds (clean_time env) t (timeout s) = false) ->
  calm env name s = true.
Proof.
  intros Ha H. unfold calm. apply andb_true_iff.
  split; [apply Z.leb_le; exact Ha|].
  apply forallb_forall. intros [k t] Hin.
  apply list_elem_of_In, elem_of_map_to_list in Hin. cbn [fst].
  destruct (decide (k = name)) as [->|Hne].
  - rewrite bool_decide_eq_true_2 by reflexivity. reflexivity.
  - rewrite bool_decide_eq_false_2 by exact Hne. cbn [orb].
    apply negb_true_iff. exact (H k t Hne Hin).
Qed.


Lemma check_within env inst s :
  (active_count env <= MAX_ALLOWED_THREADS)%Z ->
  check mk env inst s =
  match _process_results mk (ready s) with
  | (Return _, s1) => (Return tt, concluded env inst (scanned (clean_time env) s1))
  | (Raise e, s1) => (Raise e, s1)
  end.
Proof.
  intros H. rewrite check_ready.
  assert (Hp : pool_started (ready s) = true).
  { unfold ready. destruct (pool_started s) eqn:E; [exact E|reflexivity]. }
  generalize dependent (ready s). intros s0 Hp.
  unfold check. run. rewrite Hp. fields.
  assert (Hc : (active_count env >? MAX_ALLOWED_THREADS)%Z = false).
  { rewrite Z.gtb_ltb. apply Z.ltb_ge. exact H. }
  rewrite Hc.
  destruct (_process_results mk s0) as [[[]|e] s1]; [|reflexivity].
  rewrite clean_run. unfold concluded, skipped, submitted.
  destruct (i_name inst); [|reflexivity].
  destruct (bool_decide _); reflexivity.
Qed.






Lemma drain_failures_below rs : forall n s,
  Forall is_failure rs -> resultsq s = rs -> length rs <= n ->
  (nb_failures s + Z.of_nat (length rs) < pool_size s - 1)%Z ->
  drain mk n s =
  (Return tt,
   set_nb_failures (nb_failures s + Z.of_nat (length rs)) (set_resultsq [] s)).
Proof.
  induction rs as [|r rs IH]; intros n s Hf Hq Hn Hlt.
  - rewrite drain_nil by exact Hq. cbn [length]. rewrite Z.add_0_r.
    destruct s; cbn in Hq; subst. reflexivity.
  - destruct n as [|n]; [cbn in Hn; lia|].
    rewrite (drain_cons n r rs s Hq). unfold mbind, M_bind, bind.
    apply Forall_cons in Hf as [Hr Hf].
    rewrite process_result_failure by exact Hr. cbn [length] in *.
    change (nb_failures (set_resultsq rs s)) with (nb_failures s).
    change (pool_size (set_resultsq rs s)) with (pool_size s).
    assert (E : (nb_failures s + 1 >=? pool_size s - 1)%Z = false).
    { rewrite Z.geb_leb. apply Z.leb_gt. lia. }
    rewrite E.
    rewrite (IH n (set_nb_failures (nb_failures s + 1) (set_resultsq rs s)));
      [ | exact Hf | reflexivity | lia | cbn; lia ].
    f_equal. destruct s; unfold set_nb_failures, set_resultsq; cbn.
    f_equal. lia.
Qed.

Lemma drain_failures_reach rs : forall n s rest,
  Forall is_failure rs -> resultsq s = rs ++ rest ->
  0 < length rs <= n ->
  (nb_failures s + Z.of_nat (length rs) = pool_size s - 1)%Z ->
  drain mk n s = (Return tt, restarted (set_nb_failures 0 s)).
Proof.
  induction rs as [|r rs IH]; intros n s rest Hf Hq Hn Heq;
    [cbn in Hn; lia|].
  destruct n as [|n]; [cbn in Hn; lia|].
  rewrite (drain_cons n r (rs ++ rest) s Hq). unfold mbind, M_bind, bind.
  apply Forall_cons in Hf as [Hr Hf].
  rewrite process_result_failure by exact Hr. cbn [length] in *.
  change (nb_failures (set_resultsq (rs ++ rest) s)) with (nb_failures s).
  change (pool_size (set_resultsq (rs ++ rest) s)) with (pool_size s).
  destruct rs as [|r' rs].
  - assert (E : (nb_failures s + 1 >=? pool_size s - 1)%Z = true).
    { rewrite Z.geb_leb. apply Z.leb_le. cbn in Heq. lia. }
    rewrite E. rewrite drain_nil by reflexivity.
    destruct s; reflexivity.
  - assert (E : (nb_failures s + 1 >=? pool_size s - 1)%Z = false).
    { rewrite Z.geb_leb. apply Z.leb_gt. cbn [length] in Heq. lia. }
    rewrite E.
    rewrite (IH n (set_nb_failures (nb_failures s + 1)
                     (set_resultsq ((r' :: rs) ++ rest) s)) rest);
      [ | exact Hf | reflexivity | cbn [length] in *; lia
        | cbn [length] in *; cbn; lia ].
    destruct s; reflexivity.
Qed.


Lemma some_stuck_intro now s :
  (forall k t, jobs_status s !! k = Some t ->
               exceeds now t (timeout s) = false) ->
  some_stuck now s = false.
Proof.
  intros H. apply not_true_iff_false. intros Hs.
  apply existsb_exists in Hs as ([k t] & Hin & Hx).
  apply list_elem_of_In, elem_of_map_to_list in Hin.
  unfold stuck in Hx. cbn [snd] in Hx. rewrite (H k t Hin) in Hx.
  discriminate.
Qed.

Lemma process_results_one r qi s :
  resultsq s = [r] ->
  eq_str (r_status r) FAILURE = false ->
  r_instance r = QDict qi ->
  is_Some (jobs_status s !! r_name r) ->
  _process_results mk s = (Return tt, after_result mk r qi (set_resultsq [] s)).
Proof.
  intros Hq Hst Hqi Hj. unfold _process_results.
  change (Z.to_nat MAX_LOOP_ITERATIONS) with (S 999).
  rewrite (drain_cons 999 r [] s Hq). unfold mbind, M_bind, bind.
  rewrite (process_result_normal r qi) by assumption.
  apply drain_nil. reflexivity.
Qed.

Lemma cycle_run env inst name status msg s :
  i_name inst = Some name ->
  eq_str status FAILURE = false ->
  pool_started s = true ->
  resultsq s = [] ->
  is_Some (jobs_status s !! Some name) ->
  calm env (Some name) s = true ->
  cycle mk env inst status msg s =
  (Return tt,
   submitted env inst
     (after_result mk
        {| r_status := status; r_msg := msg; r_name := i_name inst;
           r_instance := QDict inst |} inst s)).
Proof.
  intros Hn Hst Hp Hq Hj Hc. apply calm_spec in Hc as [Ha Hc].
  unfold cycle. unfold mbind, M_bind, bind.
  rewrite (process_valid _ inst s (PyTuple [status; msg]) status msg)
    by reflexivity.
  rewrite check_within by exact Ha.
  set (r := {| r_status := status; r_msg := msg; r_name := i_name inst;
               r_instance := QDict inst |}).
  assert (Hr : ready (delivered inst status msg s) = delivered inst status msg s).
  { unfold ready. change (pool_started (delivered inst status msg s))
      with (pool_started s). rewrite Hp. reflexivity. }
  rewrite Hr.
  rewrite (process_results_one r inst); cycle 1.
  { unfold delivered. cbn. rewrite Hq. reflexivity. }
  { exact Hst. }
  { reflexivity. }
  { cbn. rewrite Hn. exact Hj. }
  assert (Hs : set_resultsq [] (delivered inst status msg s) = s).
  { destruct s; cbn in Hq; subst; reflexivity. }
  rewrite Hs.
  rewrite clean_quiet; cycle 1.
  { apply some_stuck_intro. intros k t. cbn. rewrite Hn.
    intros Hk. apply lookup_delete_Some in Hk as [Hne Hk].
    apply (Hc k t); [congruence|exact Hk]. }
  f_equal. unfold concluded. rewrite Hn.
  rewrite bool_decide_is_Some. cbn [after_result jobs_status r_name r].
  rewrite Hn, lookup_delete_eq. reflexivity.
Qed.


Lemma cycle_step env inst name status msg s s0 oh ont evs w thr :
  i_name inst = Some name ->
  effective_window inst = w ->
  default 1%Z (i_threshold inst) = thr ->
  eq_str status FAILURE = false ->
  calm env (Some name) s0 = true ->
  tracked name s oh ont evs s0 ->
  forall h' new flips evs',
    h' = push_status (default [] oh) status w ->
    new = logical_state h' thr ->
    flips = negb (String.eqb (default Status_UP ont) new) ->
    evs' = evs ++ (if flips then option_list (mk status msg inst) else []) ->
    exists s',
      cycle mk env inst status msg s = (Return tt, s') /\
      tracked name s' (Some h') (if flips then Some new else ont) evs' s0.
Proof.
  intros Hn Hw Hthr Hst Hc (Hp & Hq & Hj & Hcalm & Hh & Hnt & Hev).
  intros h' new flips evs' -> -> -> ->.
  eexists. split.
  { apply (cycle_run env inst name); try assumption. apply Hcalm, Hc. }
  unfold tracked, submitted, after_result.
  cbn [pool_started resultsq jobs_status statuses notified events
       set_pool set_jobs_status r_name r_status r_msg].
  rewrite Hn, Hw, Hthr, Hh, Hnt, Hev. repeat split.
  - exact Hp.
  - exact Hq.
  - rewrite lookup_insert_eq. eauto.
  - intros env' Hc'. apply Hcalm, calm_spec in Hc' as [Ha Hc'].
    apply calm_intro; [exact Ha|]. cbn. intros k t Hne Hk.
    rewrite lookup_insert_ne, lookup_delete_ne in Hk by congruence.
    exact (Hc' k t Hne Hk).
  - apply lookup_insert_eq.
  - destruct (negb _); [apply lookup_insert_eq|exact Hnt].
Qed.


(** C1.  A target with [window = 3] and [threshold = 2], no history and no
    notified state (so the default, UP): after the cycles that deliver UP,
    DOWN, DOWN exactly one event, built from the DOWN result, has been
    appended and the notified state is DOWN; a further UP leaves the window
    [DOWN, DOWN, UP], appends no event and keeps DOWN; one more UP leaves
    [DOWN, UP, UP], appends exactly one event, built from the UP result,
    and sets the notified state to UP. *)
Theorem debounce_window3_threshold2
    name inst s0 e1 e2 e3 e4 e5 m1 m2 m3 m4 m5 ev_down ev_up :
  i_name inst = Some name ->
  i_window inst = Some 3%Z ->
  i_threshold inst = Some 2%Z ->
  pool_started s0 = true ->
  resultsq s0 = [] ->
  is_Some (jobs_status s0 !! Some name) ->
  statuses s0 !! Some name = None ->
  notified s0 !! Some name = None ->
  forallb (fun e => calm e (Some name) s0) [e1; e2; e3; e4; e5] = true ->
  mk (PyStr Status_DOWN) m3 inst = Some ev_down ->
  mk (PyStr Status_UP) m5 inst = Some ev_up ->
  exists s3 s4 s5,
    cycles mk inst
      [(e1, PyStr Status_UP, m1); (e2, PyStr Status_DOWN, m2);
       (e3, PyStr Status_DOWN, m3)] s0 = (Return tt, s3) /\
    statuses s3 !! Some name =
      Some [PyStr Status_UP; PyStr Status_DOWN; PyStr Status_DOWN] /\
    events s3 = events s0 ++ [ev_down] /\
    notified s3 !! Some name = Some Status_DOWN /\
    cycle mk e4 inst (PyStr Status_UP) m4 s3 = (Return tt, s4) /\
    statuses s4 !! Some name =
      Some [PyStr Status_DOWN; PyStr Status_DOWN; PyStr Status_UP] /\
    events s4 = events s3 /\
    notified s4 !! Some name = Some Status_DOWN /\
    cycle mk e5 inst (PyStr Status_UP) m5 s4 = (Return tt, s5) /\
    statuses s5 !! Some name =
      Some [PyStr Status_DOWN; PyStr Status_UP; PyStr Status_UP] /\
    events s5 = events s4 ++ [ev_up] /\
    notified s5 !! Some name = Some Status_UP.
Proof.
  intros Hn Hw Ht Hp Hq Hj Hh Hnt Hc Hdown Hup.
  cbn [forallb] in Hc.
  repeat (apply andb_true_iff in Hc as [? Hc]).
  assert (Hew : effective_window inst = 3%Z)
    by (unfold effective_window; rewrite Hw; reflexivity).
  assert (Hthr : default 1%Z (i_threshold inst) = 2%Z)
    by (rewrite Ht; reflexivity).
  assert (T0 : tracked name s0 None None (events s0) s0)
    by (unfold tracked; auto 10).
  destruct (cycle_step e1 inst name (PyStr Status_UP) m1 s0 s0 _ _ _ _ _
              Hn Hew Hthr eq_refl ltac:(assumption) T0
              [PyStr Status_UP] Status_UP false (events s0))
    as (s1 & R1 & T1); [reflexivity..|symmetry; apply app_nil_r|].
  destruct (cycle_step e2 inst name (PyStr Status_DOWN) m2 s1 s0 _ _ _ _ _
              Hn Hew Hthr eq_refl ltac:(assumption) T1
              [PyStr Status_UP; PyStr Status_DOWN] Status_UP false (events s0))
    as (s2 & R2 & T2); [reflexivity..|symmetry; apply app_nil_r|].
  destruct (cycle_step e3 inst name (PyStr Status_DOWN) m3 s2 s0 _ _ _ _ _
              Hn Hew Hthr eq_refl ltac:(assumption) T2
              [PyStr Status_UP; PyStr Status_DOWN; PyStr Status_DOWN]
              Status_DOWN true (events s0 ++ [ev_down]))
    as (s3 & R3 & T3); [reflexivity..|rewrite Hdown; reflexivity|].
  destruct (cycle_step e4 inst name (PyStr Status_UP) m4 s3 s0 _ _ _ _ _
              Hn Hew Hthr eq_refl ltac:(assumption) T3
              [PyStr Status_DOWN; PyStr Status_DOWN; PyStr Status_UP]
              Status_DOWN false (events s0 ++ [ev_down]))
    as (s4 & R4 & T4); [reflexivity..|symmetry; apply app_nil_r|].
  destruct (cycle_step e5 inst name (PyStr Status_UP) m5 s4 s0 _ _ _ _ _
              Hn Hew Hthr eq_refl ltac:(assumption) T4
              [PyStr Status_DOWN; PyStr Status_UP; PyStr Status_UP]
              Status_UP true (events s0 ++ [ev_down] ++ [ev_up]))
    as (s5 & R5 & T5);
    [reflexivity..|rewrite Hup, <- app_assoc; reflexivity|].
  cbn [negb] in *.
  destruct T3 as (_ & _ & _ & _ & Hh3 & Hn3 & He3).
  destruct T4 as (_ & _ & _ & _ & Hh4 & Hn4 & He4).
  destruct T5 as (_ & _ & _ & _ & Hh5 & Hn5 & He5).
  exists s3, s4, s5. repeat split; try assumption.
  - unfold cycles. cbn [for_each fst snd]. unfold mbind, M_bind, bind.
    rewrite R1, R2, R3. reflexivity.
  - congruence.
  - rewrite He5, He4, app_assoc. reflexivity.
Qed.

(** C4.  A result with the failure sentinel increments the failure
    counter and nothing else, unless the counter reaches
    [pool_size - 1]: then the counter is reset to 0 and the pool restarted
    once, and the statuses, notified states and events are those of
    before.  From a counter at 0 and a pool of size at least 2,
    [pool_size - 1] failure results in a row restart the pool exactly
    once, at the last of them, and leave the counter at 0. *)
Theorem failure_circuit_breaker s rs rest n :
  Forall is_failure rs ->
  nb_failures s = 0%Z ->
  (2 <= pool_size s)%Z ->
  Z.of_nat (length rs) = (pool_size s - 1)%Z ->
  resultsq s = rs ++ rest ->
  length rs <= n ->
  (forall s' r, is_failure r ->
     process_result mk r s' =
     (Return tt,
      if (nb_failures s' + 1 >=? pool_size s' - 1)%Z
      then restarted (set_nb_failures 0 s')
      else set_nb_failures (nb_failures s' + 1) s')) /\
  (forall k, k < length rs ->
     drain mk n (set_resultsq (take k rs) s) =
     (Return tt, set_nb_failures (Z.of_nat k) (set_resultsq [] s))) /\
  drain mk n s = (Return tt, restarted (set_nb_failures 0 s)) /\
  (length rs <= 1000 ->
   _process_results mk s = (Return tt, restarted (set_nb_failures 0 s))) /\
  restarts (restarted (set_nb_failures 0 s)) = S (restarts s) /\
  nb_failures (restarted (set_nb_failures 0 s)) = 0%Z /\
  statuses (restarted (set_nb_failures 0 s)) = statuses s /\
  notified (restarted (set_nb_failures 0 s)) = notified s /\
  events (restarted (set_nb_failures 0 s)) = events s.
Proof.
  intros Hf H0 Hp Hlen Hq Hn.
  split; [intros s' r Hr; apply process_result_failure; exact Hr|].
  split.
  { intros k Hk.
    rewrite (drain_failures_below (take k rs)).
    - cbn. rewrite H0, length_take, Nat.min_l by lia. reflexivity.
    - apply Forall_take. exact Hf.
    - reflexivity.
    - rewrite length_take. lia.
    - cbn. rewrite length_take, Nat.min_l by lia. lia. }
  assert (Hd : forall m, length rs <= m ->
            drain mk m s = (Return tt, restarted (set_nb_failures 0 s))).
  { intros m Hm. apply (drain_failures_reach rs m s rest); try assumption; lia. }
  split; [apply Hd; exact Hn|].
  split; [intros Hk; apply (Hd 1000); exact Hk|].
  repeat split.
Qed.

(** C6 (amended).  What [_process] leaves for a job: the failure sentinel
    is put on the result queue when [_check] raises, when it is the
    [_check] of the base class, and when it returns a true value that
    does not unpack into two elements; the tuple of status, message, name
    and instance is put on the queue when the value unpacks into two; and
    for a false value ([None], an empty tuple) nothing is put on the queue:
    the mark of the job in flight is deleted, the sentinel being enqueued
    only if that mark is missing. *)
Theorem worker_outcome _check inst s :
  (forall e, _check inst = Raise e -> is_Exception e = true ->
     _process _check inst s = (Return tt, failed inst s)) /\
  _process base_check inst s = (Return tt, failed inst s) /\
  (forall v e, _check inst = Return v -> truthy v = true ->
     unpack2 v = Raise e ->
     _process _check inst s = (Return tt, failed inst s)) /\
  (forall v status msg, _check inst = Return v -> truthy v = true ->
     unpack2 v = Return (status, msg) ->
     _process _check inst s = (Return tt, delivered inst status msg s)) /\
  (forall v, _check inst = Return v -> truthy v = false ->
     _process _check inst s =
     (Return tt,
      if bool_decide (is_Some (jobs_status s !! i_name inst))
      then set_jobs_status (delete (i_name inst) (jobs_status s)) s
      else failed inst s)) /\
  resultsq (failed inst s) = resultsq s ++ [failure_result] /\
  (forall status msg,
     resultsq (delivered inst status msg s) =
     resultsq s ++
     [{| r_status := status; r_msg := msg; r_name := i_name inst;
         r_instance := QDict inst |}]).
Proof.
  split; [intros e; apply process_raises|].
  split; [apply (process_raises base_check inst s NotImplementedError);
          reflexivity|].
  split; [intros v e; apply process_invalid|].
  split; [intros v status msg; apply process_valid|].
  split; [intros v; apply process_falsy|].
  split; reflexivity.
Qed.

Lemma ready_started s : pool_started (ready s) = true.
Proof. unfold ready. destruct (pool_started s) eqn:E; [exact E|reflexivity]. Qed.





Lemma push_status_length h status w :
  (length h <= Z.to_nat w -> length (push_status h status w) <= Z.to_nat w) /\
  (length h <= 256 -> (w <= 256)%Z -> length (push_status h status w) <= 256).
Proof.
  unfold push_status. rewrite length_app. cbn [length].
  destruct (Z.of_nat (length h + 1) >? w)%Z eqn:E.
  - assert (Ht : forall l : list pyval, length (tail l) = length l - 1)
      by (intros [|? ?]; cbn; lia).
    rewrite Ht, length_app. cbn [length]. lia.
  - rewrite length_app. cbn [length].
    rewrite Z.gtb_ltb in E. apply Z.ltb_ge in E. lia.
Qed.

(** C8.  A result for a target whose job is in flight replaces the history
    [h] of the target by [h] with the new status appended, less its oldest
    entry when that is longer than the window; the window is the
    configured one, or 256 with a warning logged when the configured one
    is larger; a history within the window stays within it, and a history
    of at most 256 entries stays so. *)
Theorem history_window r qi s :
  eq_str (r_status r) FAILURE = false ->
  r_instance r = QDict qi ->
  is_Some (jobs_status s !! r_name r) ->
  let w := effective_window qi in
  let h := default [] (statuses s !! r_name r) in
  exists s' h',
    process_result mk r s = (Return tt, s') /\
    statuses s' !! r_name r = Some h' /\
    (w <= 256)%Z /\
    ((default 1 (i_window qi) > 256)%Z ->
     w = 256%Z /\
     log s' =
     log s ++
     [(warning, "Maximum window size (256) exceeded, defaulting it to 256")]) /\
    ((default 1 (i_window qi) <= 256)%Z ->
     w = default 1%Z (i_window qi) /\ log s' = log s) /\
    ((Z.of_nat (length h) + 1 > w)%Z -> h' = tail (h ++ [r_status r])) /\
    ((Z.of_nat (length h) + 1 <= w)%Z -> h' = h ++ [r_status r]) /\
    (length h <= Z.to_nat w -> length h' <= Z.to_nat w) /\
    (length h <= 256 -> length h' <= 256).
Proof.
  intros Hst Hqi Hj w h.
  exists (after_result mk r qi s), (push_status h (r_status r) w).
  split; [apply process_result_normal; assumption|].
  split; [apply lookup_insert_eq|].
  assert (Hw : (w <= 256)%Z).
  { subst w. unfold effective_window.
    destruct (default 1 (i_window qi) >? 256)%Z eqn:E; [lia|].
    rewrite Z.gtb_ltb in E. apply Z.ltb_ge in E. exact E. }
  split; [exact Hw|].
  split.
  { intros Hgt. subst w. unfold effective_window. cbn [after_result log].
    apply Z.gt_lt, Z.gtb_lt in Hgt. rewrite Hgt. auto. }
  split.
  { intros Hle. subst w. unfold effective_window. cbn [after_result log].
    assert (E : (default 1 (i_window qi) >? 256)%Z = false).
    { rewrite Z.gtb_ltb. apply Z.ltb_ge. exact Hle. }
    rewrite E, app_nil_r. auto. }
  split.
  { intros Hgt. unfold push_status. rewrite length_app. cbn [length].
    assert (E : (Z.of_nat (length h + 1) >? w)%Z = true)
      by (apply Z.gtb_lt; lia).
    rewrite E. reflexivity. }
  split.
  { intros Hle. unfold push_status. rewrite length_app. cbn [length].
    assert (E : (Z.of_nat (length h + 1) >? w)%Z = false)
      by (rewrite Z.gtb_ltb; apply Z.ltb_ge; lia).
    rewrite E. reflexivity. }
  split.
  - apply push_status_length.
  - intros Hl. apply push_status_length; assumption.
Qed.

End Facts.

(** *** Runs of the model on concrete schedulers *)

(** The scenario of C1 on a scheduler whose first [check] has just
    submitted the job of [web]. *)
Lemma debounce_window3_threshold2_witness :
  exists s3 s4 s5,
    cycles SchedulerExamples.create_event SchedulerExamples.web
      [(SchedulerExamples.at_time 60, PyStr Status_UP, PyStr "ok");
       (SchedulerExamples.at_time 120, PyStr Status_DOWN, PyStr "refused");
       (SchedulerExamples.at_time 180, PyStr Status_DOWN, PyStr "refused")]
      SchedulerExamples.web_in_flight = (Return tt, s3) /\
    events s3 = [(PyStr Status_DOWN, PyStr "refused", SchedulerExamples.web)] /\
    notified s3 !! Some "web" = Some Status_DOWN /\
    cycle SchedulerExamples.create_event (SchedulerExamples.at_time 240)
      SchedulerExamples.web (PyStr Status_UP) (PyStr "ok") s3 =
      (Return tt, s4) /\
    events s4 = events s3 /\
    cycle SchedulerExamples.create_event (SchedulerExamples.at_time 300)
      SchedulerExamples.web (PyStr Status_UP) (PyStr "ok") s4 =
      (Return tt, s5) /\
    events s5 =
      events s4 ++ [(PyStr Status_UP, PyStr "ok", SchedulerExamples.web)] /\
    notified s5 !! Some "web" = Some Status_UP.
Proof.
  destruct (debounce_window3_threshold2 SchedulerExamples.create_event "web" SchedulerExamples.web
              SchedulerExamples.web_in_flight
              (SchedulerExamples.at_time 60) (SchedulerExamples.at_time 120)
              (SchedulerExamples.at_time 180) (SchedulerExamples.at_time 240)
              (SchedulerExamples.at_time 300)
              (PyStr "ok") (PyStr "refused") (PyStr "refused")
              (PyStr "ok") (PyStr "ok")
              (PyStr Status_DOWN, PyStr "refused", SchedulerExamples.web)
              (PyStr Status_UP, PyStr "ok", SchedulerExamples.web))
    as (s3 & s4 & s5 & H);
    [reflexivity | reflexivity | reflexivity | reflexivity | reflexivity
    | eexists; vm_compute; reflexivity | reflexivity | reflexivity
    | vm_compute; reflexivity | reflexivity | reflexivity |].
  exists s3, s4, s5.
  destruct H as (H1 & H2 & H3 & H4 & H5 & H6 & H7 & H8 & H9 & H10 & H11 & H12).
  repeat split; assumption.
Defined.



(** Two failure sentinels restart a pool of size 3 once. *)
Lemma failure_circuit_breaker_witness :
  _process_results SchedulerExamples.create_event
    SchedulerExamples.two_failures =
  (Return tt, restarted (set_nb_failures 0 SchedulerExamples.two_failures)) /\
  restarts (restarted (set_nb_failures 0 SchedulerExamples.two_failures)) = 1 /\
  nb_failures (restarted (set_nb_failures 0 SchedulerExamples.two_failures)) =
  0%Z.
Proof.
  destruct (failure_circuit_breaker SchedulerExamples.create_event
              SchedulerExamples.two_failures
              [failure_result; failure_result] [] 1000)
    as (_ & _ & _ & H4 & H5 & H6 & _);
    [repeat constructor | reflexivity | vm_compute; discriminate
    | reflexivity | reflexivity | cbn; lia |].
  split; [apply H4; cbn; lia|].
  split; [exact H5|exact H6].
Defined.



(** C6, as stated, fails: when [_check] returns [None] the worker puts no
    failure sentinel on the queue; it deletes the mark of the job. *)
Lemma worker_outcome_counterexample :
  exists s',
    _process SchedulerExamples.check_returns_none SchedulerExamples.web
      SchedulerExamples.web_in_flight = (Return tt, s') /\
    resultsq s' = [] /\
    jobs_status SchedulerExamples.web_in_flight !! Some "web" =
      Some (inject_Z 0) /\
    jobs_status s' !! Some "web" = None.
Proof.
  eexists. split; [vm_compute; reflexivity|].
  split; [reflexivity|]. split; reflexivity.
Qed.

(** A [_check] that returns a pair has it delivered with the name and the
    instance. *)
Lemma worker_outcome_witness :
  _process (fun _ => Return (PyTuple [PyStr Status_UP; PyStr "ok"]))
    SchedulerExamples.web SchedulerExamples.web_in_flight =
  (Return tt,
   delivered SchedulerExamples.web (PyStr Status_UP) (PyStr "ok")
     SchedulerExamples.web_in_flight).
Proof.
  destruct (worker_outcome (Event := SchedulerExamples.event)
              (fun _ => Return (PyTuple [PyStr Status_UP; PyStr "ok"]))
              SchedulerExamples.web SchedulerExamples.web_in_flight)
    as (_ & _ & _ & H4 & _).
  apply (H4 (PyTuple [PyStr Status_UP; PyStr "ok"])); reflexivity.
Defined.

(** A window of 300 is cut to 256, with the warning. *)
Lemma history_window_witness :
  exists s' h',
    process_result SchedulerExamples.create_event
      SchedulerExamples.wide_result SchedulerExamples.web_in_flight =
    (Return tt, s') /\
    statuses s' !! Some "web" = Some h' /\
    effective_window SchedulerExamples.wide = 256%Z /\
    log s' =
    log SchedulerExamples.web_in_flight ++
    [(warning, "Maximum window size (256) exceeded, defaulting it to 256")] /\
    length h' <= 256.
Proof.
  destruct (history_window SchedulerExamples.create_event
              SchedulerExamples.wide_result SchedulerExamples.wide
              SchedulerExamples.web_in_flight)
    as (s' & h' & H1 & H2 & _ & H4 & _ & _ & _ & _ & H9);
    [reflexivity | reflexivity | eexists; vm_compute; reflexivity |].
  exists s', h'. split; [exact H1|]. split; [exact H2|].
  destruct H4 as [H4 H4']; [reflexivity|].
  split; [exact H4|]. split; [exact H4'|].
  apply H9. apply Nat.leb_le. vm_compute. reflexivity.
Defined.

End SchedulerFacts.

(** ** Facts about the statsd server *)

Module UdpFacts.
Import Udp.

Section Facts.
Variable literal_eval : string -> outcome pyval.

Ltac run :=
  unfold modify_aggregator, lift, when, mbind, M_bind, mret, M_ret;
  unfold bind, ret, get, modify, raise.

Lemma submit_each_app pre post s :
  submit_each literal_eval (pre ++ post) s =
  match submit_each literal_eval pre s with
  | (Return _, s1) => submit_each literal_eval post s1
  | (Raise e, s1) => (Raise e, s1)
  end.
Proof.
  revert s. induction pre as [|p pre IH]; intros s; [reflexivity|].
  cbn [app submit_each]. unfold mbind, M_bind, bind.
  destruct (submit_packet literal_eval p s) as [[[]|e] s1]; [apply IH|reflexivity].
Qed.

Lemma submit_each_abort pre p post s s1 e s2 :
  submit_each literal_eval pre s = (Return tt, s1) ->
  submit_packet literal_eval p s1 = (Raise e, s2) ->
  submit_each literal_eval (pre ++ p :: post) s = (Raise e, s2).
Proof.
  intros Hpre Hp. rewrite submit_each_app, Hpre. cbn [submit_each].
  unfold mbind, M_bind, bind. rewrite Hp. reflexivity.
Qed.

Lemma submit_packet_raise p s e s' :
  submit_packet literal_eval p s = (Raise e, s') ->
  s' = s \/ s' = set_aggregator (incr_count (aggregator s)) s.
Proof.
  unfold submit_packet.
  destruct (String.eqb _ _); [discriminate|].
  destruct (PyString.startswith _ _).
  - run. destruct (_parse_event_packet p); [discriminate|].
    intros [= _ <-]. left. reflexivity.
  - run. destruct (_parse_metric_packet literal_eval p)
      as [[[[[name value] mtype] dims] rate]|e'].
    + destruct (metric_class mtype); [discriminate|].
      intros [= _ <-]. right. reflexivity.
    + intros [= _ <-]. right. reflexivity.
Qed.

Lemma submit_packet_blank p s :
  PyString.strip p = EmptyString ->
  submit_packet literal_eval p s = (Return tt, s).
Proof. intros H. unfold submit_packet. rewrite H. reflexivity. Qed.

Lemma turn_plain_error message s e s' :
  submit_packets literal_eval message s = (Raise e, s') ->
  plain_error e = true ->
  turn literal_eval (Datagram message) s = (Return true, complained s').
Proof.
  intros H He. unfold turn, receive. unfold mbind at 1, M_bind at 1, bind at 1.
  rewrite H. destruct e; try discriminate; reflexivity.
Qed.

(** C7 (amended).  When a packet of a datagram fails to parse, after
    packets that were submitted, [submit_packets] raises the error of that
    packet: the call does not succeed silently.  The packets before it
    stay submitted, the failing packet and the packets after it are not
    submitted (a failing metric packet has still been counted), the turn
    of the select loop logs the error, does not forward the datagram and
    goes on with the next datagram; a blank packet is skipped. *)
Theorem parse_error_aborts_datagram message pre p post s s1 e s2 :
  PyString.split PyString.newline message = pre ++ p :: post ->
  submit_each literal_eval pre s = (Return tt, s1) ->
  submit_packet literal_eval p s1 = (Raise e, s2) ->
  plain_error e = true ->
  submit_packets literal_eval message s = (Raise e, s2) /\
  submitted (aggregator s2) = submitted (aggregator s1) /\
  events (aggregator s2) = events (aggregator s1) /\
  forward_udp_sock s2 = forward_udp_sock s1 /\
  turn literal_eval (Datagram message) s = (Return true, complained s2) /\
  log (complained s2) = log s2 ++ [(exception, "Error receiving datagram")] /\
  (forall blank s', PyString.strip blank = EmptyString ->
     submit_packet literal_eval blank s' = (Return tt, s')).
Proof.
  intros Hsplit Hpre Hp He.
  assert (Hs : submit_packets literal_eval message s = (Raise e, s2)).
  { unfold submit_packets. rewrite Hsplit.
    exact (submit_each_abort pre p post s s1 e s2 Hpre Hp). }
  split; [exact Hs|].
  destruct (submit_packet_raise p s1 e s2 Hp) as [-> | ->];
    (split; [reflexivity|]); (split; [reflexivity|]);
    (split; [reflexivity|]);
    (split; [apply (turn_plain_error _ _ e); assumption|]);
    (split; [reflexivity|]); intros blank s'; apply submit_packet_blank.
Qed.

(** C2 (amended).  The datagram [page.views:42|c|#{'env': 'prod'}], whose
    dimensions are the dictionary display that [ast.literal_eval] reads,
    makes [submit_packets] count one metric and submit exactly one: the
    counter [page.views] with the integer value 42, the dimensions
    [{env: prod}] and the default sample rate 1.  On the datagram
    [page.views:42|c|#env:prod] the error of [ast.literal_eval] leaves
    [submit_packets] after the count and before any submission. *)
Theorem counter_packet_submission s :
  (literal_eval "{'env': 'prod'}" =
   Return (PyDict [(PyStr "env", PyStr "prod")]) ->
   submit_packets literal_eval UdpExamples.display_packet s =
   (Return tt,
    set_aggregator
      (Aggregator_submit_metric UdpExamples.page_views
         (incr_count (aggregator s))) s)) /\
  (forall e, literal_eval "env:prod" = Raise e ->
   submit_packets literal_eval UdpExamples.pairs_packet s =
   (Raise e, set_aggregator (incr_count (aggregator s)) s)).
Proof.
  split.
  - intros H. unfold submit_packets.
    change (PyString.split PyString.newline UdpExamples.display_packet)
      with [UdpExamples.display_packet].
    cbn [submit_each]. unfold submit_packet.
    change (String.eqb (PyString.strip UdpExamples.display_packet) EmptyString)
      with false.
    change (PyString.startswith "_e" UdpExamples.display_packet) with false.
    cbv iota. run.
    assert (Hp : _parse_metric_packet literal_eval UdpExamples.display_packet =
                 Return ("page.views", PyInt 42, "c",
                         PyDict [(PyStr "env", PyStr "prod")], PyInt 1)).
    { unfold _parse_metric_packet.
      change (PyString.split1 ":" UdpExamples.display_packet)
        with ["page.views"; "42|c|#{'env': 'prod'}"].
      cbv iota.
      change (PyString.split "|" "42|c|#{'env': 'prod'}")
        with ["42"; "c"; "#{'env': 'prod'}"].
      cbv iota. cbn [metric_options]. unfold metric_option.
      change (PyString.slice "#{'env': 'prod'}" (Some 1%Z) None)
        with "{'env': 'prod'}".
      change (PyString.first "#{'env': 'prod'}") with (Return "#"%char).
      cbn [mbind outcome_bind mret outcome_ret]. rewrite H. reflexivity. }
    rewrite Hp. reflexivity.
  - intros e H. unfold submit_packets.
    change (PyString.split PyString.newline UdpExamples.pairs_packet)
      with [UdpExamples.pairs_packet].
    cbn [submit_each]. unfold submit_packet.
    change (String.eqb (PyString.strip UdpExamples.pairs_packet) EmptyString)
      with false.
    change (PyString.startswith "_e" UdpExamples.pairs_packet) with false.
    cbv iota. run.
    assert (Hp : _parse_metric_packet literal_eval UdpExamples.pairs_packet =
                 Raise e).
    { unfold _parse_metric_packet.
      change (PyString.split1 ":" UdpExamples.pairs_packet)
        with ["page.views"; "42|c|#env:prod"].
      cbv iota.
      change (PyString.split "|" "42|c|#env:prod")
        with ["42"; "c"; "#env:prod"].
      cbv iota. cbn [metric_options]. unfold metric_option.
      change (PyString.slice "#env:prod" (Some 1%Z) None) with "env:prod".
      change (PyString.first "#env:prod") with (Return "#"%char).
      cbn [mbind outcome_bind mret outcome_ret]. rewrite H. reflexivity. }
    rewrite Hp. reflexivity.
Qed.

End Facts.

(** *** Runs of the model on concrete datagrams *)

(** C2, as stated, fails: on [page.views:42|c|#env:prod] the evaluation
    of [env:prod] raises and nothing is submitted. *)
Lemma counter_packet_submission_counterexample :
  exists s',
    submit_packets Ast.literal_eval UdpExamples.pairs_packet
      UdpExamples.fresh = (Raise SyntaxError, s') /\
    submitted (aggregator s') = [] /\
    count (aggregator s') = 1%Z.
Proof. eexists. split; [vm_compute; reflexivity|]. split; reflexivity. Qed.

(** The dictionary display is submitted, once. *)
Lemma counter_packet_submission_witness :
  exists s',
    submit_packets Ast.literal_eval UdpExamples.display_packet
      UdpExamples.fresh = (Return tt, s') /\
    submitted (aggregator s') = [UdpExamples.page_views] /\
    count (aggregator s') = 1%Z.
Proof.
  destruct (counter_packet_submission Ast.literal_eval UdpExamples.fresh)
    as [H _].
  eexists. split; [apply H; reflexivity|]. split; reflexivity.
Defined.

(** C7, as stated, fails: the second of three packets does not parse; the
    first is submitted, the third never is. *)
Lemma parse_error_aborts_datagram_counterexample :
  exists s',
    turn Ast.literal_eval (Datagram UdpExamples.broken) UdpExamples.fresh =
    (Return true, s') /\
    PyString.split PyString.newline UdpExamples.broken =
      ["a:1|c"; "bad"; "b:2|c"] /\
    map m_name (submitted (aggregator s')) = ["a"] /\
    fst (submit_packets Ast.literal_eval "b:2|c" UdpExamples.fresh) =
      Return tt.
Proof.
  eexists. split; [vm_compute; reflexivity|].
  split; [reflexivity|]. split; reflexivity.
Qed.

(** The same datagram, through the amended statement. *)
Lemma parse_error_aborts_datagram_witness :
  exists s2,
    submit_packets Ast.literal_eval UdpExamples.broken UdpExamples.fresh =
    (Raise (Exception "Unparseable metric packet: bad"), s2) /\
    turn Ast.literal_eval (Datagram UdpExamples.broken) UdpExamples.fresh =
    (Return true, complained s2).
Proof.
  eexists.
  destruct (parse_error_aborts_datagram Ast.literal_eval UdpExamples.broken
              ["a:1|c"] "bad" ["b:2|c"] UdpExamples.fresh
              (snd (submit_each Ast.literal_eval ["a:1|c"] UdpExamples.fresh))
              (Exception "Unparseable metric packet: bad")
              (snd (submit_packet Ast.literal_eval "bad"
                      (snd (submit_each Ast.literal_eval ["a:1|c"]
                              UdpExamples.fresh)))))
    as (H1 & _ & _ & _ & H5 & _);
    [reflexivity | vm_compute; reflexivity | vm_compute; reflexivity
    | reflexivity |].
  split; [exact H1|exact H5].
Defined.

End UdpFacts.

(** ** Facts about the collector *)

Module CollectorFacts.
Import Collector.

Section Facts.
Variable emitter : list Measurement -> outcome unit.
Variable emitter_name : string.
Variable show_float : nat -> Q -> string.
Variable _set_dimensions : gmap string string -> gmap string string.

Ltac run :=
  unfold logm, call_emitter, when, mbind, M_bind, mret, M_ret, lift;
  unfold bind, ret, get, modify, raise, try_except;
  cbn beta iota zeta delta
    [run_count continue_running initialized_checks_d
     emitted stopped log set_run_count set_continue_running set_emitted
     set_stopped set_log negb fst snd].

Lemma steady_refl c : steady c c.
Proof. repeat split. exists []. symmetry. apply app_nil_r. Qed.

Lemma steady_trans c1 c2 c3 : steady c1 c2 -> steady c2 c3 -> steady c1 c3.
Proof.
  intros (A2 & A3 & A4 & l1 & A5) (B2 & B3 & B4 & l2 & B5).
  repeat split; try congruence.
  exists (l1 ++ l2). rewrite B5, A5, app_assoc. reflexivity.
Qed.

Lemma logm_steady lvl msg c :
  exists c', logm lvl msg c = (Return tt, c') /\ steady c c' /\
             emitted c' = emitted c /\ log c' = log c ++ [(lvl, msg)].
Proof.
  eexists. split; [reflexivity|]. repeat split. eexists. reflexivity.
Qed.

Lemma emit_running payload c :
  tame emitter -> continue_running c = true ->
  exists c', _emit emitter emitter_name payload c = (Return tt, c') /\
             steady c c' /\ emitted c' = emitted c ++ [payload].
Proof.
  intros Ht Hc. unfold _emit. run. rewrite Hc.
  destruct (emitter payload) as [[]|e] eqn:He.
  - eexists. split; [reflexivity|]. split; [|reflexivity].
    repeat split. exists []. cbn. symmetry. apply app_nil_r.
  - rewrite (Ht payload e He). eexists. split; [reflexivity|].
    split; [|reflexivity]. repeat split. eexists. reflexivity.
Qed.

Lemma steady_log_elem c c' x : steady c c' -> x ∈ log c -> x ∈ log c'.
Proof.
  intros (_ & _ & _ & l & H) Hx. rewrite H. apply elem_of_app. auto.
Qed.

Lemma run_check_spec env check m c :
  tame emitter -> continue_running c = true -> interrupts check = false ->
  exists c',
    run_check emitter emitter_name show_float env check m c =
    (Return (m + Z.of_nat (length (default [] (payload check))))%Z, c') /\
    steady c c' /\
    emitted c' = emitted c ++ option_list (payload check) /\
    (payload check = None -> check_error check ∈ log c').
Proof.
  intros Ht Hc Hi. unfold run_check.
  destruct (logm_steady debug ("Running check " +:+ check_name check) c)
    as (c1 & R1 & S1 & E1 & _).
  unfold mbind at 1, M_bind at 1, bind at 1. rewrite R1.
  assert (Hc1 : continue_running c1 = true)
    by (destruct S1 as (_ & -> & _); exact Hc).
  assert (Hbody : exists c2,
    try_except
      (lift (check_run check);;
       current_check_metrics ← lift (check_get_metrics check);
       _emit emitter emitter_name current_check_metrics;;
       ret (m + Z.of_nat (length current_check_metrics))%Z)
      (fun _ =>
         logm exception ("Error running check " +:+ check_name check);;
         ret m) c1 =
    (Return (m + Z.of_nat (length (default [] (payload check))))%Z, c2) /\
    steady c1 c2 /\
    emitted c2 = emitted c1 ++ option_list (payload check) /\
    (payload check = None -> check_error check ∈ log c2)).
  { unfold payload, interrupts in *.
    destruct (check_run check) as [[]|e1] eqn:Hr.
    - destruct (check_get_metrics check) as [ms|e2] eqn:Hg.
      + destruct (emit_running ms c1 Ht Hc1) as (c2 & R2 & S2 & E2).
        exists c2. unfold try_except, mbind, M_bind, bind, lift.
        rewrite R2. cbn. repeat split; try apply S2. exact E2. discriminate.
      + apply negb_false_iff in Hi.
        eexists. unfold try_except, mbind, M_bind, bind, lift. rewrite Hi.
        cbn. rewrite Z.add_0_r. split; [reflexivity|].
        split; [repeat split; eexists; reflexivity|].
        split; [symmetry; apply app_nil_r|].
        intros _. apply elem_of_app. right. left.
    - apply negb_false_iff in Hi.
      eexists. unfold try_except, mbind, M_bind, bind, lift. rewrite Hi.
      cbn. rewrite Z.add_0_r. split; [reflexivity|].
      split; [repeat split; eexists; reflexivity|].
      split; [symmetry; apply app_nil_r|].
      intros _. apply elem_of_app. right. left. }
  destruct Hbody as (c2 & R2 & S2 & E2 & L2).
  unfold mbind at 1, M_bind at 1, bind at 1. rewrite R2.
  match goal with
  | |- context [logm debug ?msg] =>
      destruct (logm_steady debug msg c2) as (c3 & R3 & S3 & E3 & _)
  end.
  unfold mbind at 1, M_bind at 1, bind at 1. rewrite R3.
  assert (Hlast : exists c4,
    (when (negb (Qle_bool (check_duration check) (sub_collection_warn env)))
       (logm warning ("Collection time for check " +:+ check_name check +:+
                      " is high: " +:+ show_float 2 (check_duration check) +:+
                      "s."))) c3 = (Return tt, c4) /\
    steady c3 c4 /\ emitted c4 = emitted c3).
  { destruct (negb _); cbn [when].
    - match goal with
      | |- context [logm warning ?msg] =>
          destruct (logm_steady warning msg c3) as (c4 & R4 & S4 & E4 & _)
      end.
      exists c4. auto.
    - exists c3. split; [reflexivity|]. split; [apply steady_refl|reflexivity]. }
  destruct Hlast as (c4 & R4 & S4 & E4).
  unfold mbind at 1, M_bind at 1, bind at 1. rewrite R4.
  exists c4. split; [reflexivity|].
  split; [eauto using steady_trans|].
  split; [congruence|].
  intros Hn. eapply steady_log_elem; [|apply L2, Hn].
  eauto using steady_trans.
Qed.

Lemma run_checks_spec env checks : forall m c,
  tame emitter -> continue_running c = true ->
  Forall (fun check => interrupts check = false) checks ->
  exists m' c',
    run_checks emitter emitter_name show_float env checks m c =
    (Return (Some m'), c') /\
    steady c c' /\
    emitted c' = emitted c ++ payloads checks /\
    (forall check, check ∈ checks -> payload check = None ->
                   check_error check ∈ log c').
Proof.
  induction checks as [|check checks IH]; intros m c Ht Hc Hf.
  - exists m, c. split; [reflexivity|]. split; [apply steady_refl|].
    split; [symmetry; apply app_nil_r|]. intros ? Hin. inversion Hin.
  - apply Forall_cons in Hf as [Hi Hf].
    cbn [run_checks]. unfold mbind at 1, M_bind at 1, bind at 1, get at 1.
    rewrite Hc. cbn [negb].
    destruct (run_check_spec env check m c Ht Hc Hi) as (c1 & R1 & S1 & E1 & L1).
    unfold mbind at 1, M_bind at 1, bind at 1. rewrite R1.
    assert (Hc1 : continue_running c1 = true)
      by (destruct S1 as (_ & -> & _); exact Hc).
    destruct (IH (m + Z.of_nat (length (default [] (payload check))))%Z c1
                Ht Hc1 Hf) as (m' & c2 & R2 & S2 & E2 & L2).
    exists m', c2. split; [exact R2|].
    split; [eauto using steady_trans|].
    split.
    + rewrite E2, E1, <- app_assoc. unfold payloads. cbn [omap list_omap].
      destruct (payload check); reflexivity.
    + intros ch Hin Hn. apply elem_of_cons in Hin as [->|Hin].
      * eapply steady_log_elem; [exact S2|]. apply L1, Hn.
      * apply L2; assumption.
Qed.

(** The hash and the order of iteration on keys whose values under
    Python 2.7 are well known. *)
Lemma string_hash_known :
  Dict.string_hash "a" = 12416037344%Z /\
  Dict.string_hash "abc" = 1453079729188098211%Z /\
  map fst
    (Dict.iteritems
       (Dict.setitem "c" 3%Z
          (Dict.setitem "b" 2%Z (Dict.setitem "a" 1%Z Dict.empty)))) =
  ["a"; "c"; "b"].
Proof. repeat split; vm_compute; reflexivity. Qed.

(** The items of the dictionary of [collector_stats], as [iteritems]
    yields them: the slot of the collection time comes before the slot
    of the thread count. *)
Lemma stats_iteritems (threads time : pyval) :
  Dict.iteritems
    (Dict.setitem "monasca.collection_time_sec" time
       (Dict.setitem "monasca.thread_count" threads Dict.empty)) =
  [("monasca.collection_time_sec", time); ("monasca.thread_count", threads)].
Proof. vm_compute. reflexivity. Qed.

Lemma collector_stats_spec env n d c :
  exists c',
    collector_stats show_float env (Some n) d c =
    (Return
       (Dict.setitem "monasca.collection_time_sec" (PyFloat (FNum d))
          (Dict.setitem "monasca.thread_count" (PyInt (thread_count env))
             Dict.empty)), c') /\
    steady c c' /\ emitted c' = emitted c.
Proof.
  unfold collector_stats. run.
  destruct (thread_count env >? MAX_THREADS_COUNT)%Z;
    destruct (Qle_bool d (inject_Z MAX_COLLECTION_TIME)); run;
    (eexists; split; [reflexivity|]; split; [|reflexivity];
     repeat split; cbn; rewrite <- ?app_assoc; eexists; try reflexivity).
  symmetry. apply app_nil_r.
Qed.

Lemma set_status_spec d c :
  exists c', _set_status show_float d c = (Return tt, c') /\
             steady c c' /\ emitted c' = emitted c.
Proof.
  unfold _set_status. run.
  destruct (_ || _); [destruct (run_count c =? FLUSH_LOGGING_INITIAL)%Z|]; run;
    (eexists; split; [reflexivity|]; split; [|reflexivity];
     repeat split; cbn; rewrite <- ?app_assoc; eexists; reflexivity).
Qed.

Lemma run_spec env c :
  tame emitter -> continue_running c = true ->
  Forall (fun check => interrupts check = false) (initialized_checks_d c) ->
  exists c',
    run emitter emitter_name show_float _set_dimensions env c = (Return tt, c') /\
    emitted c' =
      emitted c ++ payloads (initialized_checks_d c) ++ [self_metrics _set_dimensions env] /\
    run_count c' = (run_count c + 1)%Z /\
    (forall check, check ∈ initialized_checks_d c -> payload check = None ->
                   check_error check ∈ log c').
Proof.
  intros Ht Hc Hf. unfold run.
  unfold mbind at 1, M_bind at 1, bind at 1, modify at 1.
  set (c0 := set_run_count (run_count c + 1) c).
  unfold mbind at 1, M_bind at 1, bind at 1, get at 1.
  match goal with
  | |- context [logm debug ?msg] =>
      destruct (logm_steady debug msg c0) as (c1 & R1 & S1 & E1 & _)
  end.
  unfold mbind at 1, M_bind at 1, bind at 1. rewrite R1.
  assert (Hch : initialized_checks_d c1 = initialized_checks_d c)
    by (destruct S1 as (_ & _ & -> & _); reflexivity).
  assert (Hc1 : continue_running c1 = true)
    by (destruct S1 as (_ & -> & _); exact Hc).
  unfold run_checks_d.
  unfold mbind at 1, M_bind at 1, bind at 1.
  unfold mbind at 1, M_bind at 1, bind at 1, get at 1. rewrite Hch.
  destruct (run_checks_spec env (initialized_checks_d c) 0 c1 Ht Hc1 Hf)
    as (n & c2 & R2 & S2 & E2 & L2).
  rewrite R2.
  destruct (collector_stats_spec env n (collect_duration env) c2)
    as (c3 & R3 & S3 & E3).
  unfold mbind at 1, M_bind at 1, bind at 1. rewrite R3.
  assert (S03 : steady c0 c3) by eauto using steady_trans.
  assert (Hc3 : continue_running c3 = true)
    by (destruct S03 as (_ & -> & _); exact Hc).
  destruct (emit_running (self_metrics _set_dimensions env) c3 Ht Hc3)
    as (c4 & R4 & S4 & E4).
  unfold mbind at 1, M_bind at 1, bind at 1.
  change (collect_stats _set_dimensions env 0 (Dict.iteritems _))
    with (self_metrics _set_dimensions env).
  rewrite R4.
  destruct (set_status_spec (collect_duration env) c4) as (c5 & R5 & S5 & E5).
  exists c5. split; [exact R5|].
  assert (S05 : steady c0 c5) by eauto using steady_trans.
  split.
  { rewrite E5, E4, E3, E2, E1. rewrite <- app_assoc. reflexivity. }
  split; [destruct S05 as (-> & _); reflexivity|].
  intros check Hin Hn.
  eapply steady_log_elem; [|apply (L2 check Hin Hn)].
  eauto using steady_trans.
Qed.

Lemma self_metrics_dimensions env m :
  keeps_caller_dimensions _set_dimensions ->
  m ∈ self_metrics _set_dimensions env ->
  dimensions m = _set_dimensions collector_dimensions /\
  dimensions m !! "component" = Some "monasca-agent" /\
  dimensions m !! "service" = Some "monitoring".
Proof.
  unfold self_metrics, stats. rewrite stats_iteritems.
  cbn [collect_stats]. intros Hk Hin.
  assert (Hd : dimensions m = _set_dimensions collector_dimensions).
  { apply elem_of_cons in Hin as [->|Hin]; [reflexivity|].
    apply elem_of_cons in Hin as [->|Hin]; [reflexivity|]. inversion Hin. }
  split; [exact Hd|]. rewrite Hd. unfold collector_dimensions.
  split; apply Hk.
  - rewrite lookup_insert_ne by discriminate. apply lookup_insert_eq.
  - apply lookup_insert_eq.
Qed.

(** C9.  In a run over two checks of which one raises an [Exception] in
    [run()], while the collector is not stopping: the exception is logged,
    the run returns, the measurements of the other check are handed to the
    emitter on their own, and the batch of the collector is handed to the
    emitter exactly once, after them.  That batch holds the collection
    time and the thread count, in this order, which is the order of the
    dictionary of [collector_stats] under [iteritems], each with the
    reading of the clock at its turn and with the dimensions
    [_set_dimensions] makes of [component] and [service], which it
    keeps. *)
Theorem failing_check_is_isolated env c bad good e ms :
  tame emitter ->
  keeps_caller_dimensions _set_dimensions ->
  continue_running c = true ->
  check_run bad = Raise e ->
  is_Exception e = true ->
  payload good = Some ms ->
  initialized_checks_d c = [bad; good] \/
  initialized_checks_d c = [good; bad] ->
  exists c',
    run emitter emitter_name show_float _set_dimensions env c = (Return tt, c') /\
    emitted c' = emitted c ++ [ms; self_metrics _set_dimensions env] /\
    check_error bad ∈ log c' /\
    map name (self_metrics _set_dimensions env) =
      ["monasca.collection_time_sec"; "monasca.thread_count"] /\
    map value (self_metrics _set_dimensions env) =
      [PyFloat (FNum (collect_duration env)); PyInt (thread_count env)] /\
    map timestamp (self_metrics _set_dimensions env) =
      [now env 0; now env 1] /\
    (forall m, m ∈ self_metrics _set_dimensions env ->
       dimensions m = _set_dimensions collector_dimensions /\
       dimensions m !! "component" = Some "monasca-agent" /\
       dimensions m !! "service" = Some "monitoring").
Proof.
  intros Ht Hk Hc Hbad He Hgood Hchecks.
  assert (Hib : interrupts bad = false)
    by (unfold interrupts; rewrite Hbad, He; reflexivity).
  assert (Hig : interrupts good = false).
  { unfold interrupts, payload in *.
    destruct (check_run good); [|discriminate].
    destruct (check_get_metrics good); [reflexivity|discriminate]. }
  assert (Hpb : payload bad = None)
    by (unfold payload; rewrite Hbad; reflexivity).
  assert (Hf : Forall (fun check => interrupts check = false)
                 (initialized_checks_d c))
    by (destruct Hchecks as [-> | ->]; repeat constructor; assumption).
  destruct (run_spec env c Ht Hc Hf) as (c' & R & E & _ & L).
  exists c'. split; [exact R|].
  split.
  { rewrite E. f_equal. unfold payloads.
    destruct Hchecks as [-> | ->]; cbn [omap list_omap];
      rewrite Hpb, Hgood; reflexivity. }
  split.
  { apply L; [|exact Hpb].
    destruct Hchecks as [-> | ->]; [left|right; left]. }
  unfold self_metrics at 1 2 3, stats. rewrite stats_iteritems.
  split; [reflexivity|]. split; [reflexivity|]. split; [reflexivity|].
  intros m. apply self_metrics_dimensions. exact Hk.
Qed.

End Facts.

(** A run over a check that raises and a check that hands over one
    measurement. *)
Lemma failing_check_is_isolated_witness :
  exists c',
    run CollectorExamples.accept "http_emitter" CollectorExamples.no_digits
      CollectorExamples.fill_defaults CollectorExamples.readings0
      CollectorExamples.collector0 =
    (Return tt, c') /\
    emitted c' =
      [[CollectorExamples.cpu_idle];
       self_metrics CollectorExamples.fill_defaults
         CollectorExamples.readings0] /\
    (exception, "Error running check postgres") ∈ log c' /\
    map name
      (self_metrics CollectorExamples.fill_defaults
         CollectorExamples.readings0) =
    ["monasca.collection_time_sec"; "monasca.thread_count"].
Proof.
  destruct (failing_check_is_isolated CollectorExamples.accept "http_emitter"
              CollectorExamples.no_digits CollectorExamples.fill_defaults
              CollectorExamples.readings0
              CollectorExamples.collector0 CollectorExamples.broken_check
              CollectorExamples.cpu_check (Exception "no connection")
              [CollectorExamples.cpu_idle])
    as (c' & H1 & H2 & H3 & H4 & _);
    [intros p e H; discriminate H
    | intros dims k v H; apply lookup_union_Some_l; exact H
    | reflexivity | reflexivity | reflexivity | reflexivity
    | left; reflexivity |].
  exists c'. split; [exact H1|]. split; [exact H2|].
  split; [exact H3|exact H4].
Defined.

End CollectorFacts.

(** ** Facts about the reporter *)

Module ReporterFacts.
Import Reporter.

Section Facts.
Context {Metric Event Aggregator : Type}.
Variable Aggregator_flush : Aggregator -> outcome (list Metric) * Aggregator.
Variable Aggregator_flush_events :
  Aggregator -> outcome (list Event) * Aggregator.
Variable http_emitter : payload Metric -> outcome unit.
Variable json_dumps : list Metric -> string.

Ltac run :=
  unfold aggregator_flush, aggregator_flush_events, call_emitter, logm, when,
    mbind, M_bind, mret, M_ret, lift;
  unfold bind, ret, get, modify, raise;
  cbn beta iota zeta delta
    [aggregator flush_count log_count api_host emitted log set_aggregator
     set_flush_count set_log_count set_emitted set_log negb fst snd].

Lemma no_count {A} : negb (Z.of_nat (length (@nil A)) =? 0)%Z = false.
Proof. reflexivity. Qed.

Lemma some_count {A} (x : A) l :
  negb (Z.of_nat (length (x :: l)) =? 0)%Z = true.
Proof. reflexivity. Qed.

Ltac norm := repeat (run; rewrite ?no_count, ?some_count).

Lemma flush_never_raises_Exception r e r' :
  flush Aggregator_flush Aggregator_flush_events http_emitter r =
  (Raise e, r') ->
  is_Exception e = false.
Proof.
  unfold flush, try_except.
  match goal with |- context [match ?b r with _ => _ end] =>
    destruct (b r) as [[[]|e0] r0] end; [discriminate|].
  destruct (is_Exception e0) eqn:He; [discriminate|].
  intros [= <- _]. exact He.
Qed.

Lemma flush_aggregator_raises r e a :
  Aggregator_flush (aggregator r) = (Raise e, a) ->
  is_Exception e = true ->
  exists r',
    flush Aggregator_flush Aggregator_flush_events http_emitter r =
    (Return tt, r') /\
    emitted r' = emitted r /\
    log r' = log r ++ [(exception, "Error flushing metrics")].
Proof.
  intros H He. unfold flush, try_except. run. rewrite H, He.
  eexists. split; [reflexivity|]. split; reflexivity.
Qed.

(** C10 (amended).  A flush cycle calls [flush] and then [flush_events]
    of the aggregator and, when the flushed metrics are not empty, hands
    the list of metrics itself to the emitter, once; [flush] does not call
    [serialize_metrics], whose text is the JSON envelope with the one key
    [series].  An [Exception] of the aggregator is caught and logged, and
    no [Exception] leaves [flush], so that the loop of [run] goes on. *)
Theorem flush_cycle r metrics a1 events a2 :
  Aggregator_flush (aggregator r) = (Return metrics, a1) ->
  Aggregator_flush_events a1 = (Return events, a2) ->
  (forall p e, http_emitter p = Raise e -> is_Exception e = true) ->
  (exists r',
     flush Aggregator_flush Aggregator_flush_events http_emitter r =
     (Return tt, r') /\
     aggregator r' = a2 /\
     flush_count r' = (flush_count r + 1)%Z /\
     emitted r' =
       emitted r ++
       match metrics with [] => [] | _ :: _ => [Metrics metrics] end) /\
  serialize_metrics json_dumps metrics =
    "{" +:+ String "034"%char ("series" +:+ String "034"%char
    (": " +:+ json_dumps metrics +:+ "}")) /\
  Metrics metrics <> Text (serialize_metrics json_dumps metrics) /\
  (forall r0 e a, Aggregator_flush (aggregator r0) = (Raise e, a) ->
     is_Exception e = true ->
     exists r1,
       flush Aggregator_flush Aggregator_flush_events http_emitter r0 =
       (Return tt, r1) /\
       emitted r1 = emitted r0 /\
       log r1 = log r0 ++ [(exception, "Error flushing metrics")]) /\
  (forall r0 e r1,
     flush Aggregator_flush Aggregator_flush_events http_emitter r0 =
     (Raise e, r1) ->
     is_Exception e = false).
Proof.
  intros H1 H2 Ht.
  split.
  { unfold flush, try_except. norm. rewrite H1. norm.
    destruct ((flush_count r + 1) mod FLUSH_LOGGING_PERIOD =? 0)%Z; norm.
    all: destruct metrics as [|m metrics]; norm.
    all: try (destruct (http_emitter (Metrics (m :: metrics))) as [[]|e] eqn:He;
              [|rewrite (Ht _ e He)]; norm).
    all: rewrite H2; norm.
    all: destruct events as [|ev events]; norm.
    all: destruct (flush_count r + 1 =? FLUSH_LOGGING_INITIAL)%Z; norm.
    all: eexists; split; [reflexivity|]; repeat split;
      cbn; rewrite ?app_nil_r; reflexivity. }
  split; [reflexivity|].
  split; [discriminate|].
  split; [apply flush_aggregator_raises|apply flush_never_raises_Exception].
Qed.

End Facts.

(** *** A run of the model on a concrete reporter *)

(** C10, as stated, fails: the emitter receives the list of metrics, not
    the text of the envelope. *)
Lemma flush_cycle_counterexample :
  exists r',
    flush ReporterExamples.buffer_flush ReporterExamples.no_events
      ReporterExamples.accept ReporterExamples.reporter0 = (Return tt, r') /\
    emitted r' = [Metrics [("cpu.idle_perc", 97%Z)]] /\
    emitted r' <>
      [Text (serialize_metrics ReporterExamples.no_json
               [("cpu.idle_perc", 97%Z)])].
Proof.
  eexists. split; [vm_compute; reflexivity|].
  split; [reflexivity|]. discriminate.
Qed.

(** The amended statement on the same reporter. *)
Lemma flush_cycle_witness :
  exists r',
    flush ReporterExamples.buffer_flush ReporterExamples.no_events
      ReporterExamples.accept ReporterExamples.reporter0 = (Return tt, r') /\
    aggregator r' = [] /\
    emitted r' = [Metrics [("cpu.idle_perc", 97%Z)]].
Proof.
  destruct (flush_cycle ReporterExamples.buffer_flush
              ReporterExamples.no_events ReporterExamples.accept
              ReporterExamples.no_json ReporterExamples.reporter0
              [("cpu.idle_perc", 97%Z)] [] [] [])
    as ((r' & H1 & H2 & _ & H4) & _);
    [reflexivity | reflexivity | intros p e H; discriminate H |].
  exists r'. split; [exact H1|]. split; [exact H2|exact H4].
Defined.

End ReporterFacts.

(** ** More facts about the service-check scheduler *)

Module SchedulerMore.
Import ServicesCheck SchedulerFacts.

Section Facts.
Context {Event : Type} (mk : pyval -> pyval -> Instance -> option Event).
Implicit Types (s : state Event) (r : result) (qi inst : Instance).

Ltac fields :=
  cbn beta iota zeta delta
    [bind ret get modify raise try_except is_Exception
     cfg statuses notified nb_failures pool_started pool_size timeout pool
     resultsq jobs_status events log restarts
     set_statuses set_notified set_nb_failures set_pool_started set_pool
     set_resultsq set_jobs_status set_events set_log set_restarts
     get_nworkers Pool_terminate_join pool_nworkers Z.eqb
     negb fst snd].

Ltac run :=
  unfold logm, del_jobs_status, resultsq_put, when, mbind, M_bind, mret, M_ret;
  unfold bind, ret, get, modify, raise, try_except; fields.

Lemma process_result_unmarked r qi s :
  eq_str (r_status r) FAILURE = false ->
  r_instance r = QDict qi ->
  jobs_status s !! r_name r = None ->
  process_result mk r s =
  (Raise KeyError, set_jobs_status (jobs_status s) (after_result mk r qi s)).
Proof.
  intros Hst Hqi Ht.
  unfold process_result, after_result, push_status, logical_state,
    effective_window.
  rewrite Hst, Hqi.
  destruct s as [c sts nts nbf ps psz tmo pl rq js evs lg rs]; cbn in Ht.
  run. rewrite bool_decide_is_Some.
  destruct (sts !! r_name r) as [h|] eqn:Hh; fields;
    rewrite ?insert_insert_eq, ?lookup_insert_eq;
    (destruct (default 1 (i_window qi) >? 256)%Z eqn:Hw; fields;
     rewrite ?insert_insert_eq, ?lookup_insert_eq, ?Hh; fields).
  all: match goal with
       | |- context [(Z.of_nat (length ?l) >? ?w)%Z] =>
           destruct (Z.of_nat (length l) >? w)%Z eqn:Hl
       end; fields; rewrite ?insert_insert_eq, ?lookup_insert_eq, ?Hh; fields.
  all: match goal with
       | |- context [(Z.of_nat (count_str ?a ?l) >=? ?w)%Z] =>
           destruct (Z.of_nat (count_str a l) >=? w)%Z eqn:Hc
       end; fields.
  all: match goal with
       | |- context [negb (String.eqb ?a ?b)] =>
           destruct (String.eqb a b) eqn:Hn
       end; fields.
  all: try (destruct (mk (r_status r) (r_msg r) qi) as [e|] eqn:He; fields).
  all: rewrite ?Ht; fields; cbn [option_list from_option id] in *;
       rewrite ?Hl, ?Hc; cbn [negb]; rewrite ?Hn; fields;
       rewrite ?insert_insert_eq, ?app_nil_r; reflexivity.
Qed.

(** X1.  A result, other than the failure sentinel, for a name that has no
    mark in [jobs_status] makes [_process_results] raise [KeyError] at the
    deletion of the mark: by then the history, the notified state and the
    events of the target are updated as for any result, and the results
    behind it stay on the queue. *)
Theorem result_without_mark_raises r q qi s :
  resultsq s = r :: q ->
  eq_str (r_status r) FAILURE = false ->
  r_instance r = QDict qi ->
  jobs_status s !! r_name r = None ->
  exists s',
    _process_results mk s = (Raise KeyError, s') /\
    resultsq s' = q /\
    statuses s' = statuses (after_result mk r qi s) /\
    notified s' = notified (after_result mk r qi s) /\
    events s' = events (after_result mk r qi s) /\
    jobs_status s' = jobs_status s.
Proof.
  intros Hq Hst Hqi Hj. eexists. split.
  { unfold _process_results.
    change (Z.to_nat MAX_LOOP_ITERATIONS) with (S 999).
    rewrite (drain_cons mk 999 r q s Hq). unfold mbind, M_bind, bind.
    rewrite (process_result_unmarked r qi) by assumption. reflexivity. }
  repeat split.
Qed.

(** X2.  [stop] ends with the pool marked as not started and, if it was
    started, with no live worker and no mark in [jobs_status]; the
    statuses, notified states and events are kept, and a second [stop]
    only logs. *)
Theorem stop_is_idempotent s :
  exists s1,
    stop s = (Return tt, s1) /\
    pool_started s1 = false /\
    (pool_started s = true ->
     get_nworkers (pool s1) = 0%Z /\ jobs_status s1 = ∅) /\
    statuses s1 = statuses s /\
    notified s1 = notified s /\
    events s1 = events s /\
    stop s1 =
    (Return tt, set_log (log s1 ++ [(info, "Stopping Thread Pool")]) s1).
Proof.
  unfold stop, stop_pool. destruct s as [c sts nts nbf ps psz tmo pl rq js evs lg rs].
  destruct ps; run; eexists; (split; [reflexivity|]); repeat split;
    discriminate.
Qed.





Lemma scan_counts now t0 l : forall s,
  timeout s = t0 -> configured_timeout (cfg s) = t0 ->
  restarts (foldl (scan_step now) s l) =
  restarts s + length (List.filter (fun item => exceeds now (snd item) t0) l).
Proof.
  induction l as [|item l IH]; intros s Ht Hc; cbn [foldl List.filter length];
    [lia|].
  unfold scan_step at 2. rewrite Ht.
  destruct (exceeds now (snd item) t0).
  - rewrite IH; [cbn; lia | cbn; exact Hc | cbn; exact Hc].
  - rewrite IH by assumption. lia.
Qed.

(** X4.  [_clean] walks a copy of [jobs_status] taken before the loop, so
    the pool is restarted once for each job of that copy that is older
    than the timeout, not once per call (the timeout being the configured
    one). *)
Theorem clean_restarts_once_per_stuck_job now s :
  timeout s = configured_timeout (cfg s) ->
  exists s',
    _clean now s = (Return tt, s') /\
    restarts s' =
    restarts s + length (List.filter (stuck now s) (map_to_list (jobs_status s))).
Proof.
  intros Ht. exists (scanned now s). split; [apply clean_run|].
  unfold scanned, stuck. rewrite Ht. apply scan_counts; [exact Ht|reflexivity].
Qed.

(** X5.  For an instance without a name [check] logs an error after the
    drain and the scan and submits nothing: the pool and the marks are
    those the scan left. *)
Theorem check_without_name env inst s s1 :
  i_name inst = None ->
  (active_count env <= MAX_ALLOWED_THREADS)%Z ->
  _process_results mk (ready s) = (Return tt, s1) ->
  check mk env inst s =
  (Return tt,
   set_log
     (log (scanned (clean_time env) s1) ++
      [(error, "Each service check must have a name")])
     (scanned (clean_time env) s1)).
Proof.
  intros Hn Ha Hd. rewrite check_within by exact Ha. rewrite Hd.
  unfold concluded. rewrite Hn. reflexivity.
Qed.

Lemma drain_failures_partial n : forall rs s,
  Forall is_failure rs -> resultsq s = rs ->
  (nb_failures s + Z.of_nat (Nat.min n (length rs)) < pool_size s - 1)%Z ->
  drain mk n s =
  (Return tt,
   set_nb_failures (nb_failures s + Z.of_nat (Nat.min n (length rs)))
     (set_resultsq (drop n rs) s)).
Proof.
  induction n as [|n IH]; intros rs s Hf Hq Hlt.
  - cbn. f_equal. destruct s; cbn in *; subst.
    unfold set_nb_failures, set_resultsq; cbn. f_equal. lia.
  - destruct rs as [|r rs].
    + rewrite drain_nil by exact Hq. f_equal. destruct s; cbn in *; subst.
      unfold set_nb_failures, set_resultsq; cbn. f_equal. lia.
    + rewrite (drain_cons mk n r rs s Hq). unfold mbind, M_bind, bind.
      apply Forall_cons in Hf as [Hr Hf].
      rewrite process_result_failure by exact Hr.
      change (nb_failures (set_resultsq rs s)) with (nb_failures s).
      change (pool_size (set_resultsq rs s)) with (pool_size s).
      cbn [length Nat.min] in Hlt.
      assert (E : (nb_failures s + 1 >=? pool_size s - 1)%Z = false).
      { rewrite Z.geb_leb. apply Z.leb_gt. lia. }
      rewrite E.
      rewrite (IH rs (set_nb_failures (nb_failures s + 1) (set_resultsq rs s)));
        [ | exact Hf | reflexivity | cbn; lia ].
      f_equal. destruct s; unfold set_nb_failures, set_resultsq; cbn.
      f_equal. lia.
Qed.

(** X6.  One call of [_process_results] takes at most 1000 results: of a
    queue of failure sentinels that stay below the restart threshold the
    first 1000 are counted and the others are left on the queue for the
    next call. *)
Theorem drain_takes_a_thousand rs s :
  Forall is_failure rs ->
  resultsq s = rs ->
  (nb_failures s + Z.of_nat (Nat.min 1000 (length rs)) < pool_size s - 1)%Z ->
  _process_results mk s =
  (Return tt,
   set_nb_failures (nb_failures s + Z.of_nat (Nat.min 1000 (length rs)))
     (set_resultsq (drop 1000 rs) s)).
Proof. apply (drain_failures_partial 1000). Qed.

(** X7.  When [_check] returns a false value the worker deletes the mark
    of its job and delivers nothing, so the next [check] of the target
    (readings calm, queue empty) submits a new job although no result was
    drained: the statuses, notified states and events are untouched. *)
Theorem false_result_is_resubmitted _check env inst name v s :
  i_name inst = Some name ->
  _check inst = Return v ->
  truthy v = false ->
  pool_started s = true ->
  resultsq s = [] ->
  is_Some (jobs_status s !! Some name) ->
  calm env (Some name) s = true ->
  exists s',
    (_process _check inst;; check mk env inst) s = (Return tt, s') /\
    jobs_status s' = <[Some name := submit_time env]> (jobs_status s) /\
    pool_jobs (pool s') = pool_jobs (pool s) ++ [inst] /\
    statuses s' = statuses s /\
    notified s' = notified s /\
    events s' = events s /\
    resultsq s' = [].
Proof.
  intros Hn Hc Hv Hp Hq Hj Hcalm. apply calm_spec in Hcalm as [Ha Hcalm].
  unfold mbind, M_bind, bind.
  rewrite (process_falsy _check inst s v Hc Hv). rewrite Hn.
  rewrite bool_decide_eq_true_2 by exact Hj.
  set (s0 := set_jobs_status (delete (Some name) (jobs_status s)) s).
  rewrite check_within by exact Ha.
  assert (Hr : ready s0 = s0) by (unfold ready; cbn; rewrite Hp; reflexivity).
  rewrite Hr. unfold _process_results.
  rewrite drain_nil by exact Hq.
  rewrite clean_quiet; cycle 1.
  { apply some_stuck_intro. intros k t. cbn. intros Hk.
    apply lookup_delete_Some in Hk as [Hne Hk].
    apply (Hcalm k t); [congruence|exact Hk]. }
  unfold concluded. rewrite Hn.
  rewrite bool_decide_eq_false_2; cycle 1.
  { cbn. rewrite lookup_delete_eq. intros [? ?]; discriminate. }
  eexists. split; [reflexivity|].
  unfold submitted. cbn. rewrite Hn. repeat split.
  - apply insert_delete_eq.
  - exact Hq.
Qed.

End Facts.

(** *** Runs on concrete schedulers *)

Lemma result_without_mark_raises_witness :
  exists s',
    _process_results SchedulerExamples.create_event
      SchedulerCases.web_unmarked = (Raise KeyError, s') /\
    resultsq s' = [] /\
    statuses s' !! Some "web" = Some [PyStr Status_UP].
Proof.
  destruct (result_without_mark_raises SchedulerExamples.create_event
              {| r_status := PyStr Status_UP; r_msg := PyStr "ok";
                 r_name := Some "web";
                 r_instance := QDict SchedulerExamples.web |}
              [] SchedulerExamples.web SchedulerCases.web_unmarked)
    as (s' & H1 & H2 & H3 & _);
    [reflexivity | reflexivity | reflexivity | reflexivity |].
  exists s'. split; [exact H1|]. split; [exact H2|].
  rewrite H3. vm_compute. reflexivity.
Defined.

Lemma stop_is_idempotent_witness :
  exists s1,
    stop SchedulerExamples.web_in_flight = (Return tt, s1) /\
    pool_started s1 = false /\
    get_nworkers (pool s1) = 0%Z /\
    jobs_status s1 = ∅.
Proof.
  destruct (stop_is_idempotent SchedulerExamples.web_in_flight)
    as (s1 & H1 & H2 & H3 & _).
  exists s1. split; [exact H1|]. split; [exact H2|].
  apply H3. reflexivity.
Defined.


Lemma clean_restarts_once_per_stuck_job_witness :
  exists s',
    _clean (inject_Z 1000) SchedulerExamples.web_in_flight = (Return tt, s') /\
    restarts s' = 1.
Proof.
  destruct (clean_restarts_once_per_stuck_job (inject_Z 1000)
              SchedulerExamples.web_in_flight)
    as (s' & H1 & H2); [reflexivity|].
  exists s'. split; [exact H1|]. rewrite H2. vm_compute. reflexivity.
Defined.

Lemma check_without_name_witness :
  exists s',
    check SchedulerExamples.create_event (SchedulerExamples.at_time 60)
      SchedulerCases.nameless SchedulerExamples.web_in_flight =
    (Return tt, s') /\
    jobs_status s' = jobs_status SchedulerExamples.web_in_flight /\
    pool_jobs (pool s') = pool_jobs (pool SchedulerExamples.web_in_flight).
Proof.
  eexists. split.
  - apply (check_without_name SchedulerExamples.create_event
             (SchedulerExamples.at_time 60) SchedulerCases.nameless
             SchedulerExamples.web_in_flight SchedulerExamples.web_in_flight);
      [reflexivity | vm_compute; discriminate | vm_compute; reflexivity].
  - split; vm_compute; reflexivity.
Defined.

Lemma drain_takes_a_thousand_witness :
  exists s',
    _process_results SchedulerExamples.create_event SchedulerCases.flooded =
    (Return tt, s') /\
    resultsq s' = [failure_result] /\
    nb_failures s' = 1000%Z.
Proof.
  eexists. split.
  - apply (drain_takes_a_thousand SchedulerExamples.create_event
             (replicate 1001 failure_result) SchedulerCases.flooded);
      [apply Forall_replicate; reflexivity | reflexivity
      | vm_compute; reflexivity].
  - split; vm_compute; reflexivity.
Defined.

Lemma false_result_is_resubmitted_witness :
  exists s',
    (_process SchedulerExamples.check_returns_none SchedulerExamples.web;;
     check SchedulerExamples.create_event (SchedulerExamples.at_time 60)
       SchedulerExamples.web) SchedulerExamples.web_in_flight =
    (Return tt, s') /\
    jobs_status s' !! Some "web" = Some (inject_Z 60) /\
    pool_jobs (pool s') = [SchedulerExamples.web; SchedulerExamples.web].
Proof.
  destruct (false_result_is_resubmitted SchedulerExamples.create_event
              SchedulerExamples.check_returns_none
              (SchedulerExamples.at_time 60) SchedulerExamples.web "web"
              PyNone SchedulerExamples.web_in_flight)
    as (s' & H1 & H2 & H3 & _);
    [reflexivity | reflexivity | reflexivity | reflexivity | reflexivity
    | eexists; vm_compute; reflexivity | vm_compute; reflexivity |].
  exists s'. split; [exact H1|]. split.
  - rewrite H2. apply lookup_insert_eq.
  - rewrite H3. vm_compute. reflexivity.
Defined.

End SchedulerMore.

(** ** Facts about the strings of Python *)

Module PyStringFacts.
Import PyString Packets.

Lemma append_cons x (a b : string) : String x a +:+ b = String x (a +:+ b).
Proof. reflexivity. Qed.

Lemma append_assoc (a b c : string) : (a +:+ b) +:+ c = a +:+ (b +:+ c).
Proof.
  induction a as [|x a IH]; [reflexivity|].
  rewrite !append_cons, IH. reflexivity.
Qed.

Lemma append_nil_r (a : string) : a +:+ EmptyString = a.
Proof.
  induction a as [|x a IH]; [reflexivity|]. rewrite append_cons, IH.
  reflexivity.
Qed.

Lemma length_append (a b : string) :
  String.length (a +:+ b) = String.length a + String.length b.
Proof.
  induction a as [|x a IH]; [reflexivity|].
  rewrite append_cons. cbn [String.length]. rewrite IH. reflexivity.
Qed.

Lemma contains_cons c a s :
  contains c (String a s) = Ascii.eqb c a || contains c s.
Proof. reflexivity. Qed.

Lemma contains_app c a b :
  contains c (a +:+ b) = contains c a || contains c b.
Proof.
  induction a as [|x a IH]; [reflexivity|].
  change (String x a +:+ b) with (String x (a +:+ b)).
  rewrite !contains_cons, IH. apply orb_assoc.
Qed.

Lemma split1_app sep a b :
  contains sep a = false -> split1 sep (a +:+ String sep b) = [a; b].
Proof.
  induction a as [|x a IH]; intros H.
  - change (split1 sep (String sep b) = [EmptyString; b]).
    cbn [split1]. rewrite Ascii.eqb_refl. reflexivity.
  - rewrite contains_cons in H. apply orb_false_elim in H as [Hx Ha].
    change (String x a +:+ String sep b) with (String x (a +:+ String sep b)).
    cbn [split1]. rewrite Ascii.eqb_sym, Hx, (IH Ha).
    reflexivity.
Qed.

Lemma split1_none sep s : contains sep s = false -> split1 sep s = [s].
Proof.
  induction s as [|x s IH]; intros H; [reflexivity|].
  rewrite contains_cons in H. apply orb_false_elim in H as [Hx Hs].
  cbn [split1]. rewrite Ascii.eqb_sym, Hx, (IH Hs). reflexivity.
Qed.

Lemma split_app sep a b :
  contains sep a = false ->
  split sep (a +:+ String sep b) = a :: split sep b.
Proof.
  induction a as [|x a IH]; intros H.
  - change (split sep (String sep b) = EmptyString :: split sep b).
    cbn [split]. rewrite Ascii.eqb_refl. reflexivity.
  - rewrite contains_cons in H. apply orb_false_elim in H as [Hx Ha].
    change (String x a +:+ String sep b) with (String x (a +:+ String sep b)).
    cbn [split]. rewrite Ascii.eqb_sym, Hx, (IH Ha).
    reflexivity.
Qed.

Lemma split_none sep s : contains sep s = false -> split sep s = [s].
Proof.
  induction s as [|x s IH]; intros H; [reflexivity|].
  rewrite contains_cons in H. apply orb_false_elim in H as [Hx Hs].
  cbn [split]. rewrite Ascii.eqb_sym, Hx, (IH Hs). reflexivity.
Qed.

Lemma numeral_cons c s :
  numeral (String c s) = bool_decide (is_Some (digit c)) && numeral s.
Proof. reflexivity. Qed.

Lemma numeral_app a b : numeral (a +:+ b) = numeral a && numeral b.
Proof.
  induction a as [|x a IH]; [reflexivity|].
  change (String x a +:+ b) with (String x (a +:+ b)).
  rewrite !numeral_cons, IH. apply andb_assoc.
Qed.

Lemma digits_app a b acc :
  digits (a +:+ b) acc = digits a acc ≫= digits b.
Proof.
  revert acc. induction a as [|x a IH]; intros acc; [reflexivity|].
  change (String x a +:+ b) with (String x (a +:+ b)).
  cbn [digits]. destruct (digit x); [apply IH|reflexivity].
Qed.

Lemma pretty_N_char_digit x :
  (x < 10)%N -> digit (pretty_N_char x) = Some (Z.of_N x).
Proof.
  intros H.
  assert (x = 0 \/ x = 1 \/ x = 2 \/ x = 3 \/ x = 4 \/ x = 5 \/ x = 6 \/
          x = 7 \/ x = 8 \/ x = 9)%N as Hx by lia.
  repeat (destruct Hx as [->|Hx]; [reflexivity|]). subst. reflexivity.
Qed.

Lemma pretty_N_go_app x : forall s,
  pretty_N_go x s = pretty_N_go x EmptyString +:+ s.
Proof.
  induction (N.lt_wf_0 x) as [x _ IH]; intros s.
  assert (x = 0 \/ 0 < x)%N as [->|Hx] by lia.
  - rewrite !pretty_N_go_0. reflexivity.
  - rewrite !(pretty_N_go_step x) by exact Hx.
    assert (Hd : (x / 10 < x)%N) by (apply N.div_lt; lia).
    rewrite (IH (x / 10)%N Hd).
    rewrite (IH (x / 10)%N Hd (String _ EmptyString)).
    rewrite append_assoc. reflexivity.
Qed.

Lemma pretty_N_go_digits x :
  digits (pretty_N_go x EmptyString) 0 = Some (Z.of_N x) /\
  numeral (pretty_N_go x EmptyString) = true.
Proof.
  induction (N.lt_wf_0 x) as [x _ IH].
  assert (x = 0 \/ 0 < x)%N as [->|Hx] by lia.
  - rewrite pretty_N_go_0. split; reflexivity.
  - rewrite (pretty_N_go_step x) by exact Hx.
    rewrite pretty_N_go_app.
    destruct (IH (x / 10)%N) as [IH1 IH2]; [apply N.div_lt; lia|].
    assert (Hm : (x mod 10 < 10)%N) by (apply N.mod_lt; lia).
    split.
    + rewrite digits_app, IH1. cbn [mbind option_bind digits].
      rewrite (pretty_N_char_digit _ Hm).
      f_equal. rewrite (N.div_mod x 10) at 3 by lia. lia.
    + rewrite numeral_app, IH2, numeral_cons, (pretty_N_char_digit _ Hm).
      reflexivity.
Qed.

Lemma pretty_N_digits (x : N) :
  unsigned (pretty x) = Some (Z.of_N x) /\ numeral (pretty x) = true.
Proof.
  unfold pretty, pretty_N. destruct (decide (x = 0%N)) as [->|Hx].
  - split; reflexivity.
  - destruct (pretty_N_go_digits x) as [H1 H2]. split; [|exact H2].
    rewrite (pretty_N_go_step x) in * by lia.
    rewrite pretty_N_go_app in *.
    unfold unsigned.
    destruct (pretty_N_go (x / 10) EmptyString +:+ _) eqn:E; [|exact H1].
    destruct (pretty_N_go (x / 10) EmptyString); discriminate.
Qed.

Lemma digit_not_space c : is_Some (digit c) -> is_space c = false.
Proof.
  unfold digit, is_space. intros [d H].
  destruct (Nat.leb_spec 48 (nat_of_ascii c)); [|discriminate].
  destruct (Nat.leb_spec (nat_of_ascii c) 57); [|discriminate].
  apply orb_false_intro.
  - apply Nat.eqb_neq. lia.
  - apply andb_false_intro2. apply Nat.leb_gt. lia.
Qed.

Lemma lstrip_solid s : solid s = true -> lstrip s = s.
Proof.
  destruct s as [|c s]; [reflexivity|]. unfold solid. cbn [list_ascii_of_string forallb].
  intros H. apply andb_prop in H as [H _]. cbn [lstrip].
  destruct (is_space c); [discriminate|reflexivity].
Qed.

Lemma reverse_solid s : solid s = true -> solid (reverse s) = true.
Proof.
  unfold solid, reverse. rewrite list_ascii_of_string_of_list_ascii.
  rewrite !forallb_forall. intros H c Hc. apply H, in_rev, Hc.
Qed.

Lemma reverse_involutive s : reverse (reverse s) = s.
Proof.
  unfold reverse. rewrite list_ascii_of_string_of_list_ascii, rev_involutive.
  apply string_of_list_ascii_of_string.
Qed.

Lemma strip_solid s : solid s = true -> strip s = s.
Proof.
  intros H. unfold strip. rewrite (lstrip_solid s H).
  rewrite (lstrip_solid _ (reverse_solid s H)). apply reverse_involutive.
Qed.

Lemma numeral_solid s : numeral s = true -> solid s = true.
Proof.
  unfold numeral, solid. rewrite !forallb_forall. intros H c Hc.
  specialize (H c Hc). apply bool_decide_eq_true in H.
  rewrite (digit_not_space c H). reflexivity.
Qed.

Lemma numeral_lacks c s :
  digit c = None -> numeral s = true -> contains c s = false.
Proof.
  intros Hc. induction s as [|x s IH]; [reflexivity|].
  rewrite numeral_cons, contains_cons. intros H.
  apply andb_prop in H as [Hx Hs]. rewrite (IH Hs), orb_false_r.
  apply bool_decide_eq_true in Hx. destruct Hx as [d Hx].
  destruct (Ascii.eqb_spec c x) as [->|]; [congruence|reflexivity].
Qed.

Lemma signed_numeral s : numeral s = true -> signed s = unsigned s.
Proof.
  destruct s as [|c s]; [reflexivity|]. rewrite numeral_cons. intros H.
  apply andb_prop in H as [H _]. apply bool_decide_eq_true in H.
  destruct H as [d H].
  destruct c as [[] [] [] [] [] [] [] []]; try reflexivity;
    vm_compute in H; discriminate.
Qed.

Lemma int_pretty_N (x : N) : int (pretty x) = Return (Z.of_N x).
Proof.
  destruct (pretty_N_digits x) as [H1 H2]. unfold int.
  rewrite (strip_solid _ (numeral_solid _ H2)), (signed_numeral _ H2), H1.
  reflexivity.
Qed.

Lemma pretty_Z_lacks c (n : Z) :
  digit c = None -> c <> "-"%char -> contains c (pretty n) = false.
Proof.
  intros Hc Hm. destruct n as [|p|p].
  - change (pretty 0%Z) with "0". cbn. rewrite orb_false_r.
    destruct (Ascii.eqb_spec c "0"); [subst; discriminate|reflexivity].
  - change (pretty (Z.pos p)) with (pretty (N.pos p)).
    apply numeral_lacks; [exact Hc|apply pretty_N_digits].
  - change (pretty (Z.neg p)) with (String "-" (pretty (N.pos p))).
    rewrite contains_cons, numeral_lacks;
      [|exact Hc|apply pretty_N_digits].
    rewrite orb_false_r. apply Ascii.eqb_neq. exact Hm.
Qed.

(** [int] reads the decimal text of every integer. *)
Lemma int_pretty (n : Z) : int (pretty n) = Return n.
Proof.
  destruct n as [|p|p].
  - reflexivity.
  - apply (int_pretty_N (N.pos p)).
  - change (pretty (Z.neg p)) with (String "-" (pretty (N.pos p))).
    destruct (pretty_N_digits (N.pos p)) as [H1 H2]. unfold int.
    rewrite strip_solid.
    + cbn [signed]. rewrite H1. reflexivity.
    + unfold solid. cbn [list_ascii_of_string forallb].
      apply andb_true_intro. split; [reflexivity|].
      apply (numeral_solid _ H2).
Qed.

Lemma int_pretty_nat (n : nat) : int (pretty n) = Return (Z.of_nat n).
Proof.
  change (pretty n) with (pretty (N.of_nat n)). rewrite int_pretty_N.
  f_equal. lia.
Qed.

Lemma substring_all s : substring 0 (String.length s) s = s.
Proof.
  induction s as [|c s IH]; [reflexivity|].
  cbn [String.length substring]. rewrite IH. reflexivity.
Qed.

Lemma substring_skip a : forall n b,
  substring (String.length a) n (a +:+ b) = substring 0 n b.
Proof.
  induction a as [|c a IH]; intros n b; [reflexivity|].
  rewrite append_cons. cbn [String.length substring]. apply IH.
Qed.

Lemma substring_prefix a b :
  substring 0 (String.length a) (a +:+ b) = a.
Proof.
  induction a as [|c a IH].
  - destruct b; reflexivity.
  - rewrite append_cons. cbn [String.length substring]. rewrite IH.
    reflexivity.
Qed.

Lemma substring_nothing n s : substring (String.length s) n s = EmptyString.
Proof.
  induction s as [|c s IH]; [destruct n; reflexivity|].
  cbn [String.length substring]. exact IH.
Qed.

(** [s[i:]] drops a prefix of [i] characters. *)
Lemma slice_from a b :
  slice (a +:+ b) (Some (Z.of_nat (String.length a))) None = b.
Proof.
  unfold slice, clamp. rewrite length_append.
  destruct (Z.ltb_spec (Z.of_nat (String.length a)) 0); [lia|].
  rewrite Z.min_l by lia. rewrite Nat2Z.id.
  replace (Z.to_nat _) with (String.length b) by lia.
  rewrite substring_skip. apply substring_all.
Qed.

(** [s[:i]] keeps a prefix of [i] characters. *)
Lemma slice_to a b :
  slice (a +:+ b) None (Some (Z.of_nat (String.length a))) = a.
Proof.
  unfold slice, clamp. rewrite length_append.
  destruct (Z.ltb_spec (Z.of_nat (String.length a)) 0); [lia|].
  rewrite Z.min_l by lia. rewrite Z.sub_0_r, Nat2Z.id.
  apply substring_prefix.
Qed.

(** [s[:-1]] drops the last character. *)
Lemma slice_but_last a c :
  slice (a +:+ String c EmptyString) None (Some (-1)%Z) = a.
Proof.
  unfold slice, clamp. rewrite length_append. cbn [String.length].
  change (-1 <? 0)%Z with true. cbv iota.
  rewrite Z.max_r by lia. rewrite Z.sub_0_r.
  replace (Z.to_nat (-1 + _)) with (String.length a) by lia.
  apply substring_prefix.
Qed.

(** [s[i:j]] on a text cut in three. *)
Lemma slice_middle a b c :
  slice (a +:+ b +:+ c)
    (Some (Z.of_nat (String.length a)))
    (Some (Z.of_nat (String.length a) + Z.of_nat (String.length b))%Z) = b.
Proof.
  unfold slice, clamp. rewrite !length_append.
  destruct (Z.ltb_spec (Z.of_nat (String.length a)) 0); [lia|].
  destruct (Z.ltb_spec (Z.of_nat (String.length a) +
                        Z.of_nat (String.length b)) 0); [lia|].
  rewrite !Z.min_l by lia. rewrite Nat2Z.id.
  replace (Z.to_nat _) with (String.length b) by lia.
  rewrite substring_skip. apply substring_prefix.
Qed.

Lemma is_ascii_app a b : is_ascii (a +:+ b) = is_ascii a && is_ascii b.
Proof.
  induction a as [|x a IH]; [reflexivity|].
  rewrite append_cons. unfold is_ascii in *.
  cbn [list_ascii_of_string forallb]. rewrite IH. apply andb_assoc.
Qed.

Lemma unicode_ascii s : is_ascii s = true -> unicode s = Return s.
Proof. unfold unicode, is_ascii. intros ->. reflexivity. Qed.

Lemma pretty_nat_lacks c (n : nat) :
  digit c = None -> contains c (pretty n) = false.
Proof.
  intros Hc. change (pretty n) with (pretty (N.of_nat n)).
  apply numeral_lacks; [exact Hc|apply pretty_N_digits].
Qed.

(** [s[i:j]] on a text cut in three, by the lengths of its parts. *)
Lemma slice_between a b c i j :
  i = Z.of_nat (String.length a) ->
  j = (i + Z.of_nat (String.length b))%Z ->
  slice (a +:+ b +:+ c) (Some i) (Some j) = b.
Proof. intros -> ->. apply slice_middle. Qed.

Lemma slice_beyond a i :
  i = Z.of_nat (String.length a) -> slice a (Some i) None = EmptyString.
Proof.
  intros ->. rewrite <- (append_nil_r a) at 1. apply slice_from.
Qed.

End PyStringFacts.

(** ** More facts about the statsd server *)

Module UdpMore.
Import Udp Packets PyStringFacts.

Section Facts.
Variable literal_eval : string -> outcome pyval.

Ltac run :=
  unfold modify_aggregator, lift, when, mbind, M_bind, mret, M_ret;
  unfold bind, ret, get, modify, raise.

Lemma bar_not_digit : PyString.digit "|" = None.
Proof. reflexivity. Qed.

Lemma split_fields name rest :
  contains ":" name = false ->
  PyString.split1 ":" (name +:+ ":" +:+ rest) = [name; rest].
Proof. intros H. apply (split1_app ":" name rest H). Qed.

Lemma split_value_type (n : Z) t :
  contains "|" t = false ->
  PyString.split "|" (pretty n +:+ "|" +:+ t) = [pretty n; t].
Proof.
  intros H.
  rewrite (split_app "|" (pretty n) t)
    by (apply pretty_Z_lacks; [reflexivity|discriminate]).
  rewrite (split_none "|" t H). reflexivity.
Qed.

Lemma metric_value_pretty name (n : Z) :
  metric_value name (pretty n) = Return (PyInt n).
Proof. unfold metric_value. rewrite int_pretty. reflexivity. Qed.

(** X8.  A metric packet [name:value|type], where the name has no colon,
    the value is the decimal text of an integer and the type has no bar
    and is not [s], parses to that name, that integer and that type, with
    no dimensions and the sample rate 1. *)
Theorem metric_packet_round_trip name (n : Z) t :
  contains ":" name = false ->
  contains "|" t = false ->
  String.eqb t "s" = false ->
  _parse_metric_packet literal_eval (name +:+ ":" +:+ pretty n +:+ "|" +:+ t) =
  Return (name, PyInt n, t, PyDict [], PyInt 1).
Proof.
  intros Hn Ht Hs. unfold _parse_metric_packet.
  rewrite (split_fields name _ Hn), (split_value_type n t Ht), Hs.
  rewrite metric_value_pretty. reflexivity.
Qed.

(** X9.  The value of a set metric (type [s]) is not read as a number: it
    is submitted as the text between the colon and the bar. *)
Theorem set_value_is_kept_as_text name v :
  contains ":" name = false ->
  contains "|" v = false ->
  _parse_metric_packet literal_eval (name +:+ ":" +:+ v +:+ "|s") =
  Return (name, PyStr v, "s", PyDict [], PyInt 1).
Proof.
  intros Hn Hv. unfold _parse_metric_packet.
  rewrite (split_fields name _ Hn).
  rewrite (split_app "|" v "s" Hv). reflexivity.
Qed.

(** X10.  A packet without a colon, and a packet without a bar after its
    first colon, raise the error [Unparseable metric packet]. *)
Theorem metric_packet_needs_colon_and_bar :
  (forall packet, contains ":" packet = false ->
     _parse_metric_packet literal_eval packet =
     Raise (unparseable_metric packet)) /\
  (forall name rest,
     contains ":" name = false -> contains "|" rest = false ->
     _parse_metric_packet literal_eval (name +:+ ":" +:+ rest) =
     Raise (unparseable_metric (name +:+ ":" +:+ rest))).
Proof.
  split.
  - intros packet H. unfold _parse_metric_packet.
    rewrite (split1_none ":" packet H). reflexivity.
  - intros name rest Hn Hr. unfold _parse_metric_packet.
    rewrite (split_fields name _ Hn), (split_none "|" rest Hr). reflexivity.
Qed.

Lemma split_three (n : Z) t o :
  contains "|" t = false -> contains "|" o = false ->
  PyString.split "|" (pretty n +:+ "|" +:+ t +:+ "|" +:+ o) = [pretty n; t; o].
Proof.
  intros Ht Ho.
  rewrite (split_app "|" (pretty n) (t +:+ "|" +:+ o))
    by (apply pretty_Z_lacks; [reflexivity|discriminate]).
  change (t +:+ "|" +:+ o) with (t +:+ String "|" o).
  rewrite (split_app "|" t o Ht), (split_none "|" o Ho). reflexivity.
Qed.

Lemma slice_tail c r : PyString.slice (String c r) (Some 1%Z) None = r.
Proof. apply (slice_from (String c EmptyString) r). Qed.

(** X11.  The sample rate [@rate] of a metric packet is read as a float
    and must lie between 0 and 1: inside, it is returned with the metric,
    outside (or not a number at all, as [nan]) the packet raises
    [AssertionError]. *)
Theorem sample_rate_between_0_and_1 name (n : Z) t rate x :
  contains ":" name = false ->
  contains "|" t = false ->
  contains "|" rate = false ->
  String.eqb t "s" = false ->
  PyString.float rate = Return x ->
  _parse_metric_packet literal_eval
    (name +:+ ":" +:+ pretty n +:+ "|" +:+ t +:+ "|@" +:+ rate) =
  if float_le (FNum 0) x && float_le x (FNum 1)
  then Return (name, PyInt n, t, PyDict [], PyFloat x)
  else Raise AssertionError.
Proof.
  intros Hn Ht Hr Hs Hx. unfold _parse_metric_packet.
  rewrite (split_fields name _ Hn).
  assert (Ho : contains "|" (String "@" rate) = false)
    by (rewrite contains_cons, Hr; reflexivity).
  change ("|@" +:+ rate) with ("|" +:+ String "@" rate).
  rewrite (split_three n t (String "@" rate) Ht Ho), Hs.
  rewrite metric_value_pretty.
  cbn [metric_options mbind outcome_bind]. unfold metric_option.
  cbn [PyString.first mbind outcome_bind]. rewrite slice_tail.
  change (Ascii.eqb "@" "@") with true. cbv iota.
  rewrite Hx. cbn [mbind outcome_bind].
  destruct (float_le (FNum 0) x && float_le x (FNum 1)); reflexivity.
Qed.

(** X12.  A metric packet that ends with a bar has an empty optional
    field, whose first character the parser reads: the packet raises
    [IndexError]. *)
Theorem trailing_bar_raises_IndexError name (n : Z) t :
  contains ":" name = false ->
  contains "|" t = false ->
  String.eqb t "s" = false ->
  _parse_metric_packet literal_eval
    (name +:+ ":" +:+ pretty n +:+ "|" +:+ t +:+ "|") =
  Raise IndexError.
Proof.
  intros Hn Ht Hs. unfold _parse_metric_packet.
  rewrite (split_fields name _ Hn).
  change (t +:+ "|") with (t +:+ "|" +:+ EmptyString).
  rewrite (split_three n t EmptyString Ht eq_refl), Hs.
  rewrite metric_value_pretty. reflexivity.
Qed.

Lemma int_raises s e : PyString.int s = Raise e -> e = ValueError.
Proof.
  unfold PyString.int. destruct (PyString.signed _); [discriminate|].
  intros [= <-]. reflexivity.
Qed.

Lemma float_raises s e : PyString.float s = Raise e -> e = ValueError.
Proof.
  unfold PyString.float. cbv zeta.
  match goal with
  | |- match ?r with _ => _ end = _ -> _ => destruct r
  end; [discriminate|]. intros [= <-]. reflexivity.
Qed.

Lemma first_raises s e : PyString.first s = Raise e -> e = IndexError.
Proof. destruct s; [|discriminate]. intros [= <-]. reflexivity. Qed.

Lemma unicode_raises s e : PyString.unicode s = Raise e -> e = ValueError.
Proof.
  unfold PyString.unicode. destruct (forallb _ _); [discriminate|].
  intros [= <-]. reflexivity.
Qed.

Lemma metric_class_raises t e : metric_class t = Raise e -> e = KeyError.
Proof.
  unfold metric_class.
  repeat (destruct (String.eqb t _); [discriminate|]).
  intros [= <-]. reflexivity.
Qed.

Lemma event_meta_plain ev m e :
  event_meta ev m = Raise e -> plain_error e = true.
Proof.
  unfold event_meta. destruct (PyString.first m) as [c|e0] eqn:Hf.
  - cbn [mbind outcome_bind mret outcome_ret].
    repeat (destruct (Ascii.eqb c _); [try discriminate|]);
      try discriminate.
    destruct (PyString.int _) as [d|e0] eqn:Hd; [discriminate|].
    cbn. intros [= <-]. rewrite (int_raises _ _ Hd). reflexivity.
  - cbn. intros [= <-]. rewrite (first_raises _ _ Hf). reflexivity.
Qed.

Lemma event_metas_plain ms : forall ev e,
  event_metas ev ms = Raise e -> plain_error e = true.
Proof.
  induction ms as [|m ms IH]; intros ev e; [discriminate|].
  cbn [event_metas]. destruct (event_meta ev m) as [ev'|e0] eqn:Hm.
  - apply IH.
  - cbn. intros [= <-]. exact (event_meta_plain _ _ _ Hm).
Qed.

Lemma parse_event_plain p e :
  _parse_event_packet p = Raise e -> plain_error e = true.
Proof.
  unfold _parse_event_packet.
  match goal with
  | |- match ?b with _ => _ end = _ -> _ =>
      assert (Hb : forall e0, b = Raise e0 -> plain_error e0 = true);
      [|destruct b as [ev|e0]; [discriminate|];
        specialize (Hb e0 eq_refl);
        destruct e0; intros [= <-]; try reflexivity; exact Hb]
  end.
  intros e0.
  destruct (PyString.split1 ":" p) as [|name [|rest [|? ?]]];
    try (intros [= <-]; reflexivity).
  destruct (PyString.unicode rest) as [metadata|e1] eqn:Hu;
    [|cbn; intros [= <-]; rewrite (unicode_raises _ _ Hu); reflexivity].
  cbn [mbind outcome_bind].
  destruct (PyString.split "," name) as [|a [|b [|? ?]]];
    try (intros [= <-]; reflexivity).
  destruct (PyString.int (PyString.slice a _ _)) as [tl|e1] eqn:Ha;
    [|cbn; intros [= <-]; rewrite (int_raises _ _ Ha); reflexivity].
  cbn [mbind outcome_bind].
  destruct (PyString.int (PyString.slice b _ _)) as [xl|e1] eqn:Hx;
    [|cbn; intros [= <-]; rewrite (int_raises _ _ Hx); reflexivity].
  cbn [mbind outcome_bind]. apply event_metas_plain.
Qed.

Lemma metric_option_plain acc m e :
  well_behaved literal_eval ->
  metric_option literal_eval acc m = Raise e -> plain_error e = true.
Proof.
  intros Hw. unfold metric_option. destruct acc as [rate dims].
  destruct (PyString.first m) as [c|e0] eqn:Hf;
    [|cbn; intros [= <-]; rewrite (first_raises _ _ Hf); reflexivity].
  cbn [mbind outcome_bind mret outcome_ret].
  destruct (Ascii.eqb c "@").
  - destruct (PyString.float _) as [x|e0] eqn:Hx;
      [|cbn; intros [= <-]; rewrite (float_raises _ _ Hx); reflexivity].
    cbn. destruct (_ && _); [discriminate|]. intros [= <-]. reflexivity.
  - destruct (Ascii.eqb c "#"); [|discriminate].
    destruct (literal_eval _) as [d|e0] eqn:Hd; [discriminate|].
    cbn. intros [= <-]. exact (Hw _ _ Hd).
Qed.

Lemma metric_options_plain ms : forall acc e,
  well_behaved literal_eval ->
  metric_options literal_eval acc ms = Raise e -> plain_error e = true.
Proof.
  induction ms as [|m ms IH]; intros acc e Hw; [discriminate|].
  cbn [metric_options].
  destruct (metric_option literal_eval acc m) as [acc'|e0] eqn:Hm.
  - apply IH, Hw.
  - cbn. intros [= <-]. exact (metric_option_plain _ _ _ Hw Hm).
Qed.

Lemma metric_value_plain name raw e :
  metric_value name raw = Raise e -> plain_error e = true.
Proof.
  unfold metric_value.
  destruct (PyString.int raw) as [n|e0] eqn:Hi; [discriminate|].
  rewrite (int_raises _ _ Hi).
  destruct (PyString.float raw) as [x|e1] eqn:Hx; [discriminate|].
  rewrite (float_raises _ _ Hx). intros [= <-]. reflexivity.
Qed.

Lemma parse_metric_plain p e :
  well_behaved literal_eval ->
  _parse_metric_packet literal_eval p = Raise e -> plain_error e = true.
Proof.
  intros Hw. unfold _parse_metric_packet.
  destruct (PyString.split1 ":" p) as [|name [|rest [|? ?]]];
    try (intros [= <-]; reflexivity).
  destruct (PyString.split "|" rest) as [|raw [|t opts]];
    try (intros [= <-]; reflexivity).
  destruct (if String.eqb t "s" then _ else _) as [v|e0] eqn:Hv.
  - cbn [mbind outcome_bind].
    destruct (metric_options _ _ opts) as [[r d]|e0] eqn:Ho; [discriminate|].
    cbn. intros [= <-]. exact (metric_options_plain _ _ _ Hw Ho).
  - cbn. intros [= <-]. destruct (String.eqb t "s"); [discriminate|].
    exact (metric_value_plain _ _ _ Hv).
Qed.

(** What one packet does to the server. *)
Lemma submit_packet_cases p s :
  submit_packet literal_eval p s = (Return tt, s) \/
  (exists e, submit_packet literal_eval p s = (Raise e, s) /\
     (well_behaved literal_eval -> plain_error e = true)) \/
  (exists ev,
     submit_packet literal_eval p s =
     (Return tt,
      set_aggregator
        (Aggregator_event ev (incr_event_count (aggregator s))) s)) \/
  (exists e,
     submit_packet literal_eval p s =
     (Raise e, set_aggregator (incr_count (aggregator s)) s) /\
     (well_behaved literal_eval -> plain_error e = true)) \/
  (exists m,
     submit_packet literal_eval p s =
     (Return tt,
      set_aggregator
        (Aggregator_submit_metric m (incr_count (aggregator s))) s)).
Proof.
  unfold submit_packet.
  destruct (String.eqb _ _); [left; reflexivity|right].
  destruct (PyString.startswith _ _).
  - run. destruct (_parse_event_packet p) as [ev|e] eqn:Hp.
    + right. left. exists ev. reflexivity.
    + left. exists e. split; [reflexivity|].
      intros _. exact (parse_event_plain _ _ Hp).
  - right. right. run.
    destruct (_parse_metric_packet literal_eval p)
      as [[[[[name value] mtype] dims] rate]|e] eqn:Hp.
    + destruct (metric_class mtype) as [cls|e] eqn:Hc.
      * right. eexists. reflexivity.
      * left. exists e. split; [reflexivity|].
        intros _. rewrite (metric_class_raises _ _ Hc). reflexivity.
    + left. exists e. split; [reflexivity|].
      intros Hw. exact (parse_metric_plain _ _ Hw Hp).
Qed.

Lemma submit_each_account packets : forall s,
  let r := submit_each literal_eval packets s in
  let a := aggregator s in
  let a' := aggregator (snd r) in
  (event_count a' - Z.of_nat (length (events a')) =
   event_count a - Z.of_nat (length (events a)))%Z /\
  (count a - Z.of_nat (length (submitted a)) <=
   count a' - Z.of_nat (length (submitted a')))%Z /\
  (fst r = Return tt ->
   (count a' - Z.of_nat (length (submitted a')) =
    count a - Z.of_nat (length (submitted a)))%Z) /\
  (count a' - Z.of_nat (length (submitted a')) <=
   count a - Z.of_nat (length (submitted a)) + 1)%Z /\
  submitted a `prefix_of` submitted a' /\
  events a `prefix_of` events a' /\
  (forall e, fst r = Raise e -> well_behaved literal_eval ->
     plain_error e = true) /\
  running (snd r) = running s /\
  should_forward (snd r) = should_forward s /\
  forward_udp_sock (snd r) = forward_udp_sock s /\
  log (snd r) = log s.
Proof.
  induction packets as [|p packets IH]; intros s; cbn zeta.
  - cbn. repeat split; try reflexivity; try lia. discriminate.
  - cbn [submit_each]. unfold mbind, M_bind, bind.
    destruct (submit_packet_cases p s)
      as [H|[(e & H & He)|[(ev & H)|[(e & H & He)|(m & H)]]]]; rewrite H.
    + apply IH.
    + cbn. repeat split; try reflexivity; try lia; try discriminate.
      intros e' [= <-]. exact He.
    + specialize (IH (set_aggregator
                        (Aggregator_event ev (incr_event_count (aggregator s)))
                        s)).
      cbn zeta in IH. cbn in IH.
      destruct IH as (I1 & I2 & I3 & I4 & I5 & I6 & I7 & I8 & I9 & I10 & I11).
      rewrite length_app in I1. cbn in I1.
      repeat split; try assumption; try lia.
      etransitivity; [|exact I6]. apply prefix_app_r. reflexivity.
    + cbn. repeat split; try reflexivity; try lia; try discriminate.
      intros e' [= <-]. exact He.
    + specialize (IH (set_aggregator
                        (Aggregator_submit_metric m (incr_count (aggregator s)))
                        s)).
      cbn zeta in IH. cbn in IH.
      destruct IH as (I1 & I2 & I3 & I4 & I5 & I6 & I7 & I8 & I9 & I10 & I11).
      rewrite length_app in I2, I3, I4. cbn in I2, I3, I4.
      repeat split; try assumption; try lia.
      * intros Hr. specialize (I3 Hr). lia.
      * etransitivity; [|exact I5]. apply prefix_app_r. reflexivity.
Qed.

(** X13.  Whatever the packets of a datagram are, [submit_packets] keeps
    the two counters of the aggregator in step with what it receives:
    [event_count] grows by the number of events handed over, [count] by
    the number of metrics submitted, plus one when the call is left by
    the error of a metric packet, which was counted before it was parsed.
    Nothing submitted before is removed, and the server itself (running
    flag, forwarding socket, log) is untouched. *)
Theorem submit_packets_keeps_count message s :
  let r := submit_packets literal_eval message s in
  let a := aggregator s in
  let a' := aggregator (snd r) in
  (event_count a' - Z.of_nat (length (events a')) =
   event_count a - Z.of_nat (length (events a)))%Z /\
  (count a - Z.of_nat (length (submitted a)) <=
   count a' - Z.of_nat (length (submitted a')))%Z /\
  (fst r = Return tt ->
   (count a' - Z.of_nat (length (submitted a')) =
    count a - Z.of_nat (length (submitted a)))%Z) /\
  (count a' - Z.of_nat (length (submitted a')) <=
   count a - Z.of_nat (length (submitted a)) + 1)%Z /\
  submitted a `prefix_of` submitted a' /\
  events a `prefix_of` events a' /\
  running (snd r) = running s /\
  forward_udp_sock (snd r) = forward_udp_sock s /\
  log (snd r) = log s.
Proof.
  cbn zeta. unfold submit_packets.
  destruct (submit_each_account
              (PyString.split PyString.newline message) s)
    as (I1 & I2 & I3 & I4 & I5 & I6 & I7 & I8 & I9 & I10 & I11).
  repeat split; assumption.
Qed.

Lemma turn_datagram message s :
  well_behaved literal_eval ->
  exists s',
    turn literal_eval (Datagram message) s = (Return true, s') /\
    running s' = running s /\
    should_forward s' = should_forward s.
Proof.
  intros Hw. unfold turn, receive, submit_packets.
  destruct (submit_each_account
              (PyString.split PyString.newline message) s)
    as (_ & _ & _ & _ & _ & _ & I7 & I8 & I9 & _).
  cbn zeta in *. unfold mbind, M_bind, bind.
  destruct (submit_each literal_eval _ s) as [[[]|e] s1]; cbn [fst snd] in *.
  - unfold get, when, forward. destruct (should_forward s1) eqn:Hf.
    + unfold mbind, M_bind, bind, get.
      destruct (forward_udp_sock s1) as [sent|].
      * eexists. split; [reflexivity|]. cbn. split; [exact I8|].
        rewrite <- I9. exact Hf.
      * eexists. split; [reflexivity|]. cbn. split; [exact I8|].
        rewrite <- I9. exact Hf.
    + eexists. split; [reflexivity|]. split; [exact I8|]. rewrite <- I9.
      exact Hf.
  - specialize (I7 e eq_refl Hw).
    destruct e; try discriminate I7;
      (eexists; split; [reflexivity|]; split; [exact I8|exact I9]).
Qed.


Lemma serve_datagrams_then messages rest : forall s s1,
  running s = true ->
  serve literal_eval (map Datagram messages) s = (Return tt, s1) ->
  well_behaved literal_eval ->
  serve literal_eval (map Datagram messages ++ rest) s =
  serve literal_eval rest s1.
Proof.
  induction messages as [|m messages IH]; intros s s1 Hr Hs Hw.
  - cbn in Hs. injection Hs as <-. reflexivity.
  - cbn [map app serve] in *. unfold mbind, M_bind, bind, get in *.
    rewrite Hr in *.
    destruct (turn_datagram m s Hw) as (s0 & Ht & Hr0 & _).
    rewrite Ht in *. apply IH; [congruence|exact Hs|exact Hw].
Qed.

Lemma serve_datagrams_running messages : forall s s1,
  well_behaved literal_eval ->
  running s = true ->
  serve literal_eval (map Datagram messages) s = (Return tt, s1) ->
  running s1 = true.
Proof.
  induction messages as [|m messages IH]; intros s s1 Hw Hr Hs.
  - cbn in Hs. injection Hs as <-. exact Hr.
  - cbn [map serve] in Hs. unfold mbind, M_bind, bind, get in Hs.
    rewrite Hr in Hs.
    destruct (turn_datagram m s Hw) as (s2 & Ht & Hr2 & _).
    rewrite Ht in Hs. apply (IH s2 s1 Hw); [congruence|exact Hs].
Qed.

(** X15.  How the select loop ends after datagrams that left the server
    in the state [s1]: an interrupted [select] (errno 4) is ignored and
    the loop goes on; any other error of [select] leaves [start] as that
    error; [KeyboardInterrupt] and [SystemExit] break the loop without a
    log record and without clearing [running]; after [stop] nothing more
    is read. *)
Theorem select_loop_exits messages rest s s1 :
  well_behaved literal_eval ->
  running s = true ->
  serve literal_eval (map Datagram messages) s = (Return tt, s1) ->
  serve literal_eval (map Datagram messages ++ SelectFails 4 :: rest) s =
    serve literal_eval rest s1 /\
  (forall errno, errno <> 4%Z ->
     serve literal_eval
       (map Datagram messages ++ SelectFails errno :: rest) s =
     (Raise (select_error errno), s1)) /\
  serve literal_eval
    (map Datagram messages ++ Interrupted KeyboardInterrupt :: rest) s =
    (Return tt, s1) /\
  serve literal_eval
    (map Datagram messages ++ Interrupted SystemExit :: rest) s =
    (Return tt, s1) /\
  serve literal_eval (map Datagram messages ++ Stopped :: rest) s =
    (Return tt, set_running false s1) /\
  running s1 = true.
Proof.
  intros Hw Hr Hs.
  assert (Hr1 : running s1 = true)
    by exact (serve_datagrams_running messages s s1 Hw Hr Hs).
  repeat split; try exact Hr1.
  - rewrite (serve_datagrams_then _ _ s s1 Hr Hs Hw).
    cbn [serve]. unfold mbind, M_bind, bind, get. rewrite Hr1. reflexivity.
  - intros errno Hne. rewrite (serve_datagrams_then _ _ s s1 Hr Hs Hw).
    cbn [serve]. unfold mbind, M_bind, bind, get. rewrite Hr1.
    unfold turn, receive, raise.
    destruct (Z.eqb_spec errno 4); [contradiction|reflexivity].
  - rewrite (serve_datagrams_then _ _ s s1 Hr Hs Hw).
    cbn [serve]. unfold mbind, M_bind, bind, get. rewrite Hr1. reflexivity.
  - rewrite (serve_datagrams_then _ _ s s1 Hr Hs Hw).
    cbn [serve]. unfold mbind, M_bind, bind, get. rewrite Hr1. reflexivity.
  - rewrite (serve_datagrams_then _ _ s s1 Hr Hs Hw).
    cbn [serve]. unfold mbind, M_bind, bind, get. rewrite Hr1.
    unfold turn, receive, ret.
    destruct rest as [|a rest]; [reflexivity|].
    cbn [serve]. unfold mbind, M_bind, bind, get. reflexivity.
Qed.

Lemma parse_event_steps packet name metadata a b tl xl :
  PyString.split1 ":" packet = [name; metadata] ->
  PyString.unicode metadata = Return metadata ->
  PyString.split "," name = [a; b] ->
  PyString.int (PyString.slice a (Some 3%Z) None) = Return tl ->
  PyString.int (PyString.slice b None (Some (-1)%Z)) = Return xl ->
  _parse_event_packet packet =
  match
    event_metas
      (<["text" :=
           PyStr (PyString.unescape_newlines
                    (PyString.slice metadata (Some (tl + 1)%Z)
                       (Some (tl + xl + 1)%Z)))]>
         (<["title" := PyStr (PyString.slice metadata None (Some tl))]> ∅))
      (tail (PyString.split "|"
               (PyString.slice metadata (Some (tl + xl + 1)%Z) None)))
  with
  | Raise IndexError => Raise (unparseable_event packet)
  | r => r
  end.
Proof.
  intros H1 H2 H3 H4 H5. unfold _parse_event_packet.
  rewrite H1, H2. cbn [mbind outcome_bind]. rewrite H3, H4.
  cbn [mbind outcome_bind]. rewrite H5. cbn [mbind outcome_bind].
  destruct (event_metas _ _) as [ev|[]]; reflexivity.
Qed.

(** The event a packet starts with: its title and its text. *)
Lemma parse_event_header title text meta :
  is_ascii title = true ->
  is_ascii text = true ->
  is_ascii meta = true ->
  let packet :=
    "_e{" +:+ pretty (String.length title) +:+ "," +:+
    pretty (String.length text) +:+ "}:" +:+ title +:+ "|" +:+ text +:+ meta in
  _parse_event_packet packet =
  match
    event_metas
      (<["text" := PyStr (PyString.unescape_newlines text)]>
         (<["title" := PyStr title]> ∅))
      (tail (PyString.split "|" meta))
  with
  | Raise IndexError => Raise (unparseable_event packet)
  | r => r
  end.
Proof.
  intros Hti Hte Hme packet.
  set (pT := pretty (String.length title)) in *.
  set (pX := pretty (String.length text)) in *.
  assert (E : packet =
              ("_e{" +:+ pT +:+ "," +:+ pX +:+ "}") +:+
              String ":" (title +:+ "|" +:+ text +:+ meta)).
  { unfold packet. rewrite !append_assoc. reflexivity. }
  assert (HT : forall c, PyString.digit c = None -> contains c pT = false)
    by (intros c Hc; apply pretty_nat_lacks, Hc).
  assert (HX : forall c, PyString.digit c = None -> contains c pX = false)
    by (intros c Hc; apply pretty_nat_lacks, Hc).
  assert (Hname : contains ":" ("_e{" +:+ pT +:+ "," +:+ pX +:+ "}") = false).
  { rewrite !contains_app, (HT ":"%char eq_refl), (HX ":"%char eq_refl).
    reflexivity. }
  assert (Hs : PyString.split "," ("_e{" +:+ pT +:+ "," +:+ pX +:+ "}") =
               ["_e{" +:+ pT; pX +:+ "}"]).
  { assert (E2 : "_e{" +:+ pT +:+ "," +:+ pX +:+ "}" =
                 ("_e{" +:+ pT) +:+ String "," (pX +:+ "}"))
      by (rewrite !append_assoc; reflexivity).
    rewrite E2, split_app, split_none; [reflexivity| |].
    - rewrite contains_app, (HX ","%char eq_refl). reflexivity.
    - rewrite contains_app, (HT ","%char eq_refl). reflexivity. }
  pose proof (slice_from "_e{" pT) as S1.
  change (Z.of_nat (String.length "_e{")) with 3%Z in S1.
  rewrite (parse_event_steps packet ("_e{" +:+ pT +:+ "," +:+ pX +:+ "}")
             (title +:+ "|" +:+ text +:+ meta)
             ("_e{" +:+ pT) (pX +:+ "}")
             (Z.of_nat (String.length title)) (Z.of_nat (String.length text))).
  - rewrite (slice_to title ("|" +:+ text +:+ meta)).
    assert (E3 : title +:+ "|" +:+ text +:+ meta =
                 (title +:+ "|") +:+ text +:+ meta)
      by (rewrite !append_assoc; reflexivity).
    rewrite E3 at 1.
    rewrite (slice_between (title +:+ "|") text meta); cycle 1.
    { rewrite length_append. cbn [String.length]. lia. }
    { lia. }
    assert (E4 : title +:+ "|" +:+ text +:+ meta =
                 (title +:+ "|" +:+ text) +:+ meta)
      by (rewrite !append_assoc; reflexivity).
    rewrite E4.
    replace (Z.of_nat (String.length title) +
             Z.of_nat (String.length text) + 1)%Z
      with (Z.of_nat (String.length (title +:+ "|" +:+ text)));
      [|rewrite !length_append; cbn [String.length]; lia].
    rewrite slice_from. reflexivity.
  - rewrite E. apply (split1_app ":" _ _ Hname).
  - apply unicode_ascii. rewrite !is_ascii_app, Hti, Hte, Hme. reflexivity.
  - exact Hs.
  - rewrite S1. apply int_pretty_nat.
  - rewrite (slice_but_last pX "}"). apply int_pretty_nat.
Qed.

(** X16.  An event packet [_e{m,n}:title|text], whose header gives the
    lengths of the title and of the text, parses to that title and that
    text, with every backslash-n of the text turned into a newline: the
    two are cut by their lengths, so that bars, colons and commas in them
    are kept. *)
Theorem event_packet_round_trip title text :
  is_ascii title = true ->
  is_ascii text = true ->
  _parse_event_packet
    ("_e{" +:+ pretty (String.length title) +:+ "," +:+
     pretty (String.length text) +:+ "}:" +:+ title +:+ "|" +:+ text) =
  Return (<["text" := PyStr (PyString.unescape_newlines text)]>
            (<["title" := PyStr title]> ∅)).
Proof.
  intros Hti Hte.
  pose proof (parse_event_header title text EmptyString Hti Hte eq_refl) as H.
  cbn zeta in H. rewrite append_nil_r in H. exact H.
Qed.

(** X17.  An event packet that ends with a bar has an empty field after
    the text; the [IndexError] of reading its first character is turned
    into the error [Unparseable event packet], where a metric packet lets
    the [IndexError] through. *)
Theorem event_packet_with_empty_field title text :
  is_ascii title = true ->
  is_ascii text = true ->
  let packet :=
    "_e{" +:+ pretty (String.length title) +:+ "," +:+
    pretty (String.length text) +:+ "}:" +:+ title +:+ "|" +:+ text +:+ "|" in
  _parse_event_packet packet = Raise (unparseable_event packet).
Proof.
  intros Hti Hte.
  exact (parse_event_header title text "|" Hti Hte eq_refl).
Qed.

(** X18.  The field [#a,b,...] of an event packet gives the dimensions of
    the event: the names between the commas, sorted. *)
Theorem event_dimensions_are_sorted title text names :
  is_ascii title = true ->
  is_ascii text = true ->
  is_ascii names = true ->
  contains "|" names = false ->
  _parse_event_packet
    ("_e{" +:+ pretty (String.length title) +:+ "," +:+
     pretty (String.length text) +:+ "}:" +:+ title +:+ "|" +:+ text +:+
     "|#" +:+ names) =
  Return (<["dimensions" :=
              PyList (PyStr <$> PyString.sorted (PyString.split "," names))]>
            (<["text" := PyStr (PyString.unescape_newlines text)]>
               (<["title" := PyStr title]> ∅))).
Proof.
  intros Hti Hte Hna Hbar.
  pose proof (parse_event_header title text ("|#" +:+ names) Hti Hte) as H.
  cbn zeta in H. rewrite H by (rewrite is_ascii_app, Hna; reflexivity).
  change ("|#" +:+ names) with (EmptyString +:+ String "|" (String "#" names)).
  rewrite (split_app "|" EmptyString (String "#" names) eq_refl).
  rewrite split_none by (rewrite contains_cons, Hbar; reflexivity).
  cbn [tail event_metas]. unfold event_meta.
  cbn [PyString.first mbind outcome_bind].
  change (Ascii.eqb "#" "t") with false.
  change (Ascii.eqb "#" "k") with false.
  change (Ascii.eqb "#" "s") with false.
  change (Ascii.eqb "#" "d") with false.
  change (Ascii.eqb "#" "p") with false.
  change (Ascii.eqb "#" "h") with false.
  change (Ascii.eqb "#" "#") with true.
  cbv iota. rewrite slice_tail. reflexivity.
Qed.

End Facts.

End UdpMore.

Module UdpRuns.
Import Udp Packets PyStringFacts UdpMore.

Lemma atom_raises ts e rest :
  Ast.atom ts = Some (Raise e, rest) -> e = ValueError.
Proof.
  destruct ts as [|t ts]; [discriminate|].
  destruct t; try discriminate; cbn [Ast.atom].
  - destruct ts as [|[] ts]; discriminate.
  - repeat (destruct (String.eqb s _); [discriminate|]).
    intros [= <- _]. reflexivity.
Qed.

Lemma items_plain fuel : forall ts acc o rest,
  (forall e, acc = Raise e -> plain_error e = true) ->
  Ast.items fuel ts acc = Some (o, rest) ->
  forall e, o = Raise e -> plain_error e = true.
Proof.
  induction fuel as [|fuel IH]; intros ts acc o rest Hacc H; [discriminate|].
  cbn [Ast.items] in H.
  assert (Hstep :
    match Ast.atom ts with
    | Some (k, Ast.TColon :: ts1) =>
        match Ast.atom ts1 with
        | Some (v, ts2) =>
            let acc' :=
              d ← acc; k' ← k; v' ← v; mret (Ast.dict_set k' v' d) in
            match ts2 with
            | Ast.TComma :: ts3 => Ast.items fuel ts3 acc'
            | Ast.TRBrace :: ts3 => Some (acc', ts3)
            | _ => None
            end
        | None => None
        end
    | _ => None
    end = Some (o, rest) -> forall e, o = Raise e -> plain_error e = true).
  { clear H. destruct (Ast.atom ts) as [[k [|t1 ts1]]|] eqn:Hk;
      try discriminate.
    destruct t1; try discriminate.
    destruct (Ast.atom ts1) as [[v ts2]|] eqn:Hv; [|discriminate].
    cbv zeta.
    assert (Hacc' : forall e,
              (d ← acc; k' ← k; v' ← v; mret (Ast.dict_set k' v' d)) =
              Raise e -> plain_error e = true).
    { intros e. destruct acc as [d|e0]; cbn [mbind outcome_bind].
      - destruct k as [k'|e1]; cbn [mbind outcome_bind].
        + destruct v as [v'|e2]; cbn [mbind outcome_bind]; [discriminate|].
          intros [= <-]. rewrite (atom_raises _ _ _ Hv). reflexivity.
        + intros [= <-]. rewrite (atom_raises _ _ _ Hk). reflexivity.
      - intros [= <-]. apply Hacc. reflexivity. }
    destruct ts2 as [|t2 ts3]; [discriminate|].
    destruct t2; try discriminate.
    - intros [= <- _]. exact Hacc'.
    - intros H. exact (IH _ _ _ _ Hacc' H). }
  destruct ts as [|t ts']; [exact (Hstep H)|].
  destruct t; try exact (Hstep H).
  injection H as <- _. exact Hacc.
Qed.

(** The errors of the evaluator are [SyntaxError] and [ValueError]. *)
Lemma literal_eval_well_behaved : well_behaved Ast.literal_eval.
Proof.
  intros text e. unfold Ast.literal_eval.
  destruct (_ || _); [intros [= <-]; reflexivity|].
  destruct (Ast.expression _) as [[v [|? ?]]|] eqn:He;
    try (intros [= <-]; reflexivity).
  intros ->. unfold Ast.expression in He.
  destruct (Ast.lex _ _) as [|t ts].
  - discriminate.
  - destruct t; try (rewrite (atom_raises _ _ _ He); reflexivity).
    destruct (Ast.items _ _ _) as [[d rest]|] eqn:Hi; [|discriminate].
    injection He as He _. destruct d as [d|e0]; cbn in He; [discriminate|].
    injection He as <-.
    refine (items_plain _ _ (Return []) _ _ _ Hi e0 eq_refl). discriminate.
Qed.

(** *** Runs on concrete packets *)

Lemma metric_packet_round_trip_witness :
  _parse_metric_packet Ast.literal_eval "temp:-5|g" =
  Return ("temp", PyInt (-5), "g", PyDict [], PyInt 1).
Proof.
  exact (metric_packet_round_trip Ast.literal_eval "temp" (-5) "g"
           eq_refl eq_refl eq_refl).
Defined.

Lemma set_value_is_kept_as_text_witness :
  _parse_metric_packet Ast.literal_eval "users:007|s" =
  Return ("users", PyStr "007", "s", PyDict [], PyInt 1).
Proof.
  exact (set_value_is_kept_as_text Ast.literal_eval "users" "007"
           eq_refl eq_refl).
Defined.

Lemma metric_packet_needs_colon_and_bar_witness :
  _parse_metric_packet Ast.literal_eval "bad" =
    Raise (unparseable_metric "bad") /\
  _parse_metric_packet Ast.literal_eval "a:1" =
    Raise (unparseable_metric "a:1").
Proof.
  destruct (metric_packet_needs_colon_and_bar Ast.literal_eval) as [H1 H2].
  split; [apply H1; reflexivity|apply (H2 "a" "1"); reflexivity].
Defined.

(** The conversion of [float] rounds to the nearest binary64 number, a
    tie to the even one, overflows to [inf] and underflows to a zero. *)
Lemma float_rounds :
  PyString.float "0.1" =
    Return (FNum (3602879701896397 # 36028797018963968)) /\
  PyString.float "9007199254740993" = Return (FNum 9007199254740992) /\
  PyString.float "1.00000000000000000001" = Return (FNum 1) /\
  PyString.float "4.9e-324" = Return (FNum (Qmake 1 (2 ^ 1074))) /\
  PyString.float "2.4703282292062327e-324" = Return (FNum 0) /\
  PyString.float "-1e-400" = Return FNegZero /\
  PyString.float "1.7976931348623158e308" =
    Return (FNum (inject_Z ((2 ^ 53 - 1) * 2 ^ 971))) /\
  PyString.float "1.7976931348623159e308" = Return (FInf false) /\
  PyString.float "-1e400" = Return (FInf true).
Proof. repeat split; vm_compute; reflexivity. Qed.

Lemma sample_rate_between_0_and_1_witness :
  _parse_metric_packet Ast.literal_eval "a:1|c|@0.5" =
    Return ("a", PyInt 1, "c", PyDict [], PyFloat (FNum (1 # 2))) /\
  _parse_metric_packet Ast.literal_eval "a:1|c|@2" = Raise AssertionError /\
  _parse_metric_packet Ast.literal_eval "a:1|c|@1.00000000000000000001" =
    Return ("a", PyInt 1, "c", PyDict [], PyFloat (FNum 1)) /\
  _parse_metric_packet Ast.literal_eval "a:1|c|@-1e-400" =
    Return ("a", PyInt 1, "c", PyDict [], PyFloat FNegZero) /\
  _parse_metric_packet Ast.literal_eval "a:1|c|@nan" = Raise AssertionError.
Proof.
  split; [|split; [|split; [|split]]].
  - refine (sample_rate_between_0_and_1 Ast.literal_eval "a" 1 "c" "0.5"
              (FNum (1 # 2)) eq_refl eq_refl eq_refl eq_refl _).
    vm_compute. reflexivity.
  - refine (sample_rate_between_0_and_1 Ast.literal_eval "a" 1 "c" "2"
              (FNum 2) eq_refl eq_refl eq_refl eq_refl _).
    vm_compute. reflexivity.
  - refine (sample_rate_between_0_and_1 Ast.literal_eval "a" 1 "c"
              "1.00000000000000000001"
              (FNum 1) eq_refl eq_refl eq_refl eq_refl _).
    vm_compute. reflexivity.
  - refine (sample_rate_between_0_and_1 Ast.literal_eval "a" 1 "c" "-1e-400"
              FNegZero eq_refl eq_refl eq_refl eq_refl _).
    vm_compute. reflexivity.
  - refine (sample_rate_between_0_and_1 Ast.literal_eval "a" 1 "c" "nan"
              FNan eq_refl eq_refl eq_refl eq_refl _).
    vm_compute. reflexivity.
Defined.

Lemma trailing_bar_raises_IndexError_witness :
  _parse_metric_packet Ast.literal_eval "a:1|c|" = Raise IndexError.
Proof.
  exact (trailing_bar_raises_IndexError Ast.literal_eval "a" 1 "c"
           eq_refl eq_refl eq_refl).
Defined.


Lemma select_loop_exits_witness :
  exists s1,
    serve Ast.literal_eval
      [Datagram "a:1|c"; SelectFails 4; Datagram "b:2|c"]
      (set_running true UdpExamples.fresh) =
    serve Ast.literal_eval [Datagram "b:2|c"] s1 /\
    serve Ast.literal_eval
      [Datagram "a:1|c"; SelectFails 9; Datagram "b:2|c"]
      (set_running true UdpExamples.fresh) =
    (Raise (select_error 9), s1) /\
    serve Ast.literal_eval
      [Datagram "a:1|c"; Interrupted KeyboardInterrupt; Datagram "b:2|c"]
      (set_running true UdpExamples.fresh) = (Return tt, s1) /\
    running s1 = true.
Proof.
  eexists.
  destruct (select_loop_exits Ast.literal_eval ["a:1|c"] [Datagram "b:2|c"]
              (set_running true UdpExamples.fresh)
              (snd (serve Ast.literal_eval [Datagram "a:1|c"]
                      (set_running true UdpExamples.fresh)))
              literal_eval_well_behaved eq_refl)
    as (H1 & H2 & H3 & _ & _ & H6); [vm_compute; reflexivity|].
  split; [exact H1|]. split; [apply H2; discriminate|].
  split; [exact H3|exact H6].
Defined.

Lemma event_packet_round_trip_witness :
  _parse_event_packet "_e{3,3}:a,b|x|y" =
  Return (<["text" := PyStr "x|y"]> (<["title" := PyStr "a,b"]> ∅)).
Proof. exact (event_packet_round_trip "a,b" "x|y" eq_refl eq_refl). Defined.

Lemma event_packet_with_empty_field_witness :
  _parse_event_packet "_e{3,3}:a,b|x|y|" =
  Raise (unparseable_event "_e{3,3}:a,b|x|y|").
Proof.
  exact (event_packet_with_empty_field "a,b" "x|y" eq_refl eq_refl).
Defined.

Lemma event_dimensions_are_sorted_witness :
  _parse_event_packet "_e{1,1}:t|x|#b,a" =
  Return (<["dimensions" := PyList [PyStr "a"; PyStr "b"]]>
            (<["text" := PyStr "x"]> (<["title" := PyStr "t"]> ∅))).
Proof.
  exact (event_dimensions_are_sorted "t" "x" "b,a"
           eq_refl eq_refl eq_refl eq_refl).
Defined.

Lemma submit_packets_keeps_count_witness :
  (count
     (aggregator
        (snd (submit_packets Ast.literal_eval
                (UdpExamples.datagram ["a:1|c"; "b:2|g"])
                UdpExamples.fresh))) -
   Z.of_nat
     (length
        (submitted
           (aggregator
              (snd (submit_packets Ast.literal_eval
                      (UdpExamples.datagram ["a:1|c"; "b:2|g"])
                      UdpExamples.fresh))))) = 0)%Z.
Proof.
  pose proof (submit_packets_keeps_count Ast.literal_eval
                (UdpExamples.datagram ["a:1|c"; "b:2|g"])
                UdpExamples.fresh) as H.
  cbn zeta in H. destruct H as (_ & _ & H & _).
  apply H. vm_compute. reflexivity.
Defined.

End UdpRuns.

(** ** More facts about the collector *)

Module CollectorMore.
Import Collector CollectorFacts.

Section Facts.
Variable emitter : list Measurement -> outcome unit.
Variable emitter_name : string.
Variable show_float : nat -> Q -> string.
Variable _set_dimensions : gmap string string -> gmap string string.

Ltac run :=
  unfold logm, call_emitter, when, mbind, M_bind, mret, M_ret, lift;
  unfold bind, ret, get, modify, raise, try_except;
  cbn beta iota zeta delta
    [run_count continue_running initialized_checks_d
     emitted stopped log set_run_count set_continue_running set_emitted
     set_stopped set_log negb fst snd].

(** X19.  A run of a collector that was not stopped, over any list of
    checks none of which is interrupted, returns; the emitter has been
    called with the measurements of every check whose [run] and
    [get_metrics] returned, in the order of the checks, and then once with
    the measurements of the collector itself, which follow the order of
    the dictionary of [collector_stats] under [iteritems]; each check
    that raised is in the log, and the run is counted. *)
Theorem run_emits_every_payload env c :
  tame emitter ->
  continue_running c = true ->
  Forall (fun check => interrupts check = false) (initialized_checks_d c) ->
  exists c',
    run emitter emitter_name show_float _set_dimensions env c =
    (Return tt, c') /\
    emitted c' =
      emitted c ++ payloads (initialized_checks_d c) ++
      [self_metrics _set_dimensions env] /\
    run_count c' = (run_count c + 1)%Z /\
    (forall check, check ∈ initialized_checks_d c -> payload check = None ->
                   check_error check ∈ log c').
Proof. apply run_spec. Qed.

Lemma run_checks_count env checks : forall m c,
  tame emitter -> continue_running c = true ->
  Forall (fun check => interrupts check = false) checks ->
  exists c',
    run_checks emitter emitter_name show_float env checks m c =
    (Return (Some (m + Z.of_nat (length (concat (payloads checks))))%Z), c') /\
    steady c c'.
Proof.
  induction checks as [|check checks IH]; intros m c Ht Hc Hf.
  - exists c. split; [|apply steady_refl]. cbn. rewrite Z.add_0_r.
    reflexivity.
  - apply Forall_cons in Hf as [Hi Hf].
    cbn [run_checks]. unfold mbind at 1, M_bind at 1, bind at 1, get at 1.
    rewrite Hc. cbn [negb].
    destruct (run_check_spec emitter emitter_name show_float env check m c
                Ht Hc Hi) as (c1 & R1 & S1 & _).
    unfold mbind at 1, M_bind at 1, bind at 1. rewrite R1.
    assert (Hc1 : continue_running c1 = true)
      by (destruct S1 as (_ & -> & _); exact Hc).
    destruct (IH (m + Z.of_nat (length (default [] (payload check))))%Z c1
                Ht Hc1 Hf) as (c2 & R2 & S2).
    exists c2. split; [|eauto using steady_trans].
    rewrite R2.
    assert (E : (m + Z.of_nat (length (default [] (payload check))) +
                 Z.of_nat (length (concat (payloads checks))) =
                 m + Z.of_nat (length (concat (payloads (check :: checks)))))%Z).
    { unfold payloads.
      change (omap payload (check :: checks))
        with (match payload check with
              | Some ms => ms :: omap payload checks
              | None => omap payload checks
              end).
      destruct (payload check) as [ms|]; cbn [from_option id concat];
        rewrite ?length_app; cbn [length]; lia. }
    rewrite E. reflexivity.
Qed.

(** X20.  The number [run_checks_d] returns is the number of measurements
    it handed to the emitter: the measurements of a check that raised are
    not counted. *)
Theorem run_checks_d_counts_emitted env c :
  tame emitter ->
  continue_running c = true ->
  Forall (fun check => interrupts check = false) (initialized_checks_d c) ->
  exists c',
    run_checks_d emitter emitter_name show_float env c =
    (Return
       (Some (Z.of_nat
                (length (concat (payloads (initialized_checks_d c)))))), c') /\
    emitted c' = emitted c ++ payloads (initialized_checks_d c).
Proof.
  intros Ht Hc Hf. unfold run_checks_d.
  unfold mbind at 1, M_bind at 1, bind at 1, get at 1.
  destruct (run_checks_count env (initialized_checks_d c) 0 c Ht Hc Hf)
    as (c1 & R1 & _).
  destruct (run_checks_spec emitter emitter_name show_float env
              (initialized_checks_d c) 0 c Ht Hc Hf)
    as (n & c2 & R2 & _ & E2 & _).
  rewrite R1 in R2. injection R2 as _ <-.
  exists c1. split; [rewrite R1; reflexivity|exact E2].
Qed.

Lemma emit_stopping payload c :
  continue_running c = false ->
  _emit emitter emitter_name payload c = (Return tt, c).
Proof. intros Hc. unfold _emit. run. rewrite Hc. reflexivity. Qed.

Lemma set_status_keeps d c :
  exists c', _set_status show_float d c = (Return tt, c') /\
             emitted c' = emitted c /\ stopped c' = stopped c /\
             run_count c' = run_count c.
Proof.
  unfold _set_status. run.
  destruct (_ || _); [destruct (run_count c =? FLUSH_LOGGING_INITIAL)%Z|]; run;
    (eexists; split; [reflexivity|]; repeat split).
Qed.

(** X21.  After [stop], a run calls neither a check nor the emitter: the
    collector is told to stop and its checks are told too, the run is
    counted, and nothing is emitted.  With at least one check configured
    [run_checks_d] then leaves by its bare [return], and a run that took
    more than 30 seconds raises [TypeError] when it formats the missing
    count of measurements. *)
Theorem nothing_is_emitted_after_stop env c check checks :
  initialized_checks_d c = check :: checks ->
  exists c',
    (stop;; run emitter emitter_name show_float _set_dimensions env) c =
    (if Qle_bool (collect_duration env) (inject_Z MAX_COLLECTION_TIME)
     then Return tt else Raise TypeError, c') /\
    emitted c' = emitted c /\
    stopped c' = stopped c ++ map check_name (check :: checks) /\
    run_count c' = (run_count c + 1)%Z /\
    continue_running c' = false.
Proof.
  intros Hch. unfold stop, run, run_checks_d, collector_stats. run.
  rewrite Hch. cbn [run_checks]. run.
  destruct (thread_count env >? MAX_THREADS_COUNT)%Z;
    destruct (Qle_bool (collect_duration env) (inject_Z MAX_COLLECTION_TIME));
    run; try (eexists; split; [reflexivity|]; repeat split; fail).
  all: unfold _emit; run.
  all: match goal with
       | |- context [_set_status show_float ?d ?c0] =>
           destruct (set_status_keeps d c0) as (c' & R & E1 & E2 & E3);
           rewrite R; exists c'; split; [reflexivity|];
           rewrite E1, E2, E3; repeat split
       end.
  all: match goal with
       | R : _set_status _ _ ?c0 = (_, ?c1) |- continue_running ?c1 = false =>
           revert R; unfold _set_status; run;
           destruct (_ || _);
           [destruct (_ =? FLUSH_LOGGING_INITIAL)%Z|]; run;
           intros [= <-]; reflexivity
       end.
Qed.

Lemma run_checks_app env pre post : forall m c,
  tame emitter -> continue_running c = true ->
  Forall (fun check => interrupts check = false) pre ->
  exists m' c',
    run_checks emitter emitter_name show_float env (pre ++ post) m c =
    run_checks emitter emitter_name show_float env post m' c' /\
    steady c c' /\
    emitted c' = emitted c ++ payloads pre.
Proof.
  induction pre as [|check pre IH]; intros m c Ht Hc Hf.
  - exists m, c. split; [reflexivity|]. split; [apply steady_refl|].
    symmetry. apply app_nil_r.
  - apply Forall_cons in Hf as [Hi Hf].
    cbn [app run_checks]. unfold mbind at 1, M_bind at 1, bind at 1, get at 1.
    rewrite Hc. cbn [negb].
    destruct (run_check_spec emitter emitter_name show_float env check m c
                Ht Hc Hi) as (c1 & R1 & S1 & E1 & _).
    unfold mbind at 1, M_bind at 1, bind at 1. rewrite R1.
    assert (Hc1 : continue_running c1 = true)
      by (destruct S1 as (_ & -> & _); exact Hc).
    destruct (IH (m + Z.of_nat (length (default [] (payload check))))%Z c1
                Ht Hc1 Hf) as (m' & c2 & R2 & S2 & E2).
    exists m', c2. split; [exact R2|]. split; [eauto using steady_trans|].
    rewrite E2, E1. unfold payloads.
    change (omap payload (check :: pre))
      with (match payload check with
            | Some ms => ms :: omap payload pre
            | None => omap payload pre
            end).
    destruct (payload check); cbn [option_list]; rewrite <- app_assoc;
      reflexivity.
Qed.

(** X22.  An interrupt ([KeyboardInterrupt], [SystemExit]) raised by the
    [run] of a check is not caught: it leaves the run of the collector
    after the checks before it were handled; the checks after it are not
    run, and the measurements of the collector itself are not emitted. *)
Theorem interrupt_leaves_the_run env c pre bad post e :
  tame emitter ->
  continue_running c = true ->
  initialized_checks_d c = pre ++ bad :: post ->
  Forall (fun check => interrupts check = false) pre ->
  check_run bad = Raise e ->
  is_Exception e = false ->
  exists c',
    run emitter emitter_name show_float _set_dimensions env c =
    (Raise e, c') /\
    emitted c' = emitted c ++ payloads pre /\
    run_count c' = (run_count c + 1)%Z.
Proof.
  intros Ht Hc Hch Hf Hb He. unfold run.
  unfold mbind at 1, M_bind at 1, bind at 1, modify at 1.
  set (c0 := set_run_count (run_count c + 1) c).
  unfold mbind at 1, M_bind at 1, bind at 1, get at 1.
  match goal with
  | |- context [logm debug ?msg] =>
      destruct (logm_steady debug msg c0) as (c1 & R1 & S1 & E1 & _)
  end.
  unfold mbind at 1, M_bind at 1, bind at 1. rewrite R1.
  assert (Hch1 : initialized_checks_d c1 = pre ++ bad :: post)
    by (destruct S1 as (_ & _ & -> & _); exact Hch).
  assert (Hc1 : continue_running c1 = true)
    by (destruct S1 as (_ & -> & _); exact Hc).
  unfold run_checks_d.
  unfold mbind at 1, M_bind at 1, bind at 1.
  unfold mbind at 1, M_bind at 1, bind at 1, get at 1. rewrite Hch1.
  destruct (run_checks_app env pre (bad :: post) 0 c1 Ht Hc1 Hf)
    as (m' & c2 & R2 & S2 & E2).
  rewrite R2.
  assert (Hc2 : continue_running c2 = true)
    by (destruct S2 as (_ & -> & _); exact Hc1).
  assert (Hr2 : run_count c2 = (run_count c + 1)%Z)
    by (destruct S2 as (-> & _); destruct S1 as (-> & _); reflexivity).
  cbn [run_checks]. unfold run_check. run. rewrite Hc2. cbn [negb].
  rewrite Hb, He. run.
  eexists. split; [reflexivity|]. cbn. split; [|exact Hr2].
  rewrite E2, E1. reflexivity.
Qed.

End Facts.

(** *** Runs on concrete collectors *)

Lemma accept_is_tame : tame CollectorExamples.accept.
Proof. intros p e H. discriminate H. Qed.

Lemma run_emits_every_payload_witness :
  exists c',
    run CollectorExamples.accept "http_emitter" CollectorExamples.no_digits
      CollectorExamples.fill_defaults CollectorExamples.readings0
      CollectorExamples.collector0 = (Return tt, c') /\
    emitted c' =
      [[CollectorExamples.cpu_idle];
       self_metrics CollectorExamples.fill_defaults
         CollectorExamples.readings0] /\
    run_count c' = 1%Z /\
    map (fun m => (name m, value m))
      (self_metrics CollectorExamples.fill_defaults
         CollectorExamples.readings0) =
    [("monasca.collection_time_sec", PyFloat (FNum 1));
     ("monasca.thread_count", PyInt 4)].
Proof.
  destruct (run_emits_every_payload CollectorExamples.accept "http_emitter"
              CollectorExamples.no_digits CollectorExamples.fill_defaults
              CollectorExamples.readings0 CollectorExamples.collector0
              accept_is_tame eq_refl)
    as (c' & H1 & H2 & H3 & _).
  - repeat constructor.
  - exists c'. split; [exact H1|]. split; [exact H2|].
    split; [exact H3|]. vm_compute. reflexivity.
Defined.

Lemma run_checks_d_counts_emitted_witness :
  exists c',
    run_checks_d CollectorExamples.accept "http_emitter"
      CollectorExamples.no_digits CollectorExamples.readings0
      CollectorExamples.collector0 = (Return (Some 1%Z), c') /\
    emitted c' = [[CollectorExamples.cpu_idle]].
Proof.
  destruct (run_checks_d_counts_emitted CollectorExamples.accept
              "http_emitter" CollectorExamples.no_digits
              CollectorExamples.readings0 CollectorExamples.collector0
              accept_is_tame eq_refl)
    as (c' & H1 & H2).
  - repeat constructor.
  - exists c'. split; [exact H1|exact H2].
Defined.

Lemma nothing_is_emitted_after_stop_witness :
  exists c',
    (stop;;
     run CollectorExamples.accept "http_emitter" CollectorExamples.no_digits
       CollectorExamples.fill_defaults CollectorCases.slow_readings)
      CollectorExamples.collector0 = (Raise TypeError, c') /\
    emitted c' = [] /\
    stopped c' = ["postgres"; "cpu"].
Proof.
  destruct (nothing_is_emitted_after_stop CollectorExamples.accept
              "http_emitter" CollectorExamples.no_digits
              CollectorExamples.fill_defaults CollectorCases.slow_readings
              CollectorExamples.collector0 CollectorExamples.broken_check
              [CollectorExamples.cpu_check] eq_refl)
    as (c' & H1 & H2 & H3 & _).
  exists c'. split; [exact H1|]. split; [exact H2|exact H3].
Defined.

Lemma interrupt_leaves_the_run_witness :
  exists c',
    run CollectorExamples.accept "http_emitter" CollectorExamples.no_digits
      CollectorExamples.fill_defaults CollectorExamples.readings0
      CollectorCases.collector1 = (Raise KeyboardInterrupt, c') /\
    emitted c' = [[CollectorExamples.cpu_idle]].
Proof.
  destruct (interrupt_leaves_the_run CollectorExamples.accept "http_emitter"
              CollectorExamples.no_digits CollectorExamples.fill_defaults
              CollectorExamples.readings0 CollectorCases.collector1
              [CollectorExamples.cpu_check] CollectorCases.interrupted_check
              [CollectorExamples.cpu_check] KeyboardInterrupt
              accept_is_tame eq_refl eq_refl)
    as (c' & H1 & H2 & _); [repeat constructor|reflexivity|reflexivity|].
  exists c'. split; [exact H1|exact H2].
Defined.

End CollectorMore.

(** ** More facts about the reporter *)

Module ReporterMore.
Import Reporter ReporterFacts.

Section Facts.
Context {Metric Event Aggregator : Type}.
Variable Aggregator_flush : Aggregator -> outcome (list Metric) * Aggregator.
Variable Aggregator_flush_events :
  Aggregator -> outcome (list Event) * Aggregator.
Variable http_emitter : payload Metric -> outcome unit.

Ltac run :=
  unfold aggregator_flush, aggregator_flush_events, call_emitter, logm, when,
    mbind, M_bind, mret, M_ret, lift;
  unfold bind, ret, get, modify, raise;
  cbn beta iota zeta delta
    [aggregator flush_count log_count api_host emitted log set_aggregator
     set_flush_count set_log_count set_emitted set_log negb fst snd].

Ltac norm := repeat (run; rewrite ?no_count, ?some_count).

Ltac outcomes :=
  repeat match goal with
    | |- context [Aggregator_flush ?a] =>
        destruct (Aggregator_flush a) as [[[|? ?]|?] ?]; norm
    | |- context [Aggregator_flush_events ?a] =>
        destruct (Aggregator_flush_events a) as [[[|? ?]|?] ?]; norm
    | |- context [http_emitter ?p] =>
        destruct (http_emitter p) as [[]|?]; norm
    | |- context [is_Exception ?e] => destruct (is_Exception e); norm
    | |- context [(?x mod FLUSH_LOGGING_PERIOD =? 0)%Z] =>
        destruct (x mod FLUSH_LOGGING_PERIOD =? 0)%Z; norm
    | |- context [(?x =? FLUSH_LOGGING_INITIAL)%Z] =>
        destruct (x =? FLUSH_LOGGING_INITIAL)%Z; norm
    end.

Lemma flush_effect r :
  let r' := snd (flush Aggregator_flush Aggregator_flush_events http_emitter r) in
  flush_count r' = (flush_count r + 1)%Z /\
  api_host r' = api_host r /\
  (exists p, emitted r' = emitted r ++ p /\ length p <= 1) /\
  (exists l, log r' = log r ++ l).
Proof.
  cbn zeta. unfold flush, try_except. norm. outcomes.
  all: cbn [snd]; norm; (split; [reflexivity|]); (split; [reflexivity|]);
    split; cbn [emitted log]; rewrite <- ?app_assoc; eexists;
    try (split; [try reflexivity; symmetry; apply app_nil_r|cbn; lia]);
    try reflexivity; try (symmetry; apply app_nil_r).
Qed.

(** X23.  Every call of [flush] is counted, whatever the aggregator and
    the emitter do, also when they raise: [flush_count] grows by one, the
    emitter is called at most once, and the log only grows. *)
Theorem flush_is_always_counted r :
  let r' := snd (flush Aggregator_flush Aggregator_flush_events http_emitter r) in
  flush_count r' = (flush_count r + 1)%Z /\
  api_host r' = api_host r /\
  (exists p, emitted r' = emitted r ++ p /\ length p <= 1) /\
  (exists l, log r' = log r ++ l).
Proof. apply flush_effect. Qed.

(** X24.  Metrics the emitter fails to send are lost: the aggregator has
    been flushed before the emitter is called, the error of the emitter is
    logged, and the flush goes on with the events and returns. *)
Theorem failed_emission_is_dropped r m ms a1 events a2 e :
  Aggregator_flush (aggregator r) = (Return (m :: ms), a1) ->
  http_emitter (Metrics (m :: ms)) = Raise e ->
  is_Exception e = true ->
  Aggregator_flush_events a1 = (Return events, a2) ->
  exists r',
    flush Aggregator_flush Aggregator_flush_events http_emitter r =
    (Return tt, r') /\
    aggregator r' = a2 /\
    emitted r' = emitted r ++ [Metrics (m :: ms)] /\
    (exception, "Error running emitter.") ∈ log r'.
Proof.
  intros H1 H2 He H3. unfold flush, try_except. norm. rewrite H1. norm.
  destruct ((flush_count r + 1) mod FLUSH_LOGGING_PERIOD =? 0)%Z; norm.
  all: unfold try_except; norm; rewrite H2, He; norm; rewrite H3; norm.
  all: destruct events as [|ev events]; norm.
  all: destruct (flush_count r + 1 =? FLUSH_LOGGING_INITIAL)%Z; norm.
  all: eexists; split; [reflexivity|]; split; [reflexivity|];
    split; [reflexivity|]; norm.
  all: rewrite !elem_of_app, list_elem_of_singleton; tauto.
Qed.

Lemma next_log_count n :
  ((n + 1) mod 70 <> 0 -> (n + 1) mod 70 = n mod 70 + 1)%Z.
Proof. intros H. Z.to_euclidean_division_equations. lia. Qed.

(** X25.  When the aggregator returns, [log_count] follows [flush_count]
    modulo 70 from one flush to the next, so that the record of flush [n]
    is logged at the level [info] when [n <= 10] or [n mod 70 <= 5], and
    at the level [debug] otherwise. *)
Theorem flush_log_cadence r metrics a1 events a2 :
  Aggregator_flush (aggregator r) = (Return metrics, a1) ->
  Aggregator_flush_events a1 = (Return events, a2) ->
  (forall p e, http_emitter p = Raise e -> is_Exception e = true) ->
  log_count r = (flush_count r mod FLUSH_LOGGING_PERIOD)%Z ->
  exists r',
    flush Aggregator_flush Aggregator_flush_events http_emitter r =
    (Return tt, r') /\
    flush_count r' = (flush_count r + 1)%Z /\
    log_count r' = (flush_count r' mod FLUSH_LOGGING_PERIOD)%Z /\
    (ReporterCases.flush_level (flush_count r'),
     ReporterCases.flush_record (flush_count r')
       (Z.of_nat (length metrics)) (Z.of_nat (length events))) ∈ log r'.
Proof.
  intros H1 H2 Ht Hinv. unfold flush, try_except. norm. rewrite H1. norm.
  unfold ReporterCases.flush_level, ReporterCases.flush_record.
  change FLUSH_LOGGING_PERIOD with 70%Z in *.
  destruct ((flush_count r + 1) mod 70 =? 0)%Z eqn:E; norm.
  all: destruct metrics as [|m metrics]; norm.
  all: try (unfold try_except; norm;
            destruct (http_emitter (Metrics (m :: metrics))) as [[]|e] eqn:He;
            [|rewrite (Ht _ e He)]; norm).
  all: rewrite H2; norm.
  all: destruct events as [|ev events]; norm.
  all: destruct (flush_count r + 1 =? FLUSH_LOGGING_INITIAL)%Z; norm.
  all: eexists; split; [reflexivity|]; split; [reflexivity|]; norm.
  all: first
    [ apply Z.eqb_eq in E; rewrite E; split; [reflexivity|]
    | apply Z.eqb_neq in E; rewrite (next_log_count _ E), Hinv;
      split; [reflexivity|] ].
  all: rewrite !elem_of_app, !list_elem_of_singleton; tauto.
Qed.

Lemma flush_returns r :
  (forall a e a', Aggregator_flush a = (Raise e, a') -> is_Exception e = true) ->
  (forall a e a',
     Aggregator_flush_events a = (Raise e, a') -> is_Exception e = true) ->
  (forall p e, http_emitter p = Raise e -> is_Exception e = true) ->
  exists r',
    flush Aggregator_flush Aggregator_flush_events http_emitter r =
    (Return tt, r').
Proof.
  intros Ha Hb Hc.
  destruct (flush Aggregator_flush Aggregator_flush_events http_emitter r)
    as [[[]|e] r'] eqn:H; [eexists; reflexivity|].
  exfalso. revert H. unfold flush, try_except. norm.
  destruct (Aggregator_flush (aggregator r)) as [[metrics|e0] a1] eqn:H1; norm.
  2: { rewrite (Ha _ _ _ H1). discriminate. }
  destruct ((flush_count r + 1) mod FLUSH_LOGGING_PERIOD =? 0)%Z; norm.
  all: destruct metrics as [|m metrics]; norm.
  all: try (unfold try_except; norm;
            destruct (http_emitter (Metrics (m :: metrics))) as [[]|e1] eqn:He;
            [|rewrite (Hc _ e1 He)]; norm).
  all: destruct (Aggregator_flush_events a1) as [[events|e2] a2] eqn:H2; norm;
    [|rewrite (Hb _ _ _ H2); discriminate].
  all: destruct events as [|ev events]; norm.
  all: destruct (flush_count r + 1 =? FLUSH_LOGGING_INITIAL)%Z; norm;
    discriminate.
Qed.

Lemma run_flushes k : forall rest r,
  (forall a e a', Aggregator_flush a = (Raise e, a') -> is_Exception e = true) ->
  (forall a e a',
     Aggregator_flush_events a = (Raise e, a') -> is_Exception e = true) ->
  (forall p e, http_emitter p = Raise e -> is_Exception e = true) ->
  exists r',
    run Aggregator_flush Aggregator_flush_events http_emitter
      (replicate k false ++ true :: rest) r = (Return tt, r') /\
    flush_count r' = (flush_count r + Z.of_nat k + 1)%Z.
Proof.
  induction k as [|k IH]; intros rest r Ha Hb Hc.
  - cbn [replicate app run]. unfold mbind, M_bind, bind.
    destruct (flush_returns r Ha Hb Hc) as (r1 & H1).
    destruct (flush_effect r) as (F & _). cbn zeta in F.
    rewrite H1 in *. cbn [snd] in F.
    exists r1. split; [reflexivity|]. rewrite F. lia.
  - cbn [replicate app run]. unfold mbind, M_bind, bind.
    destruct (flush_returns r Ha Hb Hc) as (r1 & H1).
    destruct (flush_effect r) as (F & _). cbn zeta in F.
    rewrite H1 in *. cbn [snd] in F.
    destruct (IH rest r1 Ha Hb Hc) as (r' & H2 & F2).
    exists r'. split; [exact H2|]. rewrite F2, F. lia.
Qed.

(** X26.  The loop of [run] flushes once after every wait, also after the
    wait during which [stop] was called: when [stop] comes during wait
    number [k + 1], the reporter has flushed [k + 1] times when [run]
    returns, and no later wait takes place. *)
Theorem run_flushes_once_more_after_stop k rest r :
  (forall a e a', Aggregator_flush a = (Raise e, a') -> is_Exception e = true) ->
  (forall a e a',
     Aggregator_flush_events a = (Raise e, a') -> is_Exception e = true) ->
  (forall p e, http_emitter p = Raise e -> is_Exception e = true) ->
  exists r',
    run Aggregator_flush Aggregator_flush_events http_emitter
      (replicate k false ++ true :: rest) r = (Return tt, r') /\
    flush_count r' = (flush_count r + Z.of_nat k + 1)%Z.
Proof. apply run_flushes. Qed.

End Facts.

(** *** Runs on a concrete reporter *)

Lemma failed_emission_is_dropped_witness :
  exists r',
    flush ReporterExamples.buffer_flush ReporterExamples.no_events
      ReporterCases.refuse ReporterExamples.reporter0 = (Return tt, r') /\
    aggregator r' = [] /\
    (exception, "Error running emitter.") ∈ log r'.
Proof.
  destruct (failed_emission_is_dropped ReporterExamples.buffer_flush
              ReporterExamples.no_events ReporterCases.refuse
              ReporterExamples.reporter0 ("cpu.idle_perc", 97%Z) [] [] [] []
              (Exception "connection refused")
              eq_refl eq_refl eq_refl eq_refl)
    as (r' & H1 & H2 & _ & H4).
  exists r'. split; [exact H1|]. split; [exact H2|exact H4].
Defined.

Lemma flush_log_cadence_witness :
  exists r',
    flush ReporterExamples.buffer_flush ReporterExamples.no_events
      ReporterExamples.accept ReporterExamples.reporter0 = (Return tt, r') /\
    log_count r' = 1%Z /\
    (info, "Flush #1: flushed 1 metric and 0 events") ∈ log r'.
Proof.
  destruct (flush_log_cadence ReporterExamples.buffer_flush
              ReporterExamples.no_events ReporterExamples.accept
              ReporterExamples.reporter0 [("cpu.idle_perc", 97%Z)] [] [] []
              eq_refl eq_refl)
    as (r' & H1 & H2 & H3 & H4);
    [intros p e H; discriminate H | reflexivity |].
  exists r'. split; [exact H1|]. rewrite H2 in H3, H4.
  split; [exact H3|exact H4].
Defined.

Lemma run_flushes_once_more_after_stop_witness :
  exists r',
    run ReporterExamples.buffer_flush ReporterExamples.no_events
      ReporterExamples.accept [false; false; true; false]
      ReporterExamples.reporter0 = (Return tt, r') /\
    flush_count r' = 3%Z.
Proof.
  destruct (run_flushes_once_more_after_stop ReporterExamples.buffer_flush
              ReporterExamples.no_events ReporterExamples.accept
              2 [false] ReporterExamples.reporter0)
    as (r' & H1 & H2);
    [intros a e a' H; discriminate H | intros a e a' H; discriminate H
    | intros p e H; discriminate H |].
  exists r'. split; [exact H1|exact H2].
Defined.

End ReporterMore.
